(** * thingmagic_m5e: circular buffer, USART line and M5e reader protocol

    A shallow embedding of [circular_buffer.c], [usart.c] and [rfid_m5.c].
    Machine integers are [Z] with their wrap-around written out ([u8],
    [u16]); C arrays are lists accessed through stdpp's lookup and insert;
    every C function is a Rocq function that takes the objects it mutates
    and returns their new values. *)

From Stdlib Require Import ZArith Lia Bool List.
From stdpp Require Import base tactics list numbers.

Local Open Scope Z_scope.

(** ** Machine arithmetic *)

Definition u8 (x : Z) : Z := x mod 256.
Definition u16 (x : Z) : Z := x mod 65536.

Definition TRUE : Z := 1.
Definition FALSE : Z := 0.

(** [*(p + i)] for a byte array held in a list. *)
Definition peek (l : list Z) (i : Z) : Z := l !!! Z.to_nat i.

(** [*(p + i) = v]. *)
Definition poke (l : list Z) (i : Z) (v : Z) : list Z := <[Z.to_nat i := v]> l.

(** ** circular_buffer.h: [struct cbuffer_t] *)

Record cbuffer_t := Cbuffer {
  cb_buffer : list Z;
  cb_idx : Z;
  cb_start : Z;
  cb_TOP : Z;
  cb_size : Z;
  cb_len : Z;
  cb_overflow : bool
}.

Section CircularBuffer.

(** Compile-time configuration: the mandatory [CBUF_SIZE] and the optional
    [CBUF_OVR_CHAR] ([None] when the macro is not defined). *)
Variable CBUF_SIZE : Z.
Variable CBUF_OVR_CHAR : option Z.

Definition cbuffer_clear (cbuffer : cbuffer_t) : cbuffer_t :=
  {| cb_buffer := cb_buffer cbuffer;
     cb_idx := 0;
     cb_start := 0;
     cb_TOP := cb_TOP cbuffer;
     cb_size := cb_size cbuffer;
     cb_len := 0;
     cb_overflow := false |}.

(** [cbuffer_init], for the storage [mem] that [malloc(CBUF_SIZE)] hands
    out (its contents are indeterminate, so they are an argument). *)
Definition cbuffer_init (mem : list Z) : cbuffer_t :=
  cbuffer_clear
    {| cb_buffer := mem;
       cb_idx := 0;
       cb_start := 0;
       cb_TOP := u8 (CBUF_SIZE - 1);
       cb_size := u8 CBUF_SIZE;
       cb_len := 0;
       cb_overflow := false |}.

(** [bcpy]: returns the buffer, the message area and the new [j]. *)
Definition bcpy (cbuffer : cbuffer_t) (data : list Z) (size j : Z)
  : cbuffer_t * list Z * Z :=
  let '(data, j) :=
    if j <? size
    then (poke data j (peek (cb_buffer cbuffer) (cb_start cbuffer)), u8 (j + 1))
    else (data, j) in
  let buffer :=
    match CBUF_OVR_CHAR with
    | Some c => poke (cb_buffer cbuffer) (cb_start cbuffer) (u8 c)
    | None => cb_buffer cbuffer
    end in
  let start :=
    if cb_start cbuffer =? cb_TOP cbuffer then 0 else u8 (cb_start cbuffer + 1) in
  ({| cb_buffer := buffer;
      cb_idx := cb_idx cbuffer;
      cb_start := start;
      cb_TOP := cb_TOP cbuffer;
      cb_size := cb_size cbuffer;
      cb_len := u8 (cb_len cbuffer - 1);
      cb_overflow := cb_overflow cbuffer |}, data, j).

Definition set_overflow (cbuffer : cbuffer_t) (o : bool) : cbuffer_t :=
  {| cb_buffer := cb_buffer cbuffer;
     cb_idx := cb_idx cbuffer;
     cb_start := cb_start cbuffer;
     cb_TOP := cb_TOP cbuffer;
     cb_size := cb_size cbuffer;
     cb_len := cb_len cbuffer;
     cb_overflow := o |}.

(** The [while ((cbuffer->start != index) && (j < size))] loop of
    [cbuffer_pop].  Every iteration runs with [j < size] and increments
    [j], so the loop makes at most [size] iterations; the recursion is on
    that bound ([pop_loop_exit] shows the bound is never what stops it). *)
Fixpoint pop_loop (n : nat) (cbuffer : cbuffer_t) (data : list Z)
    (size index j : Z) : cbuffer_t * list Z * Z :=
  match n with
  | O => (cbuffer, data, j)
  | S n' =>
      if negb (cb_start cbuffer =? index) && (j <? size)
      then let '(cbuffer', data', j') := bcpy cbuffer data size j in
           pop_loop n' cbuffer' data' size index j'
      else (cbuffer, data, j)
  end.

Definition cbuffer_pop (cbuffer : cbuffer_t) (data : list Z) (size : Z)
  : cbuffer_t * list Z * Z :=
  if cb_len cbuffer =? 0 then (cbuffer, data, 0)
  else
    let index := cb_idx cbuffer in
    let '(c1, d1, j1) :=
      if cb_overflow cbuffer then bcpy cbuffer data size 0
      else (cbuffer, data, 0) in
    let '(c2, d2, j2) := pop_loop (Z.to_nat size) c1 d1 size index j1 in
    (set_overflow c2 false, d2, j2).

(** The [while (loop && (cbuffer->start != index))] loop of
    [cbuffer_popm].  It has no bound of its own: [None] is "the fuel ran
    out before the loop condition became false". *)
Fixpoint popm_loop (fuel : nat) (cbuffer : cbuffer_t) (data : list Z)
    (size eom index j : Z) (loop : bool) : option (cbuffer_t * list Z * Z) :=
  if loop && negb (cb_start cbuffer =? index) then
    match fuel with
    | O => None
    | S fuel' =>
        let loop' :=
          if peek (cb_buffer cbuffer) (cb_start cbuffer) =? eom
          then false else loop in
        let '(cbuffer', data', j') := bcpy cbuffer data size j in
        popm_loop fuel' cbuffer' data' size eom index j' loop'
    end
  else Some (cbuffer, data, j).

(** [cbuffer_popm].  [cbuffer->start] is a [uint8_t] and changes at every
    iteration of the loop, so 256 iterations are enough for any run that
    ends. *)
Definition cbuffer_popm (cbuffer : cbuffer_t) (data : list Z) (size eom : Z)
  : option (cbuffer_t * list Z * Z) :=
  if cb_len cbuffer =? 0 then Some (cbuffer, data, 0)
  else
    let index := cb_idx cbuffer in
    let '(c1, d1, j1, loop) :=
      if cb_overflow cbuffer then
        let loop :=
          if peek (cb_buffer cbuffer) (cb_start cbuffer) =? eom
          then false else true in
        (bcpy cbuffer data size 0, loop)
      else (cbuffer, data, 0, true) in
    match popm_loop 256 c1 d1 size eom index j1 loop with
    | Some (c2, d2, j2) => Some (set_overflow c2 false, d2, j2)
    | None => None
    end.

Definition cbuffer_push (cbuffer : cbuffer_t) (rxc : Z) : cbuffer_t * Z :=
  if cb_overflow cbuffer then (cbuffer, FALSE)
  else
    let overflow :=
      if negb (cb_start cbuffer =? 0) then
        (if cb_idx cbuffer =? cb_start cbuffer - 1 then true
         else cb_overflow cbuffer)
      else
        (if cb_idx cbuffer =? cb_TOP cbuffer then true
         else cb_overflow cbuffer) in
    let buffer := poke (cb_buffer cbuffer) (cb_idx cbuffer) (u8 rxc) in
    let idx :=
      if cb_idx cbuffer =? cb_TOP cbuffer then 0 else u8 (cb_idx cbuffer + 1) in
    ({| cb_buffer := buffer;
        cb_idx := idx;
        cb_start := cb_start cbuffer;
        cb_TOP := cb_TOP cbuffer;
        cb_size := cb_size cbuffer;
        cb_len := u8 (cb_len cbuffer + 1);
        cb_overflow := overflow |}, TRUE).

(** A run of pushes: the final buffer and the value each push returned. *)
Fixpoint push_all (cbuffer : cbuffer_t) (rxcs : list Z) : cbuffer_t * list Z :=
  match rxcs with
  | [] => (cbuffer, [])
  | rxc :: rest =>
      let '(c1, r) := cbuffer_push cbuffer rxc in
      let '(c2, rs) := push_all c1 rest in
      (c2, r :: rs)
  end.

End CircularBuffer.


(** ** usart.h: [struct usart_t]

    The [flags] union is held as its three bit-fields; [flags.all = 0]
    clears the three of them. *)

Record usart_t := Usart {
  us_rx : cbuffer_t;
  us_tx : list Z;
  us_tx_size : Z;
  fl_b0 : Z;
  fl_b1 : Z;
  fl_eol : Z
}.

(** ** rfid_m5.h: [struct rfid_t]

    [rfid_usart] is the pointer to the line, held as its port number. *)

Record rfid_t := Rfid {
  rfid_size : Z;
  rfid_usart : Z;
  rfid_data : list Z;
  rfid_soh : Z;
  rfid_len : Z;
  rfid_opcode : Z;
  rfid_status : Z;
  rfid_crc : Z;
  rfid_error : Z
}.

(** ** The globals and the hardware the code touches

    [usart0], [usart1] and [rfid] are the global pointers of the source,
    [UCSR0B] and [UCSR1B] the control registers that enable the receive
    interrupt, [UDR0_tx] and [UDR1_tx] the bytes written to the transmit
    registers (oldest first).  [line1] is what the reader module puts on
    the RX pin of port 1: one list of bytes for each call of [_delay_ms],
    the bytes that arrive while that call waits.  The code is built with
    [USE_USART1], which the reader's port needs. *)

Record mcu_t := Mcu {
  usart0 : usart_t;
  usart1 : usart_t;
  rfid : rfid_t;
  UCSR0B : Z;
  UCSR1B : Z;
  UDR0_tx : list Z;
  UDR1_tx : list Z;
  line1 : list (list Z)
}.

Definition set_usart0 (m : mcu_t) (u : usart_t) : mcu_t :=
  Mcu u (usart1 m) (rfid m) (UCSR0B m) (UCSR1B m) (UDR0_tx m) (UDR1_tx m) (line1 m).
Definition set_usart1 (m : mcu_t) (u : usart_t) : mcu_t :=
  Mcu (usart0 m) u (rfid m) (UCSR0B m) (UCSR1B m) (UDR0_tx m) (UDR1_tx m) (line1 m).
Definition set_rfid (m : mcu_t) (r : rfid_t) : mcu_t :=
  Mcu (usart0 m) (usart1 m) r (UCSR0B m) (UCSR1B m) (UDR0_tx m) (UDR1_tx m) (line1 m).
Definition set_UCSR0B (m : mcu_t) (v : Z) : mcu_t :=
  Mcu (usart0 m) (usart1 m) (rfid m) v (UCSR1B m) (UDR0_tx m) (UDR1_tx m) (line1 m).
Definition set_UCSR1B (m : mcu_t) (v : Z) : mcu_t :=
  Mcu (usart0 m) (usart1 m) (rfid m) (UCSR0B m) v (UDR0_tx m) (UDR1_tx m) (line1 m).
Definition set_UDR0_tx (m : mcu_t) (l : list Z) : mcu_t :=
  Mcu (usart0 m) (usart1 m) (rfid m) (UCSR0B m) (UCSR1B m) l (UDR1_tx m) (line1 m).
Definition set_UDR1_tx (m : mcu_t) (l : list Z) : mcu_t :=
  Mcu (usart0 m) (usart1 m) (rfid m) (UCSR0B m) (UCSR1B m) (UDR0_tx m) l (line1 m).
Definition set_line1 (m : mcu_t) (l : list (list Z)) : mcu_t :=
  Mcu (usart0 m) (usart1 m) (rfid m) (UCSR0B m) (UCSR1B m) (UDR0_tx m) (UDR1_tx m) l.

Definition set_rx (u : usart_t) (c : cbuffer_t) : usart_t :=
  Usart c (us_tx u) (us_tx_size u) (fl_b0 u) (fl_b1 u) (fl_eol u).
Definition set_tx (u : usart_t) (t : list Z) : usart_t :=
  Usart (us_rx u) t (us_tx_size u) (fl_b0 u) (fl_b1 u) (fl_eol u).
Definition set_eol (u : usart_t) (e : Z) : usart_t :=
  Usart (us_rx u) (us_tx u) (us_tx_size u) (fl_b0 u) (fl_b1 u) e.
Definition clear_flags (u : usart_t) : usart_t :=
  Usart (us_rx u) (us_tx u) (us_tx_size u) 0 0 0.

Definition set_data (r : rfid_t) (d : list Z) : rfid_t :=
  Rfid (rfid_size r) (rfid_usart r) d (rfid_soh r) (rfid_len r)
       (rfid_opcode r) (rfid_status r) (rfid_crc r) (rfid_error r).
Definition set_soh (r : rfid_t) (v : Z) : rfid_t :=
  Rfid (rfid_size r) (rfid_usart r) (rfid_data r) v (rfid_len r)
       (rfid_opcode r) (rfid_status r) (rfid_crc r) (rfid_error r).
Definition set_len (r : rfid_t) (v : Z) : rfid_t :=
  Rfid (rfid_size r) (rfid_usart r) (rfid_data r) (rfid_soh r) v
       (rfid_opcode r) (rfid_status r) (rfid_crc r) (rfid_error r).
Definition set_opcode (r : rfid_t) (v : Z) : rfid_t :=
  Rfid (rfid_size r) (rfid_usart r) (rfid_data r) (rfid_soh r) (rfid_len r)
       v (rfid_status r) (rfid_crc r) (rfid_error r).
Definition set_status (r : rfid_t) (v : Z) : rfid_t :=
  Rfid (rfid_size r) (rfid_usart r) (rfid_data r) (rfid_soh r) (rfid_len r)
       (rfid_opcode r) v (rfid_crc r) (rfid_error r).
Definition set_crc (r : rfid_t) (v : Z) : rfid_t :=
  Rfid (rfid_size r) (rfid_usart r) (rfid_data r) (rfid_soh r) (rfid_len r)
       (rfid_opcode r) (rfid_status r) v (rfid_error r).
Definition set_error (r : rfid_t) (v : Z) : rfid_t :=
  Rfid (rfid_size r) (rfid_usart r) (rfid_data r) (rfid_soh r) (rfid_len r)
       (rfid_opcode r) (rfid_status r) (rfid_crc r) v.

(** ** usart.c *)

Section Usart.

Variable CBUF_OVR_CHAR : option Z.
(** [USART0_EOL] and [USART1_EOL]: [None] when the macro is not defined. *)
Variable USART0_EOL : option Z.
Variable USART1_EOL : option Z.

(** The body the two receive interrupts share: [flags.eol] is a 6-bit
    field, so [flags.eol++] is an increment modulo 64. *)
Definition rx_isr (EOL : option Z) (u : usart_t) (rxc : Z) : usart_t :=
  let u1 :=
    match EOL with
    | Some eol =>
        if rxc =? eol then set_eol u ((fl_eol u + 1) mod 64) else u
    | None => u
    end in
  set_rx u1 (fst (cbuffer_push (us_rx u1) rxc)).

(** [ISR(USART0_RX_vect)], with [rxc] the byte read from [UDR0]. *)
Definition ISR_USART0_RX_vect (m : mcu_t) (rxc : Z) : mcu_t :=
  set_usart0 m (rx_isr USART0_EOL (usart0 m) rxc).

(** [ISR(USART1_RX_vect)]. *)
Definition ISR_USART1_RX_vect (m : mcu_t) (rxc : Z) : mcu_t :=
  set_usart1 m (rx_isr USART1_EOL (usart1 m) rxc).

(** [_BV(RXCIE)], [_BV(RXEN)], [_BV(TXEN)] *)
Definition RXCIE : Z := 128.
Definition RXEN : Z := 16.
Definition TXEN : Z := 8.

Definition usart_resume (port : Z) (m : mcu_t) : mcu_t :=
  if negb (port =? 0) then
    let u := usart1 m in
    let u := set_rx u (cbuffer_clear (us_rx u)) in
    let u := clear_flags u in
    let u := set_tx u (poke (us_tx u) 0 0) in
    set_UCSR1B (set_usart1 m u) (Z.lor (Z.lor RXCIE RXEN) TXEN)
  else
    let u := usart0 m in
    let u := set_rx u (cbuffer_clear (us_rx u)) in
    let u := clear_flags u in
    let u := set_tx u (poke (us_tx u) 0 0) in
    set_UCSR0B (set_usart0 m u) (Z.lor (Z.lor RXCIE RXEN) TXEN).

(** [usart_suspend]; the read of the receive register that follows has no
    effect on what is modelled here. *)
Definition usart_suspend (port : Z) (m : mcu_t) : mcu_t :=
  if negb (port =? 0) then set_UCSR1B m 0 else set_UCSR0B m 0.

Definition usart_clear_rx_buffer (port : Z) (m : mcu_t) : mcu_t :=
  if negb (port =? 0) then
    let u := set_eol (usart1 m) 0 in
    set_usart1 m (set_rx u (cbuffer_clear (us_rx u)))
  else
    let u := set_eol (usart0 m) 0 in
    set_usart0 m (set_rx u (cbuffer_clear (us_rx u))).

(** [usart_get]: the machine, the area [s] and [ok]. *)
Definition usart_get (port : Z) (m : mcu_t) (s : list Z) (size : Z)
  : mcu_t * list Z * Z :=
  if negb (port =? 0) then
    let '(c, s', ok) := cbuffer_pop CBUF_OVR_CHAR (us_rx (usart1 m)) s size in
    (set_usart1 m (set_rx (usart1 m) c), s', ok)
  else
    let '(c, s', ok) := cbuffer_pop CBUF_OVR_CHAR (us_rx (usart0 m)) s size in
    (set_usart0 m (set_rx (usart0 m) c), s', ok).

Definition getmsg_line (EOL : option Z) (u : usart_t) (s : list Z) (size : Z)
  : option (usart_t * list Z * Z) :=
  match EOL with
  | Some eol =>
      match cbuffer_popm CBUF_OVR_CHAR (us_rx u) s size eol with
      | Some (c, s', ok) =>
          let u1 := set_rx u c in
          let u2 :=
            if negb (ok =? 0) && negb (fl_eol u1 =? 0)
            then set_eol u1 ((fl_eol u1 - 1) mod 64) else u1 in
          Some (u2, s', ok)
      | None => None
      end
  | None => Some (u, s, 0)
  end.

(** [usart_getmsg]; [None] only when the loop of [cbuffer_popm] does not
    end. *)
Definition usart_getmsg (port : Z) (m : mcu_t) (s : list Z) (size : Z)
  : option (mcu_t * list Z * Z) :=
  if negb (port =? 0) then
    match getmsg_line USART1_EOL (usart1 m) s size with
    | Some (u, s', ok) => Some (set_usart1 m u, s', ok)
    | None => None
    end
  else
    match getmsg_line USART0_EOL (usart0 m) s size with
    | Some (u, s', ok) => Some (set_usart0 m u, s', ok)
    | None => None
    end.

(** [usart_putchar]: once the transmit register is free the byte goes
    out. *)
Definition usart_putchar (port : Z) (m : mcu_t) (c : Z) : mcu_t :=
  if negb (port =? 0) then set_UDR1_tx m (UDR1_tx m ++ [c])
  else set_UDR0_tx m (UDR0_tx m ++ [c]).

(** [_delay_ms]: the receive interrupt of port 1 runs once for every byte
    that arrives during the wait, when the interrupt is enabled. *)
Definition delay_ms (m : mcu_t) : mcu_t :=
  match line1 m with
  | [] => m
  | bytes :: rest =>
      let m1 := set_line1 m rest in
      if Z.testbit (UCSR1B m1) 7
      then fold_left ISR_USART1_RX_vect bytes m1
      else m1
  end.

(** The [while] loop of [usart_printstr], which sends the character at [s]
    and steps [s] until that character is NUL, on the characters from [s]
    to the end of its array; [None] when the loop runs off the array
    without meeting the NUL. *)
Fixpoint printstr_loop (port : Z) (m : mcu_t) (s : list Z) : option mcu_t :=
  match s with
  | [] => None
  | c :: s' =>
      if negb (c =? 0) then printstr_loop port (usart_putchar port m (u8 c)) s'
      else Some m
  end.

(** [usart_printstr]; [None] for [s] is the NULL pointer. *)
Definition usart_printstr (port : Z) (m : mcu_t) (s : option (list Z))
  : option mcu_t :=
  if negb (port =? 0) then
    let s := match s with Some l => l | None => us_tx (usart1 m) end in
    printstr_loop port m s
  else
    let s := match s with Some l => l | None => us_tx (usart0 m) end in
    printstr_loop port m s.

End Usart.

(** ** rfid_m5.c *)

Definition RFID_USART : Z := 1.
Definition RFID_USART_PORT : Z := 1.

(** The stages of [rx_pkt], as its [#define]s number them. *)
Definition END : Z := 0.
Definition SOH : Z := 1.
Definition LEN : Z := 2.
Definition CMD : Z := 3.
Definition STATUS : Z := 4.
Definition DATA : Z := 5.
Definition CRC : Z := 6.

(** One turn of the [for] loop of [CRC_calcCrc8], on the register and the
    mask [dcdBitMask]. *)
Definition CRC_calcCrc8_turn (u8Data : Z) (st : Z * Z) : Z * Z :=
  let '(crcReg, dcdBitMask) := st in
  let xorFlag := Z.land crcReg 0x8000 in
  let crcReg := u16 (Z.shiftl crcReg 1) in
  let bit := if Z.land u8Data dcdBitMask =? dcdBitMask then 1 else 0 in
  let crcReg := Z.lor crcReg bit in
  let crcReg := if negb (xorFlag =? 0) then Z.lxor crcReg 0x1021 else crcReg in
  (crcReg, Z.shiftr dcdBitMask 1).

Definition CRC_calcCrc8 (crcReg : Z) (u8Data : Z) : Z :=
  fst (Nat.iter 8 (CRC_calcCrc8_turn u8Data) (crcReg, 0x80)).

(** [m5_crc], on the fields of the global [rfid]. *)
Definition m5_crc (r : rfid_t) (include_status : Z) : Z :=
  let crc16 := 0xffff in
  let crc16 := CRC_calcCrc8 crc16 (rfid_len r) in
  let crc16 := CRC_calcCrc8 crc16 (rfid_opcode r) in
  let crc16 :=
    if negb (include_status =? 0) then
      let crc16 := CRC_calcCrc8 crc16 (u8 (Z.shiftr (rfid_status r) 8)) in
      CRC_calcCrc8 crc16 (u8 (Z.land (rfid_status r) 0xff))
    else crc16 in
  fold_left (fun crc16 i => CRC_calcCrc8 crc16 (peek (rfid_data r) (Z.of_nat i)))
            (seq 0 (Z.to_nat (rfid_len r))) crc16.

Definition tx_pkt (m : mcu_t) : mcu_t :=
  let r := rfid m in
  let m := usart_putchar RFID_USART m (rfid_soh r) in
  let m := usart_putchar RFID_USART m (rfid_len r) in
  let m := usart_putchar RFID_USART m (rfid_opcode r) in
  let m :=
    fold_left (fun m i => usart_putchar RFID_USART m (peek (rfid_data r) (Z.of_nat i)))
              (seq 0 (Z.to_nat (rfid_len r))) m in
  let m := usart_putchar RFID_USART m (u8 (Z.shiftr (rfid_crc r) 8)) in
  usart_putchar RFID_USART m (u8 (Z.land (rfid_crc r) 0xff)).

(** The byte at offset [off] of a 16-bit field, and its replacement; the
    AVR is little-endian, offset 1 is the most significant byte. *)
Definition byte_at (w off : Z) : Z :=
  if off =? 0 then Z.land w 0xff else Z.shiftr w 8.
Definition with_byte_at (w off v : Z) : Z :=
  if off =? 0 then Z.lor (Z.land w 0xff00) v
  else Z.lor (Z.land w 0x00ff) (Z.shiftl v 8).

Section Rfid.

Variable CBUF_OVR_CHAR : option Z.
Variable USART1_EOL : option Z.
(** Whether [RFID_M5_LOWTXPWR] is defined. *)
Variable RFID_M5_LOWTXPWR : bool.

Definition RFID_M5_TX_RDBM_H : Z := 0x06.
Definition RFID_M5_TX_RDBM_L : Z := 0xf2.

(** [usart_get(RFID_USART_PORT, p, 1)] for a pointer [p] to one byte that
    holds [old]: the machine, the byte at [p] afterwards, and the result
    of the call. *)
Definition get_byte (m : mcu_t) (old : Z) : mcu_t * Z * Z :=
  let '(m', s, ok) := usart_get CBUF_OVR_CHAR RFID_USART_PORT m [old] 1 in
  (m', peek s 0, ok).

(** The code under [case STATUS:]. *)
Definition rx_case_STATUS (m : mcu_t) (i : Z) : mcu_t * Z * bool :=
  if i <? 2 then
    let off := 1 - i in
    let '(m1, b, ok) := get_byte m (byte_at (rfid_status (rfid m)) off) in
    let m2 := set_rfid m1 (set_status (rfid m1) (with_byte_at (rfid_status (rfid m1)) off b)) in
    (m2, if negb (ok =? 0) then u8 (i + 1) else i, false)
  else
    (set_rfid m (set_error (rfid m) DATA), 0, false).

(** The [switch] of [rx_pkt]: the machine, [i], and whether [timeout] was
    set to 1. *)
Definition rx_switch (m : mcu_t) (i : Z) : mcu_t * Z * bool :=
  let e := rfid_error (rfid m) in
  if e =? SOH then
    let '(m1, b, ok) := get_byte m (rfid_soh (rfid m)) in
    let m2 := set_rfid m1 (set_soh (rfid m1) b) in
    if negb (ok =? 0) && (rfid_soh (rfid m2) =? 0xff)
    then (set_rfid m2 (set_error (rfid m2) LEN), i, false)
    else (m2, i, false)
  else if e =? LEN then
    let '(m1, b, ok) := get_byte m (rfid_len (rfid m)) in
    let m2 := set_rfid m1 (set_len (rfid m1) b) in
    if negb (ok =? 0)
    then (set_rfid m2 (set_error (rfid m2) CMD), i, false)
    else (m2, i, false)
  else if e =? CMD then
    let '(m1, b, ok) := get_byte m (rfid_opcode (rfid m)) in
    let m2 := set_rfid m1 (set_opcode (rfid m1) b) in
    let '(m3, i3) :=
      if negb (ok =? 0)
      then (set_rfid m2 (set_error (rfid m2) STATUS), 0)
      else (m2, i) in
    (* no [break]: control goes on into [case STATUS:] *)
    rx_case_STATUS m3 i3
  else if e =? STATUS then
    rx_case_STATUS m i
  else if e =? DATA then
    if i <? rfid_len (rfid m) then
      let '(m1, b, ok) := get_byte m (peek (rfid_data (rfid m)) i) in
      let m2 := set_rfid m1 (set_data (rfid m1) (poke (rfid_data (rfid m1)) i b)) in
      (m2, if negb (ok =? 0) then u8 (i + 1) else i, false)
    else
      (set_rfid m (set_error (rfid m) CRC), 0, false)
  else if e =? CRC then
    if i <? 2 then
      let off := 1 - i in
      let '(m1, b, ok) := get_byte m (byte_at (rfid_crc (rfid m)) off) in
      let m2 := set_rfid m1 (set_crc (rfid m1) (with_byte_at (rfid_crc (rfid m1)) off b)) in
      (m2, if negb (ok =? 0) then u8 (i + 1) else i, false)
    else
      let m1 :=
        if m5_crc (rfid m) TRUE =? rfid_crc (rfid m)
        then set_rfid m (set_error (rfid m) END) else m in
      (m1, i, true)
  else
    (m, i, true).

(** The [while (timeout)] loop of [rx_pkt].  [timeout] is compared with
    zero, set to 1 and decremented, nothing else: it is a counter of the
    turns left, and the recursion is on it.  A turn that sets it to 1
    is the last one. *)
Fixpoint rx_loop (timeout : nat) (m : mcu_t) (i : Z) : mcu_t :=
  match timeout with
  | O => m
  | S timeout' =>
      let m1 := delay_ms USART1_EOL m in
      let '(m2, i2, last) := rx_switch m1 i in
      if last then m2 else rx_loop timeout' m2 i2
  end.

Definition rx_pkt (m : mcu_t) (timeout : Z) : mcu_t * Z :=
  let i := 0 in
  let m := set_rfid m (set_error (rfid m) SOH) in
  let m := rx_loop (Z.to_nat (u16 timeout)) m i in
  (m, rfid_error (rfid m)).

Definition send_cmd (m : mcu_t) : mcu_t * Z :=
  let cmd := rfid_opcode (rfid m) in
  let m := set_rfid m (set_soh (rfid m) 0xff) in
  let m := set_rfid m (set_crc (rfid m) (m5_crc (rfid m) FALSE)) in
  let m := tx_pkt m in
  let m := fst (rx_pkt m 500) in
  if (rfid_error (rfid m) =? 0)
     && (rfid_opcode (rfid m) =? cmd)
     && (rfid_status (rfid m) =? 0)
  then (m, TRUE)
  else (m, FALSE).

(** [rfid->len = l; rfid->opcode = op; rfid->data[0..] = bytes; send_cmd()],
    the shape of every step of [rfid_resume]. *)
Definition command (m : mcu_t) (l op : Z) (bytes : list Z) : mcu_t :=
  let r := set_opcode (set_len (rfid m) l) op in
  let d :=
    fold_left (fun d kb => poke d (Z.of_nat (fst kb)) (snd kb))
              (zip (seq 0 (length bytes)) bytes) (rfid_data r) in
  fst (send_cmd (set_rfid m (set_data r d))).

(** [rfid_resume], for the 255 bytes [mem] that [malloc(0xff)] hands out. *)
Definition rfid_resume (m : mcu_t) (mem : list Z) : mcu_t * Z :=
  let m := set_rfid m (set_data (rfid m) mem) in
  let m := usart_resume RFID_USART_PORT m in
  let m := delay_ms USART1_EOL m in
  let m := command m 0 0x04 [] in
  let m :=
    if negb (rfid_error (rfid m) =? 0) && (rfid_status (rfid m) =? 0x0101)
    then set_rfid m (set_error (rfid m) FALSE) else m in
  let m :=
    if rfid_error (rfid m) =? 0 then command m 0x01 0x97 [0x02] else m in
  let m :=
    if rfid_error (rfid m) =? 0 then command m 0x02 0x93 [0; 0x05] else m in
  let m :=
    if rfid_error (rfid m) =? 0 then command m 0x01 0x98 [0x03] else m in
  let m :=
    if RFID_M5_LOWTXPWR then
      if rfid_error (rfid m) =? 0
      then command m 0x02 0x92 [RFID_M5_TX_RDBM_H; RFID_M5_TX_RDBM_L] else m
    else m in
  let m :=
    if rfid_error (rfid m) =? 0 then command m 0x03 0x9a [0x01; 0x02; 0x01] else m in
  let m := set_rfid m (set_data (rfid m) []) in
  (m, rfid_error (rfid m)).

(** [RFID_M5_PASSWORD], the access code of the tags as the macro lists its
    bytes; [None] when the macro is not defined. *)
Variable RFID_M5_PASSWORD : option (list Z).

Definition RFID_M5_SINGULATION : list Z :=
  [0x11; 0x22; 0x33; 0x44; 0x55; 0x66; 0x00; 0x00; 0x00; 0x00; 0x00; 0x00; 0x00].

(** [memcpy(dst, src, n)] (and [memcpy_P], which reads program memory). *)
Definition memcpy (dst src : list Z) (n : Z) : list Z :=
  fold_left (fun d i => poke d (Z.of_nat i) (peek src (Z.of_nat i)))
            (seq 0 (Z.to_nat n)) dst.

(** [rfid_read], for the 255 bytes [mem] that [malloc(0xff)] hands out and
    the caller's area [data]: the machine, the area and [ok]. *)
Definition rfid_read (m : mcu_t) (mem data : list Z) : mcu_t * list Z * Z :=
  let m := set_rfid m (set_data (rfid m) mem) in
  let m := usart_clear_rx_buffer RFID_USART m in
  match RFID_M5_PASSWORD with
  | Some password =>
      let cmd_read :=
        [0x03; 0xe8; 0x02; 0x01; 0x00; 0x00; 0x00; 0x02; 0x08]
        ++ password ++ [0x00; 0x00; 0x00; 0x00] ++ RFID_M5_SINGULATION in
      let r := set_opcode (set_len (rfid m) 0x1e) 0x28 in
      let r := set_data r (memcpy (rfid_data r) cmd_read (rfid_len r)) in
      let '(m, ok) := send_cmd (set_rfid m r) in
      let data :=
        if negb (ok =? 0)
        then memcpy data (drop 1 (rfid_data (rfid m))) (rfid_size (rfid m))
        else data in
      (set_rfid m (set_data (rfid m) []), data, ok)
  | None =>
      let r := set_opcode (set_len (rfid m) 0x02) 0x21 in
      let r := set_data r (poke (poke (rfid_data r) 0 0x03) 1 0xe8) in
      let '(m, ok) := send_cmd (set_rfid m r) in
      let data :=
        if negb (ok =? 0)
        then memcpy data (rfid_data (rfid m)) (rfid_size (rfid m))
        else data in
      (set_rfid m (set_data (rfid m) []), data, ok)
  end.

Definition rfid_suspend (m : mcu_t) : mcu_t := usart_suspend RFID_USART_PORT m.

End Rfid.

(** * Specification vocabulary *)

(** ** The ring buffer *)

(** The capacity C of a buffer: [TOP] is [CBUF_SIZE - 1]. *)
Definition capacity (cb : cbuffer_t) : Z := cb_TOP cb + 1.

(** The bytes held, oldest first: [len] slots read from [start] on,
    circularly. *)
Definition backlog (cb : cbuffer_t) : list Z :=
  (fun k => peek (cb_buffer cb) ((cb_start cb + Z.of_nat k) mod capacity cb))
    <$> seq 0 (Z.to_nat (cb_len cb)).

(** Well-formed buffers: a storage of C bytes with C between 1 and 255,
    a read cursor inside it, at most C bytes held, and the write cursor
    [len] slots after the read cursor.  It holds between the statements of
    a drain too, where [overflow] is not yet cleared. *)
Definition wf (cb : cbuffer_t) : Prop :=
  1 <= capacity cb <= 255 /\
  Z.of_nat (length (cb_buffer cb)) = capacity cb /\
  0 <= cb_start cb < capacity cb /\
  0 <= cb_len cb <= capacity cb /\
  cb_idx cb = (cb_start cb + cb_len cb) mod capacity cb.

(** The invariant between calls: the latch is set exactly when the buffer
    is full. *)
Definition inv (cb : cbuffer_t) : Prop :=
  wf cb /\ (cb_overflow cb = true <-> cb_len cb = capacity cb).

(** What [cbuffer_popm] takes out of a backlog: everything up to and
    including the first [eom], or everything when there is none. *)
Fixpoint message (eom : Z) (l : list Z) : list Z :=
  match l with
  | [] => []
  | x :: l' => if x =? eom then [x] else x :: message eom l'
  end.

(** The states a buffer of [CBUF_SIZE] bytes can reach from [cbuffer_init]
    through [cbuffer_push], [cbuffer_pop], [cbuffer_popm] and
    [cbuffer_clear], called with [uint8_t] sizes. *)
Inductive reachable (CBUF_SIZE : Z) (CBUF_OVR_CHAR : option Z) : cbuffer_t -> Prop :=
  | reach_init mem :
      1 <= CBUF_SIZE <= 255 ->
      Z.of_nat (length mem) = CBUF_SIZE ->
      reachable CBUF_SIZE CBUF_OVR_CHAR (cbuffer_init CBUF_SIZE mem)
  | reach_clear cb :
      reachable CBUF_SIZE CBUF_OVR_CHAR cb ->
      reachable CBUF_SIZE CBUF_OVR_CHAR (cbuffer_clear cb)
  | reach_push cb rxc :
      reachable CBUF_SIZE CBUF_OVR_CHAR cb ->
      reachable CBUF_SIZE CBUF_OVR_CHAR (fst (cbuffer_push cb rxc))
  | reach_pop cb data size :
      reachable CBUF_SIZE CBUF_OVR_CHAR cb ->
      0 <= size <= 255 ->
      reachable CBUF_SIZE CBUF_OVR_CHAR
        (fst (fst (cbuffer_pop CBUF_OVR_CHAR cb data size)))
  | reach_popm cb data size eom cb' data' j :
      reachable CBUF_SIZE CBUF_OVR_CHAR cb ->
      0 <= size <= 255 ->
      cbuffer_popm CBUF_OVR_CHAR cb data size eom = Some (cb', data', j) ->
      reachable CBUF_SIZE CBUF_OVR_CHAR cb'.

(** [cbuffer_popm] as a drain that stops once [size] bytes are written and
    keeps the rest: with no [eom] among the first [size] bytes of a backlog
    longer than [size], the call returns [size] and the buffer still holds
    the bytes after the first [size]. *)
Definition popm_stops_at_size (CBUF_OVR_CHAR : option Z) : Prop :=
  forall cb data size eom cb' data' j,
    inv cb -> 0 <= size <= 255 -> Z.of_nat (length data) = size ->
    eom ∉ take (Z.to_nat size) (backlog cb) ->
    size < cb_len cb ->
    cbuffer_popm CBUF_OVR_CHAR cb data size eom = Some (cb', data', j) ->
    j = size /\ backlog cb' = drop (Z.to_nat size) (backlog cb).

(** A fresh buffer of the default 16 bytes. *)
Definition ring16 : cbuffer_t := cbuffer_init 16 (replicate 16 0).

(** ** The checksum, as the specification words it

    A 16-bit register that starts at 0xFFFF; every data bit, most
    significant bit of each byte first, is shifted into it from the right,
    and the polynomial 0x1021 is XORed in when the bit shifted out on the
    left was 1: eight such steps per byte. *)

Definition crc16_shift (crc : Z) (bit : bool) : Z :=
  let shifted := Z.lor (u16 (Z.shiftl crc 1)) (Z.b2z bit) in
  if Z.testbit crc 15 then Z.lxor shifted 0x1021 else shifted.

Definition crc16_byte (crc byte : Z) : Z :=
  fold_left (fun crc k => crc16_shift crc (Z.testbit byte k))
            [7; 6; 5; 4; 3; 2; 1; 0] crc.

Definition crc16 (bytes : list Z) : Z := fold_left crc16_byte bytes 0xFFFF.

(** The bytes the checksum of a frame covers: length, opcode, the status
    word (high byte, then low byte) for an inbound frame only, and the
    payload. *)
Definition crc_input (r : rfid_t) (include_status : Z) : list Z :=
  [rfid_len r; rfid_opcode r]
  ++ (if include_status =? 0 then []
      else [u8 (Z.shiftr (rfid_status r) 8); u8 (Z.land (rfid_status r) 0xff)])
  ++ take (Z.to_nat (rfid_len r)) (rfid_data r).

(** ** The line and the reader *)

(** How many bytes the receive buffer of the reader's line holds. *)
Definition rx_len (m : mcu_t) : Z := cb_len (us_rx (usart1 m)).

(** The turns of [rx_pkt] that wait for a byte: the three one-byte stages,
    and the counted stages while their count [i] is short.  [CMD] comes
    with the count too, because its turn runs the code of [STATUS] as
    well. *)
Definition waits_for_byte (m : mcu_t) (i : Z) : Prop :=
  let e := rfid_error (rfid m) in
  e = SOH \/ e = LEN \/ (e = CMD /\ i < 2) \/ (e = STATUS /\ i < 2) \/
  (e = DATA /\ i < rfid_len (rfid m)) \/ (e = CRC /\ i < 2).

(** [flags.eol] as a counter that saturates at 63. *)
Definition eol_saturates (USART0_EOL : option Z) : Prop :=
  forall m rxc,
    USART0_EOL = Some rxc -> 0 <= fl_eol (usart0 m) <= 63 ->
    fl_eol (usart0 (ISR_USART0_RX_vect USART0_EOL m rxc))
      = Z.min 63 (fl_eol (usart0 m) + 1).

(** One turn of the loop of [rx_pkt] takes at most one byte from the
    line's buffer. *)
Definition one_byte_per_turn (CBUF_OVR_CHAR : option Z) : Prop :=
  forall m i,
    inv (us_rx (usart1 m)) ->
    rx_len m - rx_len (fst (fst (rx_switch CBUF_OVR_CHAR m i))) <= 1.

(** The machine after [usart_init] on both ports and [rfid_init], with the
    default sizes; [lines] is what the reader module will send. *)
Definition mcu_init (lines : list (list Z)) : mcu_t :=
  {| usart0 := Usart ring16 (replicate 16 0) 16 0 0 0;
     usart1 := Usart ring16 (replicate 16 0) 16 0 0 0;
     rfid := Rfid 16 1 [] 0 0 0 0 0 0;
     UCSR0B := 0;
     UCSR1B := 0;
     UDR0_tx := [];
     UDR1_tx := [];
     line1 := lines |}.

(** The frame the reader module answers with: no payload, the opcode
    echoed, the status word [st], and the checksum of these. *)
Definition reply (op st : Z) : list Z :=
  let crc := crc16 [0; op; u8 (Z.shiftr st 8); u8 (Z.land st 0xff)] in
  [0xff; 0; op; u8 (Z.shiftr st 8); u8 (Z.land st 0xff);
   u8 (Z.shiftr crc 8); u8 (Z.land crc 0xff)].

(** A reply that arrives during the first wait of [rx_pkt], and the eight
    further waits the state machine takes to read it. *)
Definition exchange (op st : Z) : list (list Z) :=
  reply op st :: replicate 8 [].

(** The reader's line after [usart_resume], the state machine of [rx_pkt]
    waiting for the opcode, and the bytes 04 02 00 received since. *)
Definition mcu_at_CMD : mcu_t :=
  fold_left (ISR_USART1_RX_vect None) [0x04; 0x02; 0x00]
    (set_rfid (usart_resume RFID_USART_PORT (mcu_init []))
              (Rfid 16 1 [] 0xff 0 0 0 0 CMD)).

(** A machine whose port 0 has counted 63 line terminators. *)
Definition mcu_eol63 : mcu_t :=
  set_usart0 (mcu_init []) (set_eol (usart0 (mcu_init [])) 63).

(** What the reader module sends during [rfid_resume] when it answers the
    boot command with the status word [boot_status] and every later
    command with status 0: nothing during the first wait, then one
    exchange per command. *)
Definition bring_up_lines (boot_status : Z) : list (list Z) :=
  [[]] ++ exchange 0x04 boot_status ++ exchange 0x97 0 ++ exchange 0x93 0
  ++ exchange 0x98 0 ++ exchange 0x9a 0.

(** The line behind a port number, and the bytes it has sent. *)
Definition line (port : Z) (m : mcu_t) : usart_t :=
  if negb (port =? 0) then usart1 m else usart0 m.
Definition sent (port : Z) (m : mcu_t) : list Z :=
  if negb (port =? 0) then UDR1_tx m else UDR0_tx m.
Definition rx_interrupt (port : Z) (m : mcu_t) : bool :=
  Z.testbit (if negb (port =? 0) then UCSR1B m else UCSR0B m) 7.

(** ** Frames on the wire *)

(** The two bytes of a 16-bit word, most significant first. *)
Definition word_bytes (w : Z) : list Z :=
  [u8 (Z.shiftr w 8); u8 (Z.land w 0xff)].

(** An inbound frame: header, length, opcode, status word, payload and a
    checksum word [crc], right or wrong. *)
Definition frame_in (len op st : Z) (payload : list Z) (crc : Z) : list Z :=
  [0xff; len; op] ++ word_bytes st ++ payload ++ word_bytes crc.

(** The checksum that makes an inbound frame valid. *)
Definition crc_in (len op st : Z) (payload : list Z) : Z :=
  crc16 ([len; op] ++ word_bytes st ++ payload).

(** An outbound frame, with its checksum. *)
Definition frame_out (len op : Z) (payload : list Z) : list Z :=
  [0xff; len; op] ++ payload ++ word_bytes (crc16 ([len; op] ++ payload)).

(** The reader's line holds the bytes [pending] next, whatever follows
    them, and [rfid] is [r]. *)
Definition holds (m : mcu_t) (r : rfid_t) (pending : list Z) : Prop :=
  rfid m = r /\
  inv (us_rx (usart1 m)) /\
  exists later, backlog (us_rx (usart1 m)) = pending ++ later.

(** Nothing arrives on the reader's line during the next [n] waits. *)
Definition quiet (n : nat) (m : mcu_t) : Prop :=
  Forall (fun bytes => bytes = []) (take n (line1 m)).

(** The receive interrupt of the reader's line is off, or nothing arrives
    during the next [n] waits: either way the buffer gets no byte. *)
Definition deaf_or_quiet (n : nat) (m : mcu_t) : Prop :=
  Z.testbit (UCSR1B m) 7 = false \/ quiet n m.

(** [k] waits after the machine stood at [m0]: [rfid] is [r], the
    reader's line holds the bytes [pending] next, then the bytes [later]
    if nothing arrived during these waits, and whatever else arrived
    otherwise. *)
Definition holds_since (m0 : mcu_t) (k : nat) (m : mcu_t) (r : rfid_t)
    (pending later : list Z) : Prop :=
  rfid m = r /\
  inv (us_rx (usart1 m)) /\
  (exists l, backlog (us_rx (usart1 m)) = pending ++ l /\ (quiet k m0 -> l = later)) /\
  line1 m = drop k (line1 m0) /\
  capacity (us_rx (usart1 m)) = capacity (us_rx (usart1 m0)).

(** From [m] to [m'] the bytes [bytes] were sent on the reader's port and
    nothing else changed. *)
Definition only_sent (m m' : mcu_t) (bytes : list Z) : Prop :=
  UDR1_tx m' = UDR1_tx m ++ bytes /\
  UDR0_tx m' = UDR0_tx m /\ usart0 m' = usart0 m /\ usart1 m' = usart1 m /\
  rfid m' = rfid m /\ UCSR0B m' = UCSR0B m /\ UCSR1B m' = UCSR1B m /\
  line1 m' = line1 m.

(** From [m] to [m'] nothing was sent, port 0 and the control registers
    were left alone: only the receive side of the reader's line, [rfid] and
    the bytes still to arrive may differ. *)
Definition only_received (m m' : mcu_t) : Prop :=
  UDR1_tx m' = UDR1_tx m /\ UDR0_tx m' = UDR0_tx m /\
  usart0 m' = usart0 m /\ UCSR0B m' = UCSR0B m /\ UCSR1B m' = UCSR1B m /\
  us_tx (usart1 m') = us_tx (usart1 m) /\
  us_tx_size (usart1 m') = us_tx_size (usart1 m).

(** The machine after [usart_init] and [rfid_init] with [RFID_SIZE] set to
    [size], 255 bytes allocated to [rfid->data] and the reader's line
    resumed; [lines] is what the reader module will send. *)
Definition mcu_listening (size : Z) (lines : list (list Z)) : mcu_t :=
  set_line1
    (usart_resume RFID_USART_PORT
       (set_rfid (mcu_init []) (Rfid size 1 (replicate 255 0) 0 0 0 0 0 0)))
    lines.

(** The reader's line is idle and listening: the buffer is empty and has
    room for a reply without payload, the receive interrupt is on, and
    [lines] is what will arrive. *)
Definition idle (m : mcu_t) (lines : list (list Z)) : Prop :=
  inv (us_rx (usart1 m)) /\ rx_len m = 0 /\ Z.testbit (UCSR1B m) 7 = true /\
  7 <= capacity (us_rx (usart1 m)) /\ line1 m = lines.

(** The bytes the state machine of [rx_pkt] still has to take before it can
    reach [END], from the stage in [rfid->error] and the count [i]: header,
    length, opcode, two bytes of status, the payload and two bytes of
    checksum.  With [i] at 2 or more the turn of [CMD] that finds no byte
    goes on into the second branch of [STATUS] and skips the opcode and
    the status word, so fewer bytes are needed. *)
Definition bytes_needed (r : rfid_t) (i : Z) : Z :=
  let e := rfid_error r in
  let n := Z.max 0 (rfid_len r) in
  if e =? SOH then (if i <? 2 then 7 else 4)
  else if e =? LEN then (if i <? 2 then 6 else 3)
  else if e =? CMD then (if i <? 2 then 5 + n else 2 + n)
  else if e =? STATUS then (if i <? 2 then 4 - i + n else 2 + n)
  else if e =? DATA then Z.max 0 (rfid_len r - i) + 2
  else if e =? CRC then (if i <? 2 then 2 - i else 0)
  else 0.

(** How many bytes arrive on the reader's line during the next [n] waits. *)
Definition arrivals (n : nat) (m : mcu_t) : Z :=
  Z.of_nat (length (concat (take n (line1 m)))).

(** * Proofs *)

(** ** Arithmetic on the cursors *)

Lemma mod_wrap (C s k : Z) :
  0 <= s < C -> 0 <= k <= C ->
  (s + k) mod C = if s + k <? C then s + k else s + k - C.
Proof.
  intros Hs Hk. destruct (Z.ltb_spec (s + k) C).
  - apply Z.mod_small. lia.
  - symmetry. apply (Z.mod_unique_pos _ _ 1). lia. lia.
Qed.

Lemma u8_small (x : Z) : 0 <= x <= 255 -> u8 x = x.
Proof. intros. unfold u8. apply Z.mod_small. lia. Qed.

Lemma peek_poke_eq (l : list Z) (i v : Z) :
  0 <= i < Z.of_nat (length l) -> peek (poke l i v) i = v.
Proof.
  intros. unfold peek, poke. apply list_lookup_total_insert_eq. lia.
Qed.

Lemma peek_poke_ne (l : list Z) (i j v : Z) :
  0 <= i -> 0 <= j -> i <> j -> peek (poke l i v) j = peek l j.
Proof.
  intros. unfold peek, poke. apply list_lookup_total_insert_ne. lia.
Qed.

Lemma length_poke (l : list Z) (i v : Z) : length (poke l i v) = length l.
Proof. unfold poke. apply length_insert. Qed.

(** ** [wf] and the cursors *)

Lemma wf_idx_range cb : wf cb -> 0 <= cb_idx cb < capacity cb.
Proof.
  intros (HC & _ & _ & _ & Hi). rewrite Hi. apply Z.mod_pos_bound. lia.
Qed.

Lemma wf_cursors_meet cb :
  wf cb -> cb_len cb < capacity cb ->
  (cb_start cb = cb_idx cb <-> cb_len cb = 0).
Proof.
  intros (HC & _ & Hs & Hl & Hi) Hlt. rewrite Hi, mod_wrap by lia.
  destruct (Z.ltb_spec (cb_start cb + cb_len cb) (capacity cb)); lia.
Qed.

Lemma next_cursor (C s : Z) :
  1 <= C <= 255 -> 0 <= s < C ->
  (if s =? C - 1 then 0 else u8 (s + 1)) = (s + 1) mod C.
Proof.
  intros HC Hs. rewrite mod_wrap by lia.
  destruct (Z.eqb_spec s (C - 1)), (Z.ltb_spec (s + 1) C); try lia.
  apply u8_small. lia.
Qed.

Lemma slot_shift (C s k : Z) :
  1 <= C -> ((s + 1) mod C + k) mod C = (s + (k + 1)) mod C.
Proof.
  intros. rewrite Zplus_mod_idemp_l. f_equal. lia.
Qed.

Lemma slot_not_start (C s k : Z) :
  0 <= s < C -> 0 < k < C -> (s + k) mod C <> s.
Proof.
  intros Hs Hk. rewrite mod_wrap by lia.
  destruct (Z.ltb_spec (s + k) C); lia.
Qed.

Lemma slot_range (C s k : Z) : 1 <= C -> 0 <= (s + k) mod C < C.
Proof. intros. apply Z.mod_pos_bound. lia. Qed.

(** ** [bcpy] takes the oldest byte out *)

Lemma bcpy_spec OVR cb data size j :
  wf cb -> 0 < cb_len cb ->
  exists cb',
    bcpy OVR cb data size j =
      (cb',
       if j <? size then poke data j (peek (cb_buffer cb) (cb_start cb)) else data,
       if j <? size then u8 (j + 1) else j) /\
    wf cb' /\
    cb_len cb' = cb_len cb - 1 /\
    cb_idx cb' = cb_idx cb /\
    cb_TOP cb' = cb_TOP cb /\
    cb_overflow cb' = cb_overflow cb /\
    backlog cb = peek (cb_buffer cb) (cb_start cb) :: backlog cb'.
Proof.
  intros (HC & Hb & Hs & Hl & Hi) Hpos.
  unfold capacity in *.
  set (buf' := match OVR with
               | Some c => poke (cb_buffer cb) (cb_start cb) (u8 c)
               | None => cb_buffer cb
               end).
  assert (Hlen' : length buf' = length (cb_buffer cb)).
  { unfold buf'. destruct OVR; [apply length_poke | reflexivity]. }
  assert (Hst : (if cb_start cb =? cb_TOP cb then 0 else u8 (cb_start cb + 1))
                = (cb_start cb + 1) mod (cb_TOP cb + 1)).
  { rewrite <- (next_cursor (cb_TOP cb + 1)) by lia.
    replace (cb_TOP cb + 1 - 1) with (cb_TOP cb) by lia. reflexivity. }
  assert (Hl8 : u8 (cb_len cb - 1) = cb_len cb - 1) by (apply u8_small; lia).
  exists (Cbuffer buf' (cb_idx cb) ((cb_start cb + 1) mod (cb_TOP cb + 1))
            (cb_TOP cb) (cb_size cb) (cb_len cb - 1) (cb_overflow cb)).
  split.
  { unfold bcpy. fold buf'. rewrite Hst, Hl8.
    destruct (j <? size); reflexivity. }
  split.
  { unfold wf, capacity; simpl. rewrite Hlen'.
    split; [lia|]. split; [lia|].
    split; [apply slot_range; lia|]. split; [lia|].
    rewrite Hi, slot_shift by lia. f_equal. lia. }
  do 4 (split; [reflexivity|]).
  unfold backlog, capacity; simpl.
  replace (Z.to_nat (cb_len cb)) with (S (Z.to_nat (cb_len cb - 1))) by lia.
  simpl seq. rewrite fmap_cons. f_equal.
  { rewrite Z.add_0_r, Z.mod_small by lia. reflexivity. }
  rewrite <- fmap_S_seq, <- list_fmap_compose.
  apply list_fmap_ext. intros i k Hk.
  apply lookup_seq in Hk as [-> Hk]. simpl.
  rewrite slot_shift by lia.
  replace (Z.of_nat (S i)) with (Z.of_nat i + 1) by lia.
  unfold buf'. destruct OVR as [c|]; [|reflexivity].
  symmetry. apply peek_poke_ne.
  - lia.
  - apply slot_range. lia.
  - intros E. symmetry in E. revert E. apply slot_not_start; lia.
Qed.

Lemma length_backlog cb : length (backlog cb) = Z.to_nat (cb_len cb).
Proof. unfold backlog. rewrite length_fmap. apply length_seq. Qed.

Lemma take_poke_snoc (data : list Z) (j x : Z) :
  0 <= j < Z.of_nat (length data) ->
  take (Z.to_nat (j + 1)) (poke data j x) = take (Z.to_nat j) data ++ [x].
Proof.
  intros Hj. unfold poke.
  replace (Z.to_nat (j + 1)) with (S (Z.to_nat j)) by lia.
  rewrite (take_S_r _ _ x) by (apply list_lookup_insert_eq; lia).
  rewrite take_insert_ge by lia. reflexivity.
Qed.

(** ** The loop of [cbuffer_pop] *)

Lemma pop_loop_spec OVR n : forall cb data size j,
  wf cb -> cb_len cb < capacity cb ->
  0 <= j <= size -> size <= 255 -> size - j <= Z.of_nat n ->
  exists cb' data',
    pop_loop OVR n cb data size (cb_idx cb) j
      = (cb', data', j + Z.min (cb_len cb) (size - j)) /\
    wf cb' /\
    cb_len cb' = cb_len cb - Z.min (cb_len cb) (size - j) /\
    cb_idx cb' = cb_idx cb /\
    cb_TOP cb' = cb_TOP cb /\
    cb_overflow cb' = cb_overflow cb /\
    backlog cb' = drop (Z.to_nat (Z.min (cb_len cb) (size - j))) (backlog cb) /\
    length data' = length data /\
    (size <= Z.of_nat (length data) ->
     take (Z.to_nat (j + Z.min (cb_len cb) (size - j))) data'
       = take (Z.to_nat j) data
         ++ take (Z.to_nat (Z.min (cb_len cb) (size - j))) (backlog cb)).
Proof.
  induction n as [|n IH]; intros cb data size j Hwf Hlt Hj Hsz Hn.
  - assert (Hl := Hwf). destruct Hl as (_ & _ & _ & Hl & _).
    replace (Z.min (cb_len cb) (size - j)) with 0 by lia.
    exists cb, data. simpl. rewrite Z.add_0_r, drop_0, take_0, app_nil_r.
    split; [reflexivity|]. split; [assumption|]. split; [lia|].
    repeat (split; [reflexivity|]). reflexivity.
  - assert (Hl := Hwf). destruct Hl as (HC & _ & _ & Hl & _).
    simpl pop_loop.
    destruct (negb (cb_start cb =? cb_idx cb) && (j <? size)) eqn:Hc.
    + apply andb_true_iff in Hc as [Hne Hjs].
      apply negb_true_iff, Z.eqb_neq in Hne. apply Z.ltb_lt in Hjs.
      assert (Hpos : 0 < cb_len cb).
      { destruct (Z.eq_dec (cb_len cb) 0) as [E|]; [|lia].
        apply wf_cursors_meet in E; [contradiction | assumption | lia]. }
      destruct (bcpy_spec OVR cb data size j Hwf Hpos)
        as (cb1 & Hb & Hwf1 & Hl1 & Hi1 & Ht1 & Ho1 & Hbl).
      rewrite Hb. apply Z.ltb_lt in Hjs as Hjs'. rewrite Hjs'.
      rewrite u8_small by lia. rewrite <- Hi1.
      destruct (IH cb1 (poke data j (peek (cb_buffer cb) (cb_start cb)))
                   size (j + 1) Hwf1) as
        (cb2 & data2 & Hp & Hwf2 & Hl2 & Hi2 & Ht2 & Ho2 & Hbl2 & Hd2 & Htk);
        [unfold capacity in *; lia | lia | lia | lia |].
      assert (Hm : Z.min (cb_len cb) (size - j)
                   = Z.min (cb_len cb1) (size - (j + 1)) + 1) by lia.
      exists cb2, data2. rewrite Hp, Hm.
      split; [f_equal; lia|]. split; [assumption|].
      split; [lia|]. split; [congruence|]. split; [congruence|].
      split; [congruence|].
      split.
      { rewrite Hbl2, Hbl.
        replace (Z.to_nat (Z.min (cb_len cb1) (size - (j + 1)) + 1))
          with (S (Z.to_nat (Z.min (cb_len cb1) (size - (j + 1))))) by lia.
        reflexivity. }
      split; [rewrite Hd2; apply length_poke|].
      intros Hdl.
      replace (j + (Z.min (cb_len cb1) (size - (j + 1)) + 1))
        with (j + 1 + Z.min (cb_len cb1) (size - (j + 1))) by lia.
      rewrite Htk by (rewrite length_poke; lia).
      rewrite take_poke_snoc by lia. rewrite Hbl.
      replace (Z.to_nat (Z.min (cb_len cb1) (size - (j + 1)) + 1))
        with (S (Z.to_nat (Z.min (cb_len cb1) (size - (j + 1))))) by lia.
      rewrite <- app_assoc. reflexivity.
    + assert (Hm : Z.min (cb_len cb) (size - j) = 0).
      { apply andb_false_iff in Hc as [Hc|Hc].
        - apply negb_false_iff, Z.eqb_eq in Hc.
          apply wf_cursors_meet in Hc; [lia | assumption | lia].
        - apply Z.ltb_ge in Hc. lia. }
      rewrite Hm. exists cb, data.
      rewrite Z.add_0_r, drop_0, take_0, app_nil_r.
      split; [reflexivity|]. split; [assumption|]. split; [lia|].
      repeat (split; [reflexivity|]). reflexivity.
Qed.

(** The bound of [pop_loop] is never what stops it: at its return the
    condition of the [while] is false. *)
Lemma pop_loop_exit OVR n : forall cb data size index j,
  0 <= j -> size <= 255 -> size - j <= Z.of_nat n ->
  let '(cb', _, j') := pop_loop OVR n cb data size index j in
  negb (cb_start cb' =? index) && (j' <? size) = false.
Proof.
  induction n as [|n IH]; intros cb data size index j Hj Hsz Hn; simpl.
  - apply andb_false_iff. right. apply Z.ltb_ge. lia.
  - destruct (negb (cb_start cb =? index) && (j <? size)) eqn:Hc;
      [|exact Hc].
    apply andb_true_iff in Hc as [_ Hjs].
    unfold bcpy. rewrite Hjs. apply Z.ltb_lt in Hjs.
    rewrite (u8_small (j + 1)) by lia. apply IH; lia.
Qed.

(** ** [cbuffer_pop] *)

Lemma inv_not_full cb : inv cb -> cb_overflow cb = false -> cb_len cb < capacity cb.
Proof.
  intros [(_ & _ & _ & Hl & _) Ho] Hf.
  destruct (Z.eq_dec (cb_len cb) (capacity cb)) as [E|]; [|lia].
  apply Ho in E. congruence.
Qed.

Lemma inv_full cb : inv cb -> cb_overflow cb = true -> cb_len cb = capacity cb.
Proof. intros [_ Ho] Ht. apply Ho, Ht. Qed.

Lemma inv_unlatched cb :
  wf cb -> cb_len cb < capacity cb -> inv (set_overflow cb false).
Proof.
  intros Hwf Hlt. split; [exact Hwf|]. simpl.
  unfold capacity in *; simpl. split; [discriminate | intros; exfalso; lia].
Qed.

Lemma backlog_set_overflow cb o : backlog (set_overflow cb o) = backlog cb.
Proof. reflexivity. Qed.

Lemma pop_spec OVR cb data size :
  inv cb -> 0 <= size <= 255 -> (cb_overflow cb = true -> 1 <= size) ->
  exists cb' data',
    cbuffer_pop OVR cb data size = (cb', data', Z.min (cb_len cb) size) /\
    inv cb' /\
    cb_overflow cb' = false /\
    cb_len cb' = cb_len cb - Z.min (cb_len cb) size /\
    cb_TOP cb' = cb_TOP cb /\
    backlog cb' = drop (Z.to_nat (Z.min (cb_len cb) size)) (backlog cb) /\
    length data' = length data /\
    (size <= Z.of_nat (length data) ->
     take (Z.to_nat (Z.min (cb_len cb) size)) data'
       = take (Z.to_nat (Z.min (cb_len cb) size)) (backlog cb)).
Proof.
  intros Hinv Hsz Hov. assert (Hwf := proj1 Hinv).
  assert (Hl := Hwf). destruct Hl as (HC & _ & _ & Hl & _).
  unfold cbuffer_pop. destruct (Z.eqb_spec (cb_len cb) 0) as [E|E].
  - replace (Z.min (cb_len cb) size) with 0 by lia.
    exists cb, data. rewrite Z.sub_0_r, drop_0, !take_0.
    split; [reflexivity|]. split; [assumption|].
    split.
    { destruct (cb_overflow cb) eqn:Ho; [|reflexivity].
      apply inv_full in Ho; [lia | assumption]. }
    repeat (split; [reflexivity|]). reflexivity.
  - destruct (cb_overflow cb) eqn:Ho.
    + assert (Hfull := inv_full cb Hinv Ho). specialize (Hov eq_refl).
      destruct (bcpy_spec OVR cb data size 0 Hwf ltac:(lia))
        as (cb1 & Hb & Hwf1 & Hl1 & Hi1 & Ht1 & Ho1 & Hbl).
      rewrite Hb. replace (0 <? size) with true by (symmetry; apply Z.ltb_lt; lia).
      rewrite u8_small by lia. change (0 + 1) with 1. rewrite <- Hi1.
      destruct (pop_loop_spec OVR (Z.to_nat size) cb1
                  (poke data 0 (peek (cb_buffer cb) (cb_start cb))) size 1 Hwf1)
        as (cb2 & data2 & Hp & Hwf2 & Hl2 & Hi2 & Ht2 & Ho2 & Hbl2 & Hd2 & Htk);
        [unfold capacity in *; lia | lia | lia | lia |].
      assert (Hm : Z.min (cb_len cb) size = 1 + Z.min (cb_len cb1) (size - 1)) by lia.
      rewrite Hp, Hm. exists (set_overflow cb2 false), data2.
      split; [reflexivity|].
      split; [apply inv_unlatched; [assumption | unfold capacity in *; lia]|].
      split; [reflexivity|]. split; [simpl; lia|].
      split; [simpl; congruence|].
      split.
      { rewrite backlog_set_overflow, Hbl2, Hbl.
        replace (Z.to_nat (1 + Z.min (cb_len cb1) (size - 1)))
          with (S (Z.to_nat (Z.min (cb_len cb1) (size - 1)))) by lia.
        reflexivity. }
      split; [rewrite Hd2; apply length_poke|].
      intros Hdl. rewrite Htk by (rewrite length_poke; lia).
      change 1 with (0 + 1) at 1. rewrite take_poke_snoc by lia.
      rewrite Hbl. simpl (take (Z.to_nat 0) data).
      replace (Z.to_nat (1 + Z.min (cb_len cb1) (size - 1)))
        with (S (Z.to_nat (Z.min (cb_len cb1) (size - 1)))) by lia.
      reflexivity.
    + assert (Hlt := inv_not_full cb Hinv Ho).
      destruct (pop_loop_spec OVR (Z.to_nat size) cb data size 0 Hwf Hlt)
        as (cb2 & data2 & Hp & Hwf2 & Hl2 & Hi2 & Ht2 & Ho2 & Hbl2 & Hd2 & Htk);
        [lia | lia | lia |].
      rewrite Z.sub_0_r, Z.add_0_l in *. rewrite Hp.
      exists (set_overflow cb2 false), data2.
      split; [reflexivity|].
      split; [apply inv_unlatched; [assumption | unfold capacity in *; lia]|].
      split; [reflexivity|]. split; [simpl; lia|].
      split; [simpl; congruence|].
      split; [rewrite backlog_set_overflow; assumption|].
      split; [assumption|].
      intros Hdl. rewrite Htk by assumption. reflexivity.
Qed.

Lemma pop_inv OVR cb data size :
  inv cb -> 0 <= size <= 255 -> inv (fst (fst (cbuffer_pop OVR cb data size))).
Proof.
  intros Hinv Hsz.
  destruct (cb_overflow cb) eqn:Ho; [destruct (Z.eq_dec size 0) as [->|]|].
  - (* a full buffer drained into an area of no bytes *)
    assert (Hwf := proj1 Hinv). assert (Hfull := inv_full cb Hinv Ho).
    assert (Hl := Hwf). destruct Hl as (HC & _).
    unfold cbuffer_pop. rewrite Ho.
    destruct (Z.eqb_spec (cb_len cb) 0); [lia|].
    destruct (bcpy_spec OVR cb data 0 0 Hwf ltac:(lia))
      as (cb1 & Hb & Hwf1 & Hl1 & _ & Ht1 & _).
    rewrite Hb. simpl. apply inv_unlatched; [assumption|].
    unfold capacity in *. lia.
  - destruct (pop_spec OVR cb data size Hinv Hsz ltac:(lia))
      as (cb' & data' & Hp & Hinv' & _).
    rewrite Hp. exact Hinv'.
  - destruct (pop_spec OVR cb data size Hinv Hsz ltac:(congruence))
      as (cb' & data' & Hp & Hinv' & _).
    rewrite Hp. exact Hinv'.
Qed.

(** ** [cbuffer_clear] and [cbuffer_init] *)

Lemma clear_inv cb :
  1 <= capacity cb <= 255 -> Z.of_nat (length (cb_buffer cb)) = capacity cb ->
  inv (cbuffer_clear cb).
Proof.
  intros HC Hb. unfold inv, wf, capacity in *; simpl.
  rewrite Z.mod_0_l by lia.
  split; [repeat split; lia|]. split; [discriminate | intros; exfalso; lia].
Qed.

Lemma init_capacity C mem :
  1 <= C <= 255 -> capacity (cbuffer_init C mem) = C.
Proof.
  intros. unfold capacity; simpl. rewrite u8_small by lia. lia.
Qed.

Lemma init_inv C mem :
  1 <= C <= 255 -> Z.of_nat (length mem) = C -> inv (cbuffer_init C mem).
Proof.
  intros HC Hm. unfold cbuffer_init. apply clear_inv.
  - unfold capacity; simpl. rewrite u8_small by lia. lia.
  - unfold capacity; simpl. rewrite u8_small by lia. lia.
Qed.

Lemma backlog_empty cb : cb_len cb = 0 -> backlog cb = [].
Proof. intros E. unfold backlog. rewrite E. reflexivity. Qed.

(** ** [cbuffer_push] *)

Lemma push_rejected cb rxc :
  cb_overflow cb = true -> cbuffer_push cb rxc = (cb, FALSE).
Proof. intros Ho. unfold cbuffer_push. rewrite Ho. reflexivity. Qed.

Lemma push_spec cb rxc :
  inv cb -> cb_overflow cb = false ->
  exists cb',
    cbuffer_push cb rxc = (cb', TRUE) /\
    inv cb' /\
    cb_len cb' = cb_len cb + 1 /\
    cb_TOP cb' = cb_TOP cb /\
    backlog cb' = backlog cb ++ [u8 rxc].
Proof.
  intros Hinv Ho. assert (Hlt := inv_not_full cb Hinv Ho).
  destruct Hinv as [(HC & Hb & Hs & Hl & Hi) _]. unfold capacity in *.
  assert (Hidx : 0 <= cb_idx cb < cb_TOP cb + 1).
  { rewrite Hi. apply slot_range. lia. }
  assert (Hnext : (if cb_idx cb =? cb_TOP cb then 0 else u8 (cb_idx cb + 1))
                  = (cb_start cb + (cb_len cb + 1)) mod (cb_TOP cb + 1)).
  { replace (cb_TOP cb) with (cb_TOP cb + 1 - 1) at 1 by lia.
    rewrite next_cursor by lia.
    rewrite Hi, Zplus_mod_idemp_l. f_equal. lia. }
  assert (Hlatch :
    (if negb (cb_start cb =? 0)
     then if cb_idx cb =? cb_start cb - 1 then true else cb_overflow cb
     else if cb_idx cb =? cb_TOP cb then true else cb_overflow cb)
    = (cb_len cb + 1 =? cb_TOP cb + 1)).
  { rewrite Ho, Hi, mod_wrap by lia.
    destruct (Z.eqb_spec (cb_start cb) 0); simpl;
      destruct (Z.ltb_spec (cb_start cb + cb_len cb) (cb_TOP cb + 1));
      repeat match goal with
             | |- context [?a =? ?b] => destruct (Z.eqb_spec a b)
             end; try reflexivity; lia. }
  eexists. split.
  { unfold cbuffer_push. rewrite Ho at 1. rewrite Hlatch, Hnext.
    rewrite (u8_small (cb_len cb + 1)) by lia. reflexivity. }
  split.
  { split.
    - unfold wf, capacity; simpl. rewrite length_poke.
      repeat split; try lia.
    - unfold capacity; simpl. rewrite Z.eqb_eq. reflexivity. }
  do 2 (split; [reflexivity|]).
  unfold backlog, capacity; simpl.
  replace (Z.to_nat (cb_len cb + 1)) with (S (Z.to_nat (cb_len cb))) by lia.
  rewrite seq_S, fmap_app. simpl. f_equal.
  - apply list_fmap_ext. intros i k Hk. apply lookup_seq in Hk as [-> Hk].
    simpl. apply peek_poke_ne; [lia | apply slot_range; lia |].
    rewrite Hi, !mod_wrap by lia.
    destruct (Z.ltb_spec (cb_start cb + cb_len cb) (cb_TOP cb + 1)),
             (Z.ltb_spec (cb_start cb + Z.of_nat i) (cb_TOP cb + 1)); lia.
  - f_equal. rewrite Z2Nat.id, <- Hi by lia. apply peek_poke_eq. lia.
Qed.

(** ** The loop of [cbuffer_popm] *)

Lemma length_message_le eom l : (length (message eom l) <= length l)%nat.
Proof.
  induction l as [|x l IH]; simpl; [lia|].
  destruct (x =? eom); simpl; lia.
Qed.

Lemma popm_loop_stop OVR fuel cb data size eom index j :
  popm_loop OVR fuel cb data size eom index j false = Some (cb, data, j).
Proof. destruct fuel; reflexivity. Qed.

Lemma popm_loop_meet OVR fuel cb data size eom j loop :
  cb_start cb = cb_idx cb ->
  popm_loop OVR fuel cb data size eom (cb_idx cb) j loop = Some (cb, data, j).
Proof.
  intros E. destruct fuel; simpl; rewrite E, Z.eqb_refl, andb_false_r; reflexivity.
Qed.

Lemma popm_loop_spec OVR eom fuel : forall cb data size j,
  wf cb -> cb_len cb < capacity cb ->
  0 <= j <= size -> size <= 255 -> cb_len cb <= Z.of_nat fuel ->
  exists cb' data',
    popm_loop OVR fuel cb data size eom (cb_idx cb) j true
      = Some (cb', data',
              j + Z.min (Z.of_nat (length (message eom (backlog cb)))) (size - j)) /\
    wf cb' /\
    cb_len cb' = cb_len cb - Z.of_nat (length (message eom (backlog cb))) /\
    cb_idx cb' = cb_idx cb /\
    cb_TOP cb' = cb_TOP cb /\
    cb_overflow cb' = cb_overflow cb /\
    backlog cb' = drop (length (message eom (backlog cb))) (backlog cb) /\
    length data' = length data /\
    (size <= Z.of_nat (length data) ->
     take (Z.to_nat (j + Z.min (Z.of_nat (length (message eom (backlog cb)))) (size - j))) data'
       = take (Z.to_nat j) data
         ++ take (Z.to_nat (Z.min (Z.of_nat (length (message eom (backlog cb)))) (size - j)))
                 (backlog cb)).
Proof.
  induction fuel as [|fuel IH]; intros cb data size j Hwf Hlt Hj Hsz Hfuel;
    assert (Hl := Hwf); destruct Hl as (HC & _ & _ & Hl & _);
    destruct (Z.eq_dec (cb_len cb) 0) as [E0|E0].
  1, 3:
    assert (Hc : cb_start cb = cb_idx cb) by (apply wf_cursors_meet; assumption);
    rewrite (popm_loop_meet OVR _ cb data size eom j true Hc),
            (backlog_empty cb E0); simpl; change (Z.of_nat 0) with 0;
    replace (0 `min` (size - j)) with 0 by lia;
    rewrite Z.add_0_r, Z.sub_0_r, app_nil_r;
    exists cb, data;
    repeat (split; [first [reflexivity | assumption | apply backlog_empty, E0]|]);
    reflexivity.
  - lia.
  - assert (Hne : cb_start cb <> cb_idx cb).
    { intros E. apply wf_cursors_meet in E; [contradiction | assumption..]. }
    destruct (bcpy_spec OVR cb data size j Hwf ltac:(lia))
      as (cb1 & Hb & Hwf1 & Hl1 & Hi1 & Ht1 & Ho1 & Hbl).
    simpl popm_loop. apply Z.eqb_neq in Hne. rewrite Hne. simpl negb.
    cbv iota. rewrite Hb, Hbl. simpl message.
    set (x := peek (cb_buffer cb) (cb_start cb)) in *.
    destruct (x =? eom) eqn:Hx.
    + (* the terminator: copied, and the loop ends *)
      rewrite popm_loop_stop. simpl length.
      exists cb1.
      destruct (Z.ltb_spec j size) as [Hjs|Hjs].
      * exists (poke data j x). rewrite u8_small by lia.
        replace (Z.of_nat 1 `min` (size - j)) with 1 by lia.
        split; [reflexivity|]. split; [assumption|]. split; [lia|].
        do 3 (split; [assumption|]). split; [reflexivity|].
        split; [apply length_poke|].
        intros Hdl. apply take_poke_snoc. lia.
      * exists data.
        replace (Z.of_nat 1 `min` (size - j)) with 0 by lia.
        rewrite Z.add_0_r, take_0, app_nil_r.
        split; [reflexivity|]. split; [assumption|]. split; [lia|].
        do 3 (split; [assumption|]). split; [reflexivity|].
        split; reflexivity.
    + (* any other byte: copied, and the loop goes on *)
      rewrite <- Hi1. simpl length.
      set (d1 := length (message eom (backlog cb1))).
      destruct (Z.ltb_spec j size) as [Hjs|Hjs].
      * rewrite u8_small by lia.
        destruct (IH cb1 (poke data j x) size (j + 1) Hwf1)
          as (cb2 & data2 & Hp & Hwf2 & Hl2 & Hi2 & Ht2 & Ho2 & Hbl2 & Hd2 & Htk);
          [unfold capacity in *; lia | lia | lia | lia |].
        fold d1 in Hp, Hl2, Hbl2, Htk.
        assert (Hm : Z.of_nat (S d1) `min` (size - j)
                     = 1 + Z.of_nat d1 `min` (size - (j + 1))) by lia.
        exists cb2, data2. rewrite Hp, Hm.
        split; [f_equal; f_equal; lia|]. split; [assumption|].
        split; [lia|]. do 3 (split; [congruence|]).
        split; [exact Hbl2|]. split; [rewrite Hd2; apply length_poke|].
        intros Hdl.
        replace (j + (1 + Z.of_nat d1 `min` (size - (j + 1))))
          with (j + 1 + Z.of_nat d1 `min` (size - (j + 1))) by lia.
        rewrite Htk by (rewrite length_poke; lia).
        rewrite take_poke_snoc by lia.
        replace (Z.to_nat (1 + Z.of_nat d1 `min` (size - (j + 1))))
          with (S (Z.to_nat (Z.of_nat d1 `min` (size - (j + 1))))) by lia.
        rewrite <- app_assoc. reflexivity.
      * destruct (IH cb1 data size j Hwf1)
          as (cb2 & data2 & Hp & Hwf2 & Hl2 & Hi2 & Ht2 & Ho2 & Hbl2 & Hd2 & Htk);
          [unfold capacity in *; lia | lia | lia | lia |].
        fold d1 in Hp, Hl2, Hbl2, Htk.
        replace (Z.of_nat d1 `min` (size - j)) with 0 in * by lia.
        replace (Z.of_nat (S d1) `min` (size - j)) with 0 by lia.
        exists cb2, data2. rewrite Hp.
        split; [reflexivity|]. split; [assumption|].
        split; [lia|]. do 3 (split; [congruence|]).
        split; [exact Hbl2|]. split; [assumption|].
        intros Hdl. rewrite Htk by assumption. reflexivity.
Qed.

(** ** [cbuffer_popm] *)

Lemma popm_spec OVR cb data size eom :
  inv cb -> 0 <= size <= 255 ->
  exists cb' data',
    cbuffer_popm OVR cb data size eom
      = Some (cb', data',
              Z.min (Z.of_nat (length (message eom (backlog cb)))) size) /\
    inv cb' /\
    cb_overflow cb' = false /\
    cb_len cb' = cb_len cb - Z.of_nat (length (message eom (backlog cb))) /\
    cb_TOP cb' = cb_TOP cb /\
    backlog cb' = drop (length (message eom (backlog cb))) (backlog cb) /\
    length data' = length data /\
    (size <= Z.of_nat (length data) ->
     take (Z.to_nat (Z.min (Z.of_nat (length (message eom (backlog cb)))) size)) data'
       = take (Z.to_nat (Z.min (Z.of_nat (length (message eom (backlog cb)))) size))
              (backlog cb)).
Proof.
  intros Hinv Hsz. assert (Hwf := proj1 Hinv).
  assert (Hl := Hwf). destruct Hl as (HC & _ & _ & Hl & _).
  unfold cbuffer_popm. destruct (Z.eqb_spec (cb_len cb) 0) as [E|E].
  - rewrite (backlog_empty cb E). simpl. change (Z.of_nat 0) with 0.
    replace (0 `min` size) with 0 by lia.
    exists cb, data. rewrite Z.sub_0_r, take_0.
    split; [reflexivity|]. split; [assumption|].
    split.
    { destruct (cb_overflow cb) eqn:Ho; [|reflexivity].
      apply inv_full in Ho; [lia | assumption]. }
    split; [reflexivity|]. split; [reflexivity|].
    split; [apply backlog_empty, E|]. split; reflexivity.
  - destruct (cb_overflow cb) eqn:Ho.
    + assert (Hfull := inv_full cb Hinv Ho).
      destruct (bcpy_spec OVR cb data size 0 Hwf ltac:(lia))
        as (cb1 & Hb & Hwf1 & Hl1 & Hi1 & Ht1 & Ho1 & Hbl).
      rewrite Hb, Hbl. simpl message.
      set (x := peek (cb_buffer cb) (cb_start cb)) in *.
      destruct (x =? eom) eqn:Hx.
      * rewrite popm_loop_stop. simpl length. exists (set_overflow cb1 false).
        destruct (Z.ltb_spec 0 size) as [Hjs|Hjs].
        -- exists (poke data 0 x). rewrite u8_small by lia.
           replace (Z.of_nat 1 `min` size) with 1 by lia.
           split; [reflexivity|].
           split; [apply inv_unlatched; [assumption | unfold capacity in *; lia]|].
           split; [reflexivity|]. split; [simpl; lia|].
           split; [simpl; congruence|]. split; [reflexivity|].
           split; [apply length_poke|].
           intros Hdl. change 1 with (0 + 1). rewrite take_poke_snoc by lia.
           reflexivity.
        -- exists data. replace (Z.of_nat 1 `min` size) with 0 by lia.
           split; [reflexivity|].
           split; [apply inv_unlatched; [assumption | unfold capacity in *; lia]|].
           split; [reflexivity|]. split; [simpl; lia|].
           split; [simpl; congruence|]. split; [reflexivity|].
           split; reflexivity.
      * rewrite <- Hi1. simpl length.
        set (d1 := length (message eom (backlog cb1))).
        destruct (Z.ltb_spec 0 size) as [Hjs|Hjs].
        -- rewrite u8_small by lia. change (0 + 1) with 1.
           destruct (popm_loop_spec OVR eom 256 cb1 (poke data 0 x) size 1 Hwf1)
             as (cb2 & data2 & Hp & Hwf2 & Hl2 & Hi2 & Ht2 & Ho2 & Hbl2 & Hd2 & Htk);
             [unfold capacity in *; lia | lia | lia | unfold capacity in *; lia |].
           fold d1 in Hp, Hl2, Hbl2, Htk.
           assert (Hm : Z.of_nat (S d1) `min` size
                        = 1 + Z.of_nat d1 `min` (size - 1)) by lia.
           rewrite Hp, Hm. exists (set_overflow cb2 false), data2.
           split; [reflexivity|].
           split; [apply inv_unlatched; [assumption | unfold capacity in *; lia]|].
           split; [reflexivity|]. split; [simpl; lia|].
           split; [simpl; congruence|].
           split; [rewrite backlog_set_overflow; exact Hbl2|].
           split; [rewrite Hd2; apply length_poke|].
           intros Hdl. rewrite Htk by (rewrite length_poke; lia).
           change 1 with (0 + 1) at 1. rewrite take_poke_snoc by lia.
           replace (Z.to_nat (1 + Z.of_nat d1 `min` (size - 1)))
             with (S (Z.to_nat (Z.of_nat d1 `min` (size - 1)))) by lia.
           reflexivity.
        -- destruct (popm_loop_spec OVR eom 256 cb1 data size 0 Hwf1)
             as (cb2 & data2 & Hp & Hwf2 & Hl2 & Hi2 & Ht2 & Ho2 & Hbl2 & Hd2 & Htk);
             [unfold capacity in *; lia | lia | lia | unfold capacity in *; lia |].
           fold d1 in Hp, Hl2, Hbl2, Htk.
           replace (Z.of_nat d1 `min` (size - 0)) with 0 in * by lia.
           replace (Z.of_nat (S d1) `min` size) with 0 by lia.
           rewrite Hp. exists (set_overflow cb2 false), data2.
           split; [reflexivity|].
           split; [apply inv_unlatched; [assumption | unfold capacity in *; lia]|].
           split; [reflexivity|]. split; [simpl; lia|].
           split; [simpl; congruence|].
           split; [rewrite backlog_set_overflow; exact Hbl2|].
           split; [assumption|]. intros Hdl. rewrite take_0. reflexivity.
    + assert (Hlt := inv_not_full cb Hinv Ho).
      destruct (popm_loop_spec OVR eom 256 cb data size 0 Hwf Hlt)
        as (cb2 & data2 & Hp & Hwf2 & Hl2 & Hi2 & Ht2 & Ho2 & Hbl2 & Hd2 & Htk);
        [lia | lia | lia |].
      rewrite Z.sub_0_r, Z.add_0_l in *. rewrite Hp.
      exists (set_overflow cb2 false), data2.
      assert (Hd := length_message_le eom (backlog cb)).
      rewrite length_backlog in Hd.
      split; [reflexivity|].
      split; [apply inv_unlatched; [assumption | unfold capacity in *; lia]|].
      split; [reflexivity|]. split; [simpl; lia|].
      split; [simpl; congruence|].
      split; [rewrite backlog_set_overflow; assumption|].
      split; [assumption|].
      intros Hdl. rewrite Htk by assumption. reflexivity.
Qed.

Lemma pop_keeps_TOP OVR cb data size :
  inv cb -> 0 <= size <= 255 ->
  cb_TOP (fst (fst (cbuffer_pop OVR cb data size))) = cb_TOP cb.
Proof.
  intros Hinv Hsz.
  destruct (cb_overflow cb) eqn:Ho; [destruct (Z.eq_dec size 0) as [->|]|].
  - assert (Hwf := proj1 Hinv). assert (Hfull := inv_full cb Hinv Ho).
    assert (Hl := Hwf). destruct Hl as (HC & _).
    unfold cbuffer_pop. rewrite Ho.
    destruct (Z.eqb_spec (cb_len cb) 0); [lia|]. reflexivity.
  - destruct (pop_spec OVR cb data size Hinv Hsz ltac:(lia))
      as (cb' & data' & Hp & _ & _ & _ & Ht & _).
    rewrite Hp. exact Ht.
  - destruct (pop_spec OVR cb data size Hinv Hsz ltac:(congruence))
      as (cb' & data' & Hp & _ & _ & _ & Ht & _).
    rewrite Hp. exact Ht.
Qed.

(** ** Runs of pushes *)

Lemma u8_bytes (bs : list Z) :
  Forall (fun b => 0 <= b <= 255) bs -> u8 <$> bs = bs.
Proof.
  induction 1 as [|b bs Hb _ IH]; simpl; [reflexivity|].
  rewrite (u8_small b Hb). f_equal. exact IH.
Qed.

Lemma push_all_app cb l1 l2 :
  push_all cb (l1 ++ l2) =
    let '(c1, r1) := push_all cb l1 in
    let '(c2, r2) := push_all c1 l2 in
    (c2, r1 ++ r2).
Proof.
  revert cb. induction l1 as [|x l1 IH]; intros cb; simpl.
  - destruct (push_all cb l2). reflexivity.
  - destruct (cbuffer_push cb x) as [c1 r]. rewrite IH.
    destruct (push_all c1 l1) as [c2 rs]. destruct (push_all c2 l2).
    reflexivity.
Qed.

Lemma push_all_spec bs : forall cb,
  inv cb -> cb_len cb + Z.of_nat (length bs) <= capacity cb ->
  exists cb',
    push_all cb bs = (cb', replicate (length bs) TRUE) /\
    inv cb' /\
    cb_len cb' = cb_len cb + Z.of_nat (length bs) /\
    cb_TOP cb' = cb_TOP cb /\
    backlog cb' = backlog cb ++ (u8 <$> bs).
Proof.
  induction bs as [|b bs IH]; intros cb Hinv Hroom.
  - exists cb. simpl. rewrite Z.add_0_r, app_nil_r. auto.
  - assert (Ho : cb_overflow cb = false).
    { destruct (cb_overflow cb) eqn:Ho; [|reflexivity].
      apply inv_full in Ho; [|assumption]. simpl length in Hroom. lia. }
    destruct (push_spec cb b Hinv Ho) as (c1 & Hp & Hinv1 & Hl1 & Ht1 & Hb1).
    destruct (IH c1 Hinv1) as (c2 & Hp2 & Hinv2 & Hl2 & Ht2 & Hb2).
    { unfold capacity in *. simpl length in Hroom. lia. }
    exists c2. simpl. rewrite Hp, Hp2.
    split; [reflexivity|]. split; [assumption|].
    split; [lia|]. split; [congruence|].
    rewrite Hb2, Hb1, <- app_assoc. reflexivity.
Qed.

Lemma message_terminated eom pre post :
  eom ∉ pre -> message eom (pre ++ eom :: post) = pre ++ [eom].
Proof.
  induction pre as [|x pre IH]; intros Hn; simpl.
  - rewrite Z.eqb_refl. reflexivity.
  - apply not_elem_of_cons in Hn as [Hx Hn].
    destruct (Z.eqb_spec x eom); [congruence|]. rewrite IH by assumption.
    reflexivity.
Qed.

Lemma reachable_inv C OVR cb :
  reachable C OVR cb -> inv cb /\ capacity cb = C.
Proof.
  induction 1 as [mem HC Hm | cb _ [IH IHC] | cb rxc _ [IH IHC]
                 | cb data size _ [IH IHC] Hsz
                 | cb data size eom cb' data' j _ [IH IHC] Hsz Hp].
  - split; [apply init_inv | apply init_capacity]; assumption.
  - destruct IH as [(HC & Hb & _) _].
    split; [apply clear_inv; assumption | exact IHC].
  - destruct (cb_overflow cb) eqn:Ho.
    + rewrite push_rejected by assumption. auto.
    + destruct (push_spec cb rxc IH Ho) as (cb' & Hp & Hinv' & _ & Ht & _).
      rewrite Hp. split; [assumption|]. unfold capacity in *. simpl. lia.
  - split; [apply pop_inv; assumption|].
    unfold capacity in *. rewrite pop_keeps_TOP; assumption.
  - destruct (popm_spec OVR cb data size eom IH Hsz)
      as (cb2 & data2 & Hp2 & Hinv2 & _ & _ & Ht & _).
    rewrite Hp in Hp2. injection Hp2 as -> -> _.
    split; [assumption|]. unfold capacity in *. lia.
Qed.

(** * The ring buffer: main results *)

(** Decides the invariant of a buffer given in full. *)
Ltac inv_by_computation :=
  vm_compute; repeat split; try reflexivity; try discriminate.

Lemma ring16_inv : inv ring16.
Proof. inv_by_computation. Qed.

(** C1. Push/drain fidelity.  Into an empty buffer of capacity C (a fresh
    one, or any one whose bytes have all been read), at most C pushes all
    return TRUE and a drain into an area of at least C bytes returns the
    bytes pushed, in order; with one push more, the first C return TRUE,
    the last returns FALSE, the latch is set, and the drain returns the
    first C bytes. *)
Theorem push_drain_fidelity OVR cb bs data size :
  inv cb -> cb_len cb = 0 ->
  Forall (fun b => 0 <= b <= 255) bs ->
  capacity cb <= size <= 255 -> Z.of_nat (length data) = size ->
  (Z.of_nat (length bs) <= capacity cb ->
   exists cb1 cb2 data',
     push_all cb bs = (cb1, replicate (length bs) TRUE) /\
     cbuffer_pop OVR cb1 data size = (cb2, data', Z.of_nat (length bs)) /\
     take (length bs) data' = bs) /\
  (forall x, Z.of_nat (length bs) = capacity cb ->
   exists cb1 cb2 data',
     push_all cb (bs ++ [x]) = (cb1, replicate (length bs) TRUE ++ [FALSE]) /\
     cb_overflow cb1 = true /\
     cbuffer_pop OVR cb1 data size = (cb2, data', Z.of_nat (length bs)) /\
     take (length bs) data' = bs).
Proof.
  intros Hinv Hempty Hbytes Hsz Hdata.
  assert (Hrun : Z.of_nat (length bs) <= capacity cb ->
    exists cb1 cb2 data',
      push_all cb bs = (cb1, replicate (length bs) TRUE) /\
      inv cb1 /\ cb_len cb1 = Z.of_nat (length bs) /\
      capacity cb1 = capacity cb /\
      cbuffer_pop OVR cb1 data size = (cb2, data', Z.of_nat (length bs)) /\
      take (length bs) data' = bs).
  { intros Hn.
    destruct (push_all_spec bs cb Hinv ltac:(lia))
      as (cb1 & Hp & Hinv1 & Hl1 & Ht1 & Hb1).
    rewrite (backlog_empty cb Hempty), u8_bytes in Hb1 by assumption.
    simpl in Hb1.
    destruct (pop_spec OVR cb1 data size Hinv1 ltac:(lia))
      as (cb2 & data' & Hpop & _ & _ & _ & _ & _ & _ & Htk).
    { destruct Hinv as [(HC & _) _]. lia. }
    assert (Hmin : cb_len cb1 `min` size = Z.of_nat (length bs)) by lia.
    rewrite Hmin in Hpop, Htk. rewrite Nat2Z.id in Htk.
    exists cb1, cb2, data'. split; [assumption|]. split; [assumption|].
    split; [lia|]. split; [unfold capacity; congruence|].
    split; [assumption|].
    rewrite Htk by lia. rewrite Hb1. apply take_ge. lia. }
  split.
  - intros Hn. destruct (Hrun Hn) as (cb1 & cb2 & data' & Hp & _ & _ & _ & Hpop & Htk).
    exists cb1, cb2, data'. auto.
  - intros x Hn.
    destruct (Hrun ltac:(lia)) as (cb1 & cb2 & data' & Hp & Hinv1 & Hl1 & Hc1 & Hpop & Htk).
    assert (Ho : cb_overflow cb1 = true) by (apply Hinv1; lia).
    exists cb1, cb2, data'. rewrite push_all_app, Hp. simpl.
    rewrite push_rejected by assumption. auto.
Qed.

Lemma push_drain_fidelity_witness :
  (exists cb1 cb2 data',
     push_all ring16 [1; 2; 3] = (cb1, [TRUE; TRUE; TRUE]) /\
     cbuffer_pop None cb1 (replicate 16 0) 16 = (cb2, data', 3) /\
     take 3 data' = [1; 2; 3]) /\
  (exists cb1 cb2 data',
     push_all ring16 (replicate 16 7 ++ [9]) = (cb1, replicate 16 TRUE ++ [FALSE]) /\
     cb_overflow cb1 = true /\
     cbuffer_pop None cb1 (replicate 16 0) 16 = (cb2, data', 16) /\
     take 16 data' = replicate 16 7).
Proof.
  split.
  - refine (proj1 (push_drain_fidelity None ring16 [1; 2; 3] (replicate 16 0) 16
                     ring16_inv eq_refl _ _ eq_refl) _).
    + repeat constructor; lia.
    + vm_compute; split; discriminate.
    + vm_compute; discriminate.
  - refine (proj2 (push_drain_fidelity None ring16 (replicate 16 7) (replicate 16 0) 16
                     ring16_inv eq_refl _ _ eq_refl) 9 eq_refl).
    + repeat constructor; lia.
    + vm_compute; split; discriminate.
Defined.

(** C5, as the code has it.  [cbuffer_popm] does not stop at [size]: it
    takes the whole message out of the buffer (everything up to and
    including the first [eom], or the whole backlog when there is none),
    copies the first [size] bytes of it into the area and returns how many
    it copied; the bytes of the message beyond [size] are gone from the
    buffer, which keeps only what follows the message. *)
Theorem popm_takes_whole_message OVR cb data size eom :
  inv cb -> 0 <= size <= 255 -> Z.of_nat (length data) = size ->
  exists cb' data',
    cbuffer_popm OVR cb data size eom
      = Some (cb', data',
              Z.min (Z.of_nat (length (message eom (backlog cb)))) size) /\
    take (Z.to_nat (Z.min (Z.of_nat (length (message eom (backlog cb)))) size)) data'
      = take (Z.to_nat size) (message eom (backlog cb)) /\
    backlog (cb) = message eom (backlog cb) ++ backlog cb'.
Proof.
  intros Hinv Hsz Hdata.
  destruct (popm_spec OVR cb data size eom Hinv Hsz)
    as (cb' & data' & Hp & _ & _ & _ & _ & Hb & _ & Htk).
  exists cb', data'. split; [exact Hp|].
  assert (Hpre : forall l, take (length (message eom l)) l = message eom l).
  { induction l as [|x l IH]; simpl; [reflexivity|].
    destruct (x =? eom); simpl; [reflexivity | f_equal; exact IH]. }
  specialize (Hpre (backlog cb)).
  split.
  - rewrite Htk by lia.
    rewrite <- (f_equal (take (Z.to_nat size)) Hpre), take_take.
    f_equal. lia.
  - rewrite Hb.
    rewrite <- (f_equal (fun l => l ++ drop (length (message eom (backlog cb)))
                                         (backlog cb)) Hpre).
    symmetry. apply take_drop.
Qed.

Lemma popm_takes_whole_message_witness :
  exists cb' data',
    cbuffer_popm None (fst (push_all ring16 [1; 2; 3])) [0] 1 10
      = Some (cb', data', 1) /\
    take 1 data' = [1] /\
    [1; 2; 3] = [1; 2; 3] ++ backlog cb'.
Proof.
  refine (popm_takes_whole_message None (fst (push_all ring16 [1; 2; 3])) [0] 1 10
            _ _ eq_refl).
  - inv_by_computation.
  - vm_compute; split; discriminate.
Defined.

(** C5, as stated, fails: three bytes without terminator are buffered and
    the area has room for one; the call copies one byte and empties the
    buffer, the other two bytes are lost. *)
Lemma popm_stops_at_size_fails : ~ popm_stops_at_size None.
Proof.
  intros H.
  destruct (H (fst (push_all ring16 [1; 2; 3])) [0] 1 10
              (Cbuffer (1 :: 2 :: 3 :: replicate 13 0) 3 3 15 16 0 false) [1] 1)
    as [_ Hb].
  - inv_by_computation.
  - lia.
  - reflexivity.
  - vm_compute. intros Hin. apply list_elem_of_singleton in Hin. discriminate.
  - vm_compute. reflexivity.
  - reflexivity.
  - vm_compute in Hb. discriminate.
Qed.

(** C6. When the backlog holds the terminator first at position k, with
    k + 1 <= size, [cbuffer_popm] returns k + 1, the area starts with the
    k bytes before the terminator followed by the terminator, and the bytes
    after position k stay in the buffer: a later [cbuffer_pop] into an area
    large enough returns exactly them. *)
Theorem popm_up_to_terminator OVR cb data size eom pre post :
  inv cb -> backlog cb = pre ++ eom :: post -> eom ∉ pre ->
  Z.of_nat (length pre) + 1 <= size <= 255 -> Z.of_nat (length data) = size ->
  exists cb' data',
    cbuffer_popm OVR cb data size eom
      = Some (cb', data', Z.of_nat (length pre) + 1) /\
    take (S (length pre)) data' = pre ++ [eom] /\
    backlog cb' = post /\
    forall data2 size2,
      Z.of_nat (length post) <= size2 <= 255 ->
      Z.of_nat (length data2) = size2 ->
      exists cb'' data2',
        cbuffer_pop OVR cb' data2 size2 = (cb'', data2', Z.of_nat (length post)) /\
        take (length post) data2' = post.
Proof.
  intros Hinv Hbl Hpre Hsz Hdata.
  destruct (popm_spec OVR cb data size eom Hinv ltac:(lia))
    as (cb' & data' & Hp & Hinv' & Ho' & _ & _ & Hb & _ & Htk).
  rewrite Hbl, message_terminated in Hp, Hb, Htk by assumption.
  rewrite length_app in Hp, Hb, Htk. simpl length in Hp, Hb, Htk.
  replace (Z.of_nat (length pre + 1) `min` size)
    with (Z.of_nat (length pre) + 1) in Hp, Htk by lia.
  replace (Z.to_nat (Z.of_nat (length pre) + 1)) with (S (length pre)) in Htk by lia.
  assert (Hpost : backlog cb' = post).
  { rewrite Hb. replace (length pre + 1)%nat with (length (pre ++ [eom]))
      by (rewrite length_app; reflexivity).
    rewrite (cons_middle eom pre post), app_assoc. apply drop_app_length. }
  exists cb', data'. split; [exact Hp|].
  split.
  { rewrite Htk by lia. rewrite (cons_middle eom pre post), app_assoc.
    replace (S (length pre)) with (length (pre ++ [eom]))
      by (rewrite length_app; simpl; lia).
    apply take_app_length. }
  split; [exact Hpost|].
  intros data2 size2 Hsz2 Hdata2.
  destruct (pop_spec OVR cb' data2 size2 Hinv' ltac:(lia) ltac:(congruence))
    as (cb'' & data2' & Hpop & _ & _ & _ & _ & _ & _ & Htk2).
  assert (Hlen : cb_len cb' = Z.of_nat (length post)).
  { rewrite <- Hpost, length_backlog. destruct Hinv' as [(_ & _ & _ & Hl & _) _]. lia. }
  replace (cb_len cb' `min` size2) with (Z.of_nat (length post)) in Hpop, Htk2 by lia.
  rewrite Nat2Z.id in Htk2.
  exists cb'', data2'. split; [exact Hpop|].
  rewrite Htk2 by lia. rewrite Hpost. apply take_ge. lia.
Qed.

Lemma popm_up_to_terminator_witness :
  exists cb' data',
    cbuffer_popm None (fst (push_all ring16 [1; 2; 10; 4])) (replicate 8 0) 8 10
      = Some (cb', data', 3) /\
    take 3 data' = [1; 2; 10] /\
    backlog cb' = [4] /\
    forall data2 size2,
      1 <= size2 <= 255 ->
      Z.of_nat (length data2) = size2 ->
      exists cb'' data2',
        cbuffer_pop None cb' data2 size2 = (cb'', data2', 1) /\
        take 1 data2' = [4].
Proof.
  refine (popm_up_to_terminator None (fst (push_all ring16 [1; 2; 10; 4]))
            (replicate 8 0) 8 10 [1; 2] [4] _ eq_refl _ _ eq_refl).
  - inv_by_computation.
  - intros Hin. apply elem_of_cons in Hin as [Hin|Hin]; [discriminate|].
    apply list_elem_of_singleton in Hin. discriminate.
  - vm_compute; split; discriminate.
Defined.

(** C9. The state invariant: in every state reached from [cbuffer_init]
    through pushes, pops, message pops and clears, when the latch is not
    set [len] is (idx - start) mod C, and when it is set the two cursors
    are equal and [len] is C. *)
Theorem reachable_state_invariant C OVR cb :
  reachable C OVR cb ->
  (cb_overflow cb = false -> cb_len cb = (cb_idx cb - cb_start cb) mod C) /\
  (cb_overflow cb = true -> cb_idx cb = cb_start cb /\ cb_len cb = C).
Proof.
  intros Hr. destruct (reachable_inv C OVR cb Hr) as [Hinv HC].
  assert (Hwf := proj1 Hinv).
  destruct Hwf as (Hcap & _ & Hs & Hl & Hi). rewrite HC in *.
  split.
  - intros Ho. apply inv_not_full in Ho; [|assumption]. rewrite HC in Ho.
    rewrite Hi, Zminus_mod_idemp_l.
    replace (cb_start cb + cb_len cb - cb_start cb) with (cb_len cb) by lia.
    symmetry. apply Z.mod_small. lia.
  - intros Ho. apply inv_full in Ho; [|assumption]. rewrite HC in Ho.
    split; [|exact Ho].
    rewrite Hi, Ho, mod_wrap by lia.
    destruct (Z.ltb_spec (cb_start cb + C) C); lia.
Qed.

Lemma reachable_state_invariant_witness :
  let cb := fst (cbuffer_push (fst (cbuffer_push ring16 1)) 2) in
  (cb_overflow cb = false -> cb_len cb = (cb_idx cb - cb_start cb) mod 16) /\
  (cb_overflow cb = true -> cb_idx cb = cb_start cb /\ cb_len cb = 16).
Proof.
  refine (reachable_state_invariant 16 None _ _).
  apply reach_push, reach_push, reach_init.
  - lia.
  - reflexivity.
Defined.

(** C10. A rejected push has no effect: with the latch set,
    [cbuffer_push] returns FALSE and the buffer it returns is the buffer it
    was given, in every field. *)
Theorem rejected_push_no_effect cb rxc :
  cb_overflow cb = true ->
  snd (cbuffer_push cb rxc) = FALSE /\
  fst (cbuffer_push cb rxc) = cb /\
  cb_buffer (fst (cbuffer_push cb rxc)) = cb_buffer cb /\
  cb_idx (fst (cbuffer_push cb rxc)) = cb_idx cb /\
  cb_start (fst (cbuffer_push cb rxc)) = cb_start cb /\
  cb_len (fst (cbuffer_push cb rxc)) = cb_len cb /\
  cb_overflow (fst (cbuffer_push cb rxc)) = cb_overflow cb.
Proof.
  intros Ho. rewrite push_rejected by exact Ho. simpl. auto 10.
Qed.

Lemma rejected_push_no_effect_witness :
  let cb := fst (push_all ring16 (replicate 16 7)) in
  snd (cbuffer_push cb 9) = FALSE /\
  fst (cbuffer_push cb 9) = cb /\
  cb_buffer (fst (cbuffer_push cb 9)) = cb_buffer cb /\
  cb_idx (fst (cbuffer_push cb 9)) = cb_idx cb /\
  cb_start (fst (cbuffer_push cb 9)) = cb_start cb /\
  cb_len (fst (cbuffer_push cb 9)) = cb_len cb /\
  cb_overflow (fst (cbuffer_push cb 9)) = cb_overflow cb.
Proof.
  exact (rejected_push_no_effect (fst (push_all ring16 (replicate 16 7))) 9 eq_refl).
Defined.

(** * The checksum *)

Lemma land_pow2 (x k : Z) :
  0 <= k -> Z.land x (2 ^ k) = if Z.testbit x k then 2 ^ k else 0.
Proof.
  intros Hk. apply Z.bits_inj'. intros n Hn.
  rewrite Z.land_spec, Z.pow2_bits_eqb by lia.
  destruct (Z.eqb_spec k n) as [->|Hne].
  - destruct (Z.testbit x n); simpl.
    + rewrite Z.pow2_bits_true; lia.
    + rewrite Z.bits_0. reflexivity.
  - rewrite andb_false_r. destruct (Z.testbit x k).
    + rewrite Z.pow2_bits_false; [reflexivity | lia].
    + rewrite Z.bits_0. reflexivity.
Qed.

Lemma mask_test (x k : Z) :
  0 <= k -> (Z.land x (2 ^ k) =? 2 ^ k) = Z.testbit x k.
Proof.
  intros Hk. rewrite land_pow2 by assumption.
  assert (0 < 2 ^ k) by (apply Z.pow_pos_nonneg; lia).
  destruct (Z.testbit x k).
  - apply Z.eqb_refl.
  - apply Z.eqb_neq. lia.
Qed.

Lemma carry_test (x : Z) : negb (Z.land x 0x8000 =? 0) = Z.testbit x 15.
Proof.
  change 0x8000 with (2 ^ 15). rewrite land_pow2 by lia.
  destruct (Z.testbit x 15); reflexivity.
Qed.

Lemma turn_spec (u8Data crc k : Z) :
  0 <= k ->
  CRC_calcCrc8_turn u8Data (crc, 2 ^ k)
    = (crc16_shift crc (Z.testbit u8Data k), Z.shiftr (2 ^ k) 1).
Proof.
  intros Hk. unfold CRC_calcCrc8_turn, crc16_shift.
  rewrite mask_test, carry_test by assumption.
  destruct (Z.testbit u8Data k); reflexivity.
Qed.

Lemma CRC_calcCrc8_spec (crc u8Data : Z) :
  CRC_calcCrc8 crc u8Data = crc16_byte crc u8Data.
Proof.
  unfold CRC_calcCrc8, crc16_byte.
  cbv beta iota delta [Nat.iter nat_rect fold_left].
  change 0x80 with (2 ^ 7). rewrite turn_spec by lia.
  change (Z.shiftr (2 ^ 7) 1) with (2 ^ 6). rewrite turn_spec by lia.
  change (Z.shiftr (2 ^ 6) 1) with (2 ^ 5). rewrite turn_spec by lia.
  change (Z.shiftr (2 ^ 5) 1) with (2 ^ 4). rewrite turn_spec by lia.
  change (Z.shiftr (2 ^ 4) 1) with (2 ^ 3). rewrite turn_spec by lia.
  change (Z.shiftr (2 ^ 3) 1) with (2 ^ 2). rewrite turn_spec by lia.
  change (Z.shiftr (2 ^ 2) 1) with (2 ^ 1). rewrite turn_spec by lia.
  change (Z.shiftr (2 ^ 1) 1) with (2 ^ 0). rewrite turn_spec by lia.
  reflexivity.
Qed.

Lemma payload_fold (data : list Z) (n : nat) (crc : Z) :
  (n <= length data)%nat ->
  fold_left (fun crc16 i => CRC_calcCrc8 crc16 (peek data (Z.of_nat i)))
            (seq 0 n) crc
  = fold_left crc16_byte (take n data) crc.
Proof.
  induction n as [|n IH]; intros Hn; [reflexivity|].
  rewrite seq_S, fold_left_app, IH by lia. simpl.
  destruct (lookup_lt_is_Some_2 data n ltac:(lia)) as [x Hx].
  rewrite (take_S_r _ _ x Hx), fold_left_app. simpl.
  rewrite CRC_calcCrc8_spec. unfold peek. rewrite Nat2Z.id.
  rewrite (list_lookup_total_correct _ _ _ Hx). reflexivity.
Qed.

(** C2. [m5_crc] is the CRC-16 with polynomial 0x1021 and initial register
    0xFFFF, most significant bit first, eight steps per byte, over the
    length byte, the opcode byte, the status word (high byte, then low
    byte) only when [include_status] is set, and the payload bytes in
    order; for length 2, opcode 0x21 and payload 03 E8, without the status,
    it is 0xD509. *)
Theorem m5_crc_is_crc16 (r : rfid_t) (include_status : Z) :
  rfid_len r <= Z.of_nat (length (rfid_data r)) ->
  m5_crc r include_status = crc16 (crc_input r include_status) /\
  (rfid_len r = 0x02 -> rfid_opcode r = 0x21 ->
   take 2 (rfid_data r) = [0x03; 0xe8] ->
   m5_crc r FALSE = 0xD509).
Proof.
  intros Hlen.
  assert (Hgen : forall inc, m5_crc r inc = crc16 (crc_input r inc)).
  { intros inc. unfold m5_crc, crc16, crc_input.
    rewrite payload_fold by lia. rewrite !fold_left_app. simpl.
    rewrite !CRC_calcCrc8_spec.
    destruct (inc =? 0); simpl; rewrite ?CRC_calcCrc8_spec; reflexivity. }
  split; [apply Hgen|].
  intros Hl Hop Hd. rewrite Hgen. unfold crc_input.
  rewrite Hl, Hop. change (Z.to_nat 2) with 2%nat. rewrite Hd. reflexivity.
Qed.

Lemma m5_crc_is_crc16_witness :
  let r := Rfid 16 1 (0x03 :: 0xe8 :: replicate 253 0) 0xff 0x02 0x21 0 0 0 in
  m5_crc r FALSE = crc16 [0x02; 0x21; 0x03; 0xe8] /\ m5_crc r FALSE = 0xD509.
Proof.
  intros r.
  destruct (m5_crc_is_crc16 r FALSE) as [H1 H2].
  - vm_compute. discriminate.
  - split; [exact H1 | exact (H2 eq_refl eq_refl eq_refl)].
Defined.

(** * The line *)

(** C7, as the code has it.  For a received byte equal to the line
    terminator the handler increments [flags.eol] and then pushes the byte,
    whether or not the buffer accepts it; [flags.eol] is a 6-bit field and
    the increment wraps: from 63 it goes to 0.  Any other byte is pushed
    and leaves the counter alone. *)
Theorem rx_isr_counts_modulo_64 (USART0_EOL : option Z) (m : mcu_t) (rxc eol : Z) :
  USART0_EOL = Some eol -> 0 <= fl_eol (usart0 m) <= 63 ->
  let m' := ISR_USART0_RX_vect USART0_EOL m rxc in
  fl_eol (usart0 m') =
    (if rxc =? eol
     then (if fl_eol (usart0 m) =? 63 then 0 else fl_eol (usart0 m) + 1)
     else fl_eol (usart0 m)) /\
  0 <= fl_eol (usart0 m') <= 63 /\
  us_rx (usart0 m') = fst (cbuffer_push (us_rx (usart0 m)) rxc).
Proof.
  intros -> Hr. unfold ISR_USART0_RX_vect, rx_isr. simpl.
  destruct (Z.eqb_spec rxc eol); simpl.
  - destruct (Z.eqb_spec (fl_eol (usart0 m)) 63) as [->|].
    + change ((63 + 1) mod 64) with 0.
      split; [reflexivity|]. split; [lia | reflexivity].
    + rewrite Z.mod_small by lia.
      split; [reflexivity|]. split; [lia | reflexivity].
  - split; [reflexivity|]. split; [lia | reflexivity].
Qed.

Lemma rx_isr_counts_modulo_64_witness :
  let m' := ISR_USART0_RX_vect (Some 13) mcu_eol63 13 in
  fl_eol (usart0 m') = 0 /\
  0 <= fl_eol (usart0 m') <= 63 /\
  us_rx (usart0 m') = fst (cbuffer_push (us_rx (usart0 mcu_eol63)) 13).
Proof.
  refine (rx_isr_counts_modulo_64 (Some 13) mcu_eol63 13 13 eq_refl _).
  vm_compute; split; discriminate.
Defined.

(** C7, as stated, fails: with 63 terminators counted, one more takes the
    counter to 0, not to 63. *)
Lemma eol_saturates_fails : ~ eol_saturates (Some 13).
Proof.
  intros H.
  assert (Hr : 0 <= fl_eol (usart0 mcu_eol63) <= 63)
    by (vm_compute; split; discriminate).
  specialize (H mcu_eol63 13 eq_refl Hr). vm_compute in H. discriminate.
Qed.

(** * The reader protocol *)

Lemma get_byte_spec OVR m old :
  inv (us_rx (usart1 m)) ->
  exists m' b,
    get_byte OVR m old = (m', b, Z.min (rx_len m) 1) /\
    rfid m' = rfid m /\
    inv (us_rx (usart1 m')) /\
    rx_len m' = rx_len m - Z.min (rx_len m) 1.
Proof.
  intros Hinv.
  destruct (pop_spec OVR (us_rx (usart1 m)) [old] 1 Hinv ltac:(lia) ltac:(lia))
    as (cb' & data' & Hp & Hinv' & _ & Hl & _).
  unfold get_byte, usart_get. simpl negb. cbv iota. rewrite Hp.
  eexists _, _. split; [reflexivity|]. split; [reflexivity|].
  split; [exact Hinv'|]. exact Hl.
Qed.

Lemma rx_len_set_rfid m r : rx_len (set_rfid m r) = rx_len m.
Proof. reflexivity. Qed.

(** Closes a branch of the [switch] whose machine differs from [m1] in
    [rfid] only. *)
Ltac rx_branch Hinv :=
  cbn [fst snd]; rewrite ?rx_len_set_rfid; split; [exact Hinv | lia].

Lemma rx_case_STATUS_bytes OVR m i :
  inv (us_rx (usart1 m)) ->
  inv (us_rx (usart1 (fst (fst (rx_case_STATUS OVR m i))))) /\
  0 <= rx_len m - rx_len (fst (fst (rx_case_STATUS OVR m i))) <= 1.
Proof.
  intros Hinv. assert (Hl := Hinv). destruct Hl as [(_ & _ & _ & Hl & _) _].
  fold (rx_len m) in Hl. unfold rx_case_STATUS. destruct (i <? 2).
  - destruct (get_byte_spec OVR m (byte_at (rfid_status (rfid m)) (1 - i)) Hinv)
      as (m1 & b & Hg & _ & Hinv1 & Hl1).
    rewrite Hg. rx_branch Hinv1.
  - rx_branch Hinv.
Qed.

Lemma get_byte_empty OVR m old :
  rx_len m = 0 -> get_byte OVR m old = (m, old, 0).
Proof.
  unfold rx_len. intros H.
  unfold get_byte, usart_get, cbuffer_pop. simpl negb. cbv iota.
  rewrite H. simpl.
  destruct m as [u0 u1 r b0 b1 t0 t1 l]. destruct u1. reflexivity.
Qed.

Lemma rx_case_STATUS_waits OVR m i :
  rx_len m = 0 -> i < 2 ->
  rfid_error (rfid (fst (fst (rx_case_STATUS OVR m i)))) = rfid_error (rfid m) /\
  snd (fst (rx_case_STATUS OVR m i)) = i.
Proof.
  intros H0 Hi. unfold rx_case_STATUS.
  replace (i <? 2) with true by (symmetry; apply Z.ltb_lt; exact Hi).
  rewrite get_byte_empty by exact H0. split; reflexivity.
Qed.

Lemma rx_switch_waits OVR m i :
  rx_len m = 0 -> waits_for_byte m i ->
  rfid_error (rfid (fst (fst (rx_switch OVR m i)))) = rfid_error (rfid m) /\
  snd (fst (rx_switch OVR m i)) = i.
Proof.
  intros H0 Hw. unfold waits_for_byte in Hw. unfold rx_switch.
  destruct Hw as [E|[E|[[E Hi]|[[E Hi]|[[E Hi]|[E Hi]]]]]]; rewrite !E.
  - simpl (SOH =? SOH). cbv iota.
    rewrite get_byte_empty by exact H0. simpl. rewrite E. split; reflexivity.
  - simpl (LEN =? SOH). simpl (LEN =? LEN). cbv iota.
    rewrite get_byte_empty by exact H0. simpl. rewrite E. split; reflexivity.
  - simpl (CMD =? SOH). simpl (CMD =? LEN). simpl (CMD =? CMD). cbv iota.
    rewrite get_byte_empty by exact H0. simpl negb. cbv iota.
    match goal with
    | |- context [rx_case_STATUS OVR ?m3 i] =>
        destruct (rx_case_STATUS_waits OVR m3 i H0 Hi) as [He Hi']
    end.
    rewrite He, Hi'. simpl. rewrite E. split; reflexivity.
  - simpl (STATUS =? SOH). simpl (STATUS =? LEN). simpl (STATUS =? CMD).
    simpl (STATUS =? STATUS). cbv iota.
    destruct (rx_case_STATUS_waits OVR m i H0 Hi) as [He Hi'].
    rewrite He, Hi'. rewrite E. split; reflexivity.
  - simpl (DATA =? SOH). simpl (DATA =? LEN). simpl (DATA =? CMD).
    simpl (DATA =? STATUS). simpl (DATA =? DATA). cbv iota.
    replace (i <? rfid_len (rfid m)) with true
      by (symmetry; apply Z.ltb_lt; exact Hi).
    rewrite get_byte_empty by exact H0. simpl. rewrite E. split; reflexivity.
  - simpl (CRC =? SOH). simpl (CRC =? LEN). simpl (CRC =? CMD).
    simpl (CRC =? STATUS). simpl (CRC =? DATA). simpl (CRC =? CRC). cbv iota.
    replace (i <? 2) with true by (symmetry; apply Z.ltb_lt; exact Hi).
    rewrite get_byte_empty by exact H0. simpl. rewrite E. split; reflexivity.
Qed.

Lemma rx_switch_bytes OVR m i :
  inv (us_rx (usart1 m)) ->
  inv (us_rx (usart1 (fst (fst (rx_switch OVR m i))))) /\
  0 <= rx_len m - rx_len (fst (fst (rx_switch OVR m i))) <= 2 /\
  (rfid_error (rfid m) <> CMD ->
   rx_len m - rx_len (fst (fst (rx_switch OVR m i))) <= 1).
Proof.
  intros Hinv. assert (Hl := Hinv). destruct Hl as [(_ & _ & _ & Hl & _) _].
  fold (rx_len m) in Hl. unfold rx_switch.
  destruct (Z.eqb_spec (rfid_error (rfid m)) SOH) as [E1|E1].
  { destruct (get_byte_spec OVR m (rfid_soh (rfid m)) Hinv)
      as (m1 & b & Hg & _ & Hinv1 & Hl1).
    rewrite Hg.
    match goal with |- context [if ?c then _ else _] => destruct c end;
      rx_branch Hinv1. }
  destruct (Z.eqb_spec (rfid_error (rfid m)) LEN) as [E2|E2].
  { destruct (get_byte_spec OVR m (rfid_len (rfid m)) Hinv)
      as (m1 & b & Hg & _ & Hinv1 & Hl1).
    rewrite Hg.
    match goal with |- context [if ?c then _ else _] => destruct c end;
      rx_branch Hinv1. }
  destruct (Z.eqb_spec (rfid_error (rfid m)) CMD) as [E3|E3].
  { destruct (get_byte_spec OVR m (rfid_opcode (rfid m)) Hinv)
      as (m1 & b & Hg & _ & Hinv1 & Hl1).
    rewrite Hg.
    match goal with |- context [if ?c then _ else _] => destruct c end;
      match goal with
      | |- context [rx_case_STATUS OVR ?m3 ?i3] =>
          destruct (rx_case_STATUS_bytes OVR m3 i3 Hinv1) as [Hinv3 Hl3];
          rewrite ?rx_len_set_rfid in Hl3
      end; (split; [exact Hinv3 | lia]). }
  destruct (Z.eqb_spec (rfid_error (rfid m)) STATUS) as [E4|E4].
  { destruct (rx_case_STATUS_bytes OVR m i Hinv) as [Hinv3 Hl3].
    split; [exact Hinv3 | lia]. }
  destruct (Z.eqb_spec (rfid_error (rfid m)) DATA) as [E5|E5].
  { destruct (i <? rfid_len (rfid m)).
    - destruct (get_byte_spec OVR m (peek (rfid_data (rfid m)) i) Hinv)
        as (m1 & b & Hg & _ & Hinv1 & Hl1).
      rewrite Hg. rx_branch Hinv1.
    - rx_branch Hinv. }
  destruct (Z.eqb_spec (rfid_error (rfid m)) CRC) as [E6|E6].
  { destruct (i <? 2).
    - destruct (get_byte_spec OVR m (byte_at (rfid_crc (rfid m)) (1 - i)) Hinv)
        as (m1 & b & Hg & _ & Hinv1 & Hl1).
      rewrite Hg. rx_branch Hinv1.
    - match goal with |- context [if ?c then _ else _] => destruct c end;
        rx_branch Hinv. }
  rx_branch Hinv.
Qed.

(** C8, as the code has it.  A turn of the loop of [rx_pkt] polls the line
    for one byte at a time, and in every stage but [CMD] it polls at most
    once, so it takes at most one byte.  [case CMD:] has no [break]: the
    turn that polls for the opcode goes on into [case STATUS:] and polls
    again, so it can take two bytes, never more.  A poll that succeeds
    takes exactly one byte, and a turn that waits for a byte and finds none
    leaves the stage and the count as they are. *)
Theorem rx_turn_takes_at_most_two OVR m i :
  inv (us_rx (usart1 m)) ->
  let m' := fst (fst (rx_switch OVR m i)) in
  let i' := snd (fst (rx_switch OVR m i)) in
  (forall old,
     let poll := get_byte OVR m old in
     (snd poll = 0 \/ snd poll = 1) /\
     rx_len (fst (fst poll)) = rx_len m - snd poll) /\
  inv (us_rx (usart1 m')) /\
  0 <= rx_len m - rx_len m' <= 2 /\
  (rfid_error (rfid m) <> CMD -> rx_len m - rx_len m' <= 1) /\
  (rx_len m = 0 -> waits_for_byte m i ->
   rfid_error (rfid m') = rfid_error (rfid m) /\ i' = i).
Proof.
  intros Hinv m' i'. subst m' i'.
  destruct (rx_switch_bytes OVR m i Hinv) as (H1 & H2 & H3).
  split.
  { intros old poll. subst poll.
    destruct (get_byte_spec OVR m old Hinv) as (m1 & b & Hg & _ & _ & Hl1).
    rewrite Hg. cbn [fst snd].
    destruct Hinv as [(_ & _ & _ & Hl & _) _]. fold (rx_len m) in Hl.
    split; lia. }
  split; [exact H1|]. split; [exact H2|]. split; [exact H3|].
  intros H0 Hw. exact (rx_switch_waits OVR m i H0 Hw).
Qed.

Lemma mcu_at_CMD_inv : inv (us_rx (usart1 mcu_at_CMD)).
Proof. inv_by_computation. Qed.

Lemma rx_turn_takes_at_most_two_witness :
  let m' := fst (fst (rx_switch None mcu_at_CMD 0)) in
  let i' := snd (fst (rx_switch None mcu_at_CMD 0)) in
  (forall old,
     let poll := get_byte None mcu_at_CMD old in
     (snd poll = 0 \/ snd poll = 1) /\
     rx_len (fst (fst poll)) = rx_len mcu_at_CMD - snd poll) /\
  inv (us_rx (usart1 m')) /\
  0 <= rx_len mcu_at_CMD - rx_len m' <= 2 /\
  (rfid_error (rfid mcu_at_CMD) <> CMD -> rx_len mcu_at_CMD - rx_len m' <= 1) /\
  (rx_len mcu_at_CMD = 0 -> waits_for_byte mcu_at_CMD 0 ->
   rfid_error (rfid m') = rfid_error (rfid mcu_at_CMD) /\ i' = 0).
Proof.
  exact (rx_turn_takes_at_most_two None mcu_at_CMD 0 mcu_at_CMD_inv).
Defined.

(** C8, as stated, fails: with the opcode and the first status byte in the
    buffer, the turn that reads the opcode reads the status byte too. *)
Lemma one_byte_per_turn_fails : ~ one_byte_per_turn None.
Proof.
  intros H. specialize (H mcu_at_CMD 0 mcu_at_CMD_inv).
  vm_compute in H. apply H. reflexivity.
Qed.

(** C4, on the code.  The reader module answers the boot command with a
    well-formed frame whose status word is 0x0200, and every later command
    with status 0.  [rx_pkt] reads the boot answer to [END], so
    [rfid->error] is 0 although the status word is not; [rfid_resume] looks
    at [rfid->error] only, sends the four commands that follow, and returns
    0. *)
Theorem rfid_resume_ignores_status :
  let mem := replicate 255 0 in
  let m0 := delay_ms None (usart_resume RFID_USART_PORT
              (set_rfid (mcu_init (bring_up_lines 0x0200))
                        (set_data (rfid (mcu_init (bring_up_lines 0x0200))) mem))) in
  let boot := send_cmd None None (set_rfid m0 (set_opcode (set_len (rfid m0) 0) 0x04)) in
  let r := rfid_resume None None false (mcu_init (bring_up_lines 0x0200)) mem in
  snd boot = FALSE /\
  rfid_error (rfid (fst boot)) = END /\
  rfid_status (rfid (fst boot)) = 0x0200 /\
  snd r = 0 /\
  UDR1_tx (fst r) =
    [0xff; 0x00; 0x04; 0x1d; 0x0b]
    ++ [0xff; 0x01; 0x97; 0x02; 0x4b; 0xbf]
    ++ [0xff; 0x02; 0x93; 0x00; 0x05; 0x51; 0x7d]
    ++ [0xff; 0x01; 0x98; 0x03; 0x44; 0xbe]
    ++ [0xff; 0x03; 0x9a; 0x01; 0x02; 0x01; 0xad; 0x5c].
Proof. vm_compute. repeat split. Qed.

(** * More on the ring buffer *)

Lemma lookup_poke_ne (l : list Z) (j v : Z) (k : nat) :
  k <> Z.to_nat j -> poke l j v !! k = l !! k.
Proof. intros. unfold poke. apply list_lookup_insert_ne. auto. Qed.

(** The loop of [cbuffer_pop] writes the area at the positions from the
    [j] it starts with up to the [j] it returns, nowhere else. *)
Lemma pop_loop_writes OVR n : forall cb data size index j,
  0 <= j -> size <= 255 ->
  j <= snd (pop_loop OVR n cb data size index j) /\
  length (snd (fst (pop_loop OVR n cb data size index j))) = length data /\
  forall k : nat,
    (k < Z.to_nat j)%nat \/
    (Z.to_nat (snd (pop_loop OVR n cb data size index j)) <= k)%nat ->
    snd (fst (pop_loop OVR n cb data size index j)) !! k = data !! k.
Proof.
  induction n as [|n IH]; intros cb data size index j Hj Hsz; simpl.
  - split; [lia | split; reflexivity].
  - destruct (negb (cb_start cb =? index) && (j <? size)) eqn:Hc;
      [|split; [simpl; lia | split; reflexivity]].
    apply andb_true_iff in Hc as [_ Hjs].
    unfold bcpy. rewrite Hjs. apply Z.ltb_lt in Hjs.
    rewrite (u8_small (j + 1)) by lia.
    match goal with
    | |- context [pop_loop OVR n ?c ?d size index (j + 1)] =>
        destruct (IH c d size index (j + 1) ltac:(lia) Hsz) as (Hle & Hlen & Hk)
    end.
    split; [lia|]. split; [rewrite Hlen; apply length_poke|].
    intros k Hcase. rewrite Hk by lia. apply lookup_poke_ne. lia.
Qed.

Lemma popm_loop_writes OVR fuel : forall cb data size eom index j loop r,
  0 <= j -> size <= 255 ->
  popm_loop OVR fuel cb data size eom index j loop = Some r ->
  j <= snd r /\
  length (snd (fst r)) = length data /\
  forall k : nat,
    (k < Z.to_nat j)%nat \/ (Z.to_nat (snd r) <= k)%nat ->
    snd (fst r) !! k = data !! k.
Proof.
  induction fuel as [|fuel IH]; intros cb data size eom index j loop r Hj Hsz;
    simpl; destruct (loop && negb (cb_start cb =? index)) eqn:Hc;
    try discriminate;
    try (intros [= <-]; simpl; split; [lia | split; reflexivity]).
  unfold bcpy. destruct (Z.ltb_spec j size) as [Hjs|Hjs].
  - rewrite (u8_small (j + 1)) by lia. intros Hr.
    apply IH in Hr as (Hle & Hlen & Hk); [|lia|assumption].
    split; [lia|]. split; [rewrite Hlen; apply length_poke|].
    intros k Hcase. rewrite Hk by lia. apply lookup_poke_ne. lia.
  - intros Hr. apply IH in Hr as (Hle & Hlen & Hk); [|lia|assumption].
    split; [lia|]. split; [exact Hlen|].
    intros k Hcase. apply Hk. lia.
Qed.

Lemma drop_agree (l1 l2 : list Z) (n : nat) :
  (forall k, (n <= k)%nat -> l1 !! k = l2 !! k) ->
  drop n l1 = drop n l2.
Proof.
  intros H. apply list_eq. intros i. rewrite !lookup_drop. apply H. lia.
Qed.

Lemma bcpy_area OVR cb data size j :
  snd (fst (bcpy OVR cb data size j))
    = (if j <? size then poke data j (peek (cb_buffer cb) (cb_start cb)) else data) /\
  snd (bcpy OVR cb data size j) = (if j <? size then u8 (j + 1) else j).
Proof. unfold bcpy. destruct (j <? size); split; reflexivity. Qed.

(** [cbuffer_pop] leaves the area as it was from the position it returns
    on, and never changes its length. *)
Lemma pop_rest_of_area OVR cb data size :
  0 <= size <= 255 ->
  drop (Z.to_nat (snd (cbuffer_pop OVR cb data size)))
       (snd (fst (cbuffer_pop OVR cb data size)))
  = drop (Z.to_nat (snd (cbuffer_pop OVR cb data size))) data /\
  length (snd (fst (cbuffer_pop OVR cb data size))) = length data.
Proof.
  intros Hsz. unfold cbuffer_pop.
  destruct (cb_len cb =? 0); [split; reflexivity|].
  assert (Hfirst : exists c1 d1 j1,
    (if cb_overflow cb then bcpy OVR cb data size 0 else (cb, data, 0)) = (c1, d1, j1) /\
    0 <= j1 <= 1 /\ length d1 = length data /\
    forall k : nat, (Z.to_nat j1 <= k)%nat -> d1 !! k = data !! k).
  { destruct (cb_overflow cb).
    - destruct (bcpy_area OVR cb data size 0) as [Hd Hj].
      destruct (bcpy OVR cb data size 0) as [[c1 d1] j1]. cbn [fst snd] in *.
      exists c1, d1, j1. split; [reflexivity|]. subst d1 j1.
      destruct (Z.ltb_spec 0 size).
      + rewrite (u8_small (0 + 1)) by lia.
        split; [lia|]. split; [apply length_poke|].
        intros k Hk. apply lookup_poke_ne. lia.
      + split; [lia|]. split; reflexivity.
    - exists cb, data, 0. split; [reflexivity|]. split; [lia|]. split; reflexivity. }
  destruct Hfirst as (c1 & d1 & j1 & -> & Hj1 & Hl1 & Hk1).
  destruct (pop_loop_writes OVR (Z.to_nat size) c1 d1 size (cb_idx cb) j1
              ltac:(lia) ltac:(lia)) as (Hle & Hlen & Hk).
  destruct (pop_loop OVR (Z.to_nat size) c1 d1 size (cb_idx cb) j1) as [[c2 d2] j2].
  cbn [fst snd] in *. split; [|congruence].
  apply drop_agree. intros k Hge. rewrite Hk by lia. apply Hk1. lia.
Qed.

Lemma popm_rest_of_area OVR cb data size eom cb' data' j :
  0 <= size <= 255 ->
  cbuffer_popm OVR cb data size eom = Some (cb', data', j) ->
  drop (Z.to_nat j) data' = drop (Z.to_nat j) data /\ length data' = length data.
Proof.
  intros Hsz. unfold cbuffer_popm.
  destruct (cb_len cb =? 0); [intros [= <- <- <-]; split; reflexivity|].
  assert (Hfirst : exists c1 d1 j1 loop,
    (if cb_overflow cb
     then (bcpy OVR cb data size 0,
           if peek (cb_buffer cb) (cb_start cb) =? eom then false else true)
     else (cb, data, 0, true)) = (c1, d1, j1, loop) /\
    0 <= j1 <= 1 /\ length d1 = length data /\
    forall k : nat, (Z.to_nat j1 <= k)%nat -> d1 !! k = data !! k).
  { destruct (cb_overflow cb).
    - destruct (bcpy_area OVR cb data size 0) as [Hd Hj].
      destruct (bcpy OVR cb data size 0) as [[c1 d1] j1]. cbn [fst snd] in *.
      eexists c1, d1, j1, _. split; [reflexivity|]. subst d1 j1.
      destruct (Z.ltb_spec 0 size).
      + rewrite (u8_small (0 + 1)) by lia.
        split; [lia|]. split; [apply length_poke|].
        intros k Hk. apply lookup_poke_ne. lia.
      + split; [lia|]. split; reflexivity.
    - exists cb, data, 0, true. split; [reflexivity|].
      split; [lia|]. split; reflexivity. }
  destruct Hfirst as (c1 & d1 & j1 & loop & -> & Hj1 & Hl1 & Hk1).
  destruct (popm_loop OVR 256 c1 d1 size eom (cb_idx cb) j1 loop)
    as [[[c2 d2] j2]|] eqn:Hloop; [|discriminate].
  intros [= <- <- <-].
  apply popm_loop_writes in Hloop as (Hle & Hlen & Hk); [|lia|lia].
  cbn [fst snd] in *. split; [|congruence].
  apply drop_agree. intros k Hge. rewrite Hk by lia. apply Hk1. lia.
Qed.

(** X1. [cbuffer_pop] is a first-in first-out read: from a buffer that
    holds n bytes it copies the oldest min(n, size) of them, in order, to
    the start of the area, leaves the rest of the area as it was, keeps the
    younger bytes in the buffer for the next read, and clears the latch. *)
Theorem pop_takes_oldest OVR cb data size :
  inv cb -> 0 <= size <= 255 -> (cb_overflow cb = true -> 1 <= size) ->
  size <= Z.of_nat (length data) ->
  exists cb' data',
    cbuffer_pop OVR cb data size = (cb', data', Z.min (cb_len cb) size) /\
    backlog cb = take (Z.to_nat (Z.min (cb_len cb) size)) data' ++ backlog cb' /\
    drop (Z.to_nat (Z.min (cb_len cb) size)) data'
      = drop (Z.to_nat (Z.min (cb_len cb) size)) data /\
    length data' = length data /\
    inv cb' /\ cb_overflow cb' = false.
Proof.
  intros Hinv Hsz Hov Hdata.
  destruct (pop_spec OVR cb data size Hinv Hsz Hov)
    as (cb' & data' & Hp & Hinv' & Ho' & _ & _ & Hb & _ & Htk).
  destruct (pop_rest_of_area OVR cb data size Hsz) as [Hrest Hlen].
  rewrite Hp in Hrest, Hlen. cbn [fst snd] in Hrest, Hlen.
  exists cb', data'. split; [exact Hp|].
  split; [rewrite Htk, Hb by assumption; symmetry; apply take_drop|].
  auto.
Qed.

Lemma pop_takes_oldest_witness :
  exists cb' data',
    cbuffer_pop None (fst (push_all ring16 [1; 2; 3])) [9; 9] 2 = (cb', data', 2) /\
    [1; 2; 3] = take 2 data' ++ backlog cb' /\
    drop 2 data' = [] /\
    length data' = 2%nat /\
    inv cb' /\ cb_overflow cb' = false.
Proof.
  refine (pop_takes_oldest None (fst (push_all ring16 [1; 2; 3])) [9; 9] 2 _ _ _ _).
  - inv_by_computation.
  - lia.
  - vm_compute. discriminate.
  - vm_compute. discriminate.
Defined.

(** X2. Asked for no bytes, [cbuffer_pop] still takes one out of a full
    buffer: the unconditional first [bcpy] runs, the oldest byte is removed
    without being copied, nothing is returned and the latch is cleared. *)
Theorem pop_of_no_bytes_drops_oldest OVR cb data :
  inv cb -> cb_overflow cb = true ->
  exists cb' x,
    cbuffer_pop OVR cb data 0 = (cb', data, 0) /\
    backlog cb = x :: backlog cb' /\
    inv cb' /\ cb_overflow cb' = false.
Proof.
  intros Hinv Ho. assert (Hwf := proj1 Hinv).
  assert (Hfull := inv_full cb Hinv Ho).
  assert (HC := Hwf). destruct HC as (HC & _).
  destruct (bcpy_spec OVR cb data 0 0 Hwf ltac:(lia))
    as (cb1 & Hb & Hwf1 & Hl1 & _ & Ht1 & _ & Hbl).
  exists (set_overflow cb1 false), (peek (cb_buffer cb) (cb_start cb)).
  split.
  { unfold cbuffer_pop. rewrite Ho.
    destruct (Z.eqb_spec (cb_len cb) 0); [lia|]. rewrite Hb. reflexivity. }
  split; [exact Hbl|].
  split; [|reflexivity].
  apply inv_unlatched; [assumption|]. unfold capacity in *. lia.
Qed.

Lemma pop_of_no_bytes_drops_oldest_witness :
  exists cb' x,
    cbuffer_pop None (fst (push_all ring16 (replicate 16 7))) [] 0 = (cb', [], 0) /\
    replicate 16 7 = x :: backlog cb' /\
    inv cb' /\ cb_overflow cb' = false.
Proof.
  refine (pop_of_no_bytes_drops_oldest None (fst (push_all ring16 (replicate 16 7)))
            [] _ eq_refl).
  inv_by_computation.
Defined.

(** X3. An accepted push stores the byte behind the bytes already held,
    and sets the latch exactly when that byte took the last free slot. *)
Theorem push_appends cb rxc :
  inv cb -> cb_overflow cb = false ->
  exists cb',
    cbuffer_push cb rxc = (cb', TRUE) /\
    backlog cb' = backlog cb ++ [u8 rxc] /\
    inv cb' /\
    (cb_overflow cb' = true <-> cb_len cb + 1 = capacity cb).
Proof.
  intros Hinv Ho.
  destruct (push_spec cb rxc Hinv Ho) as (cb' & Hp & Hinv' & Hl & Ht & Hb).
  exists cb'. split; [exact Hp|]. split; [exact Hb|]. split; [exact Hinv'|].
  destruct Hinv' as [_ Hiff]. rewrite Hiff. unfold capacity. lia.
Qed.

Lemma push_appends_witness :
  exists cb',
    cbuffer_push (fst (push_all ring16 [1; 2])) 0x103 = (cb', TRUE) /\
    backlog cb' = [1; 2; 3] /\
    inv cb' /\
    (cb_overflow cb' = true <-> 2 + 1 = 16).
Proof.
  refine (push_appends (fst (push_all ring16 [1; 2])) 0x103 _ eq_refl).
  inv_by_computation.
Defined.

Lemma push_all_rejected cb bs :
  cb_overflow cb = true -> push_all cb bs = (cb, replicate (length bs) FALSE).
Proof.
  intros Ho. induction bs as [|b bs IH]; simpl; [reflexivity|].
  rewrite push_rejected, IH by assumption. reflexivity.
Qed.

Lemma push_all_room cb bs :
  inv cb ->
  let room := Z.to_nat (capacity cb - cb_len cb) in
  exists cb',
    push_all cb bs
      = (cb', replicate (Nat.min (length bs) room) TRUE
              ++ replicate (length bs - room) FALSE) /\
    backlog cb' = backlog cb ++ take room (u8 <$> bs) /\
    inv cb'.
Proof.
  intros Hinv room. assert (Hl := Hinv).
  destruct Hl as [(_ & _ & _ & Hl & _) _].
  replace (push_all cb bs) with (push_all cb (take room bs ++ drop room bs))
    by (rewrite take_drop; reflexivity).
  rewrite push_all_app.
  destruct (push_all_spec (take room bs) cb Hinv)
    as (c1 & Hp & Hinv1 & Hl1 & Ht1 & Hb1).
  { rewrite length_take. subst room. lia. }
  rewrite Hp. rewrite length_take in *. rewrite fmap_take in Hb1.
  destruct (Nat.le_gt_cases (length bs) room) as [Hfit|Hover].
  - rewrite (drop_ge bs room) by lia. simpl.
    exists c1. replace (length bs - room)%nat with 0%nat by lia.
    simpl.
    replace (Nat.min room (length bs)) with (Nat.min (length bs) room) by lia.
    rewrite !app_nil_r. auto.
  - assert (Ho : cb_overflow c1 = true).
    { apply Hinv1. unfold capacity in *. subst room. lia. }
    rewrite push_all_rejected by assumption. rewrite length_drop.
    exists c1.
    replace (Nat.min room (length bs)) with (Nat.min (length bs) room) by lia.
    auto.
Qed.

(** X4. A run of pushes never overwrites what is held: the buffer takes
    the bytes of the run while it has room, answering TRUE, and drops every
    byte after that, answering FALSE; the bytes held before and the bytes
    taken stay in order. *)
Theorem push_all_keeps_first cb bs :
  inv cb ->
  let room := Z.to_nat (capacity cb - cb_len cb) in
  exists cb',
    push_all cb bs
      = (cb', replicate (Nat.min (length bs) room) TRUE
              ++ replicate (length bs - room) FALSE) /\
    backlog cb' = backlog cb ++ take room (u8 <$> bs) /\
    inv cb'.
Proof. exact (push_all_room cb bs). Qed.

Lemma push_all_keeps_first_witness :
  exists cb',
    push_all (fst (push_all ring16 (replicate 14 7))) [1; 2; 3; 4]
      = (cb', [TRUE; TRUE; FALSE; FALSE]) /\
    backlog cb' = replicate 14 7 ++ [1; 2] /\
    inv cb'.
Proof.
  refine (push_all_keeps_first (fst (push_all ring16 (replicate 14 7))) [1; 2; 3; 4] _).
  inv_by_computation.
Defined.

Lemma message_whole eom l : eom ∉ l -> message eom l = l.
Proof.
  induction l as [|x l IH]; intros Hn; simpl; [reflexivity|].
  apply not_elem_of_cons in Hn as [Hx Hn].
  destruct (Z.eqb_spec x eom); [congruence|]. rewrite IH by assumption.
  reflexivity.
Qed.

(** X5. With no terminator in the buffer, [cbuffer_popm] empties it: it
    returns min(n, size), the area starts with that many of the oldest
    bytes and is untouched after them (no terminator and no zero byte is
    added), and nothing stays in the buffer. *)
Theorem popm_without_terminator OVR cb data size eom :
  inv cb -> 0 <= size <= 255 -> size <= Z.of_nat (length data) ->
  eom ∉ backlog cb ->
  exists cb' data',
    cbuffer_popm OVR cb data size eom
      = Some (cb', data', Z.min (cb_len cb) size) /\
    take (Z.to_nat (Z.min (cb_len cb) size)) data'
      = take (Z.to_nat size) (backlog cb) /\
    drop (Z.to_nat (Z.min (cb_len cb) size)) data'
      = drop (Z.to_nat (Z.min (cb_len cb) size)) data /\
    backlog cb' = [] /\ cb_len cb' = 0 /\ inv cb'.
Proof.
  intros Hinv Hsz Hdata Hno. assert (Hl := Hinv).
  destruct Hl as [(_ & _ & _ & Hl & _) _].
  destruct (popm_spec OVR cb data size eom Hinv Hsz)
    as (cb' & data' & Hp & Hinv' & _ & Hl' & _ & Hb & _ & Htk).
  rewrite (message_whole eom _ Hno), length_backlog in Hp, Hl', Hb, Htk.
  rewrite Z2Nat.id in Hp, Hl', Htk by lia.
  destruct (popm_rest_of_area OVR cb data size eom _ _ _ Hsz Hp) as [Hrest _].
  exists cb', data'. split; [exact Hp|].
  split.
  { rewrite Htk by assumption.
    rewrite <- (take_ge (backlog cb) (Z.to_nat (cb_len cb))) at 2
      by (rewrite length_backlog; lia).
    rewrite take_take. f_equal. lia. }
  split; [exact Hrest|].
  split; [rewrite Hb; apply drop_ge; rewrite length_backlog; lia|].
  split; [lia | exact Hinv'].
Qed.

Lemma popm_without_terminator_witness :
  exists cb' data',
    cbuffer_popm None (fst (push_all ring16 [1; 2; 3])) [9; 9; 9; 9] 4 10
      = Some (cb', data', 3) /\
    take 3 data' = [1; 2; 3] /\
    drop 3 data' = [9] /\
    backlog cb' = [] /\ cb_len cb' = 0 /\ inv cb'.
Proof.
  refine (popm_without_terminator None (fst (push_all ring16 [1; 2; 3]))
            [9; 9; 9; 9] 4 10 _ _ _ _).
  - inv_by_computation.
  - lia.
  - vm_compute. discriminate.
  - vm_compute. intros Hin.
    repeat (apply elem_of_cons in Hin as [Hin|Hin]; [discriminate|]).
    apply elem_of_nil in Hin. exact Hin.
Defined.

(** X6. Every index the code uses stays inside the storage: in every
    reachable state the storage still has C bytes, both cursors lie in
    0 .. C-1, and [len], the number of bytes held, lies in 0 .. C. *)
Theorem reachable_bounds C OVR cb :
  reachable C OVR cb ->
  Z.of_nat (length (cb_buffer cb)) = C /\
  0 <= cb_idx cb < C /\
  0 <= cb_start cb < C /\
  0 <= cb_len cb <= C /\
  Z.of_nat (length (backlog cb)) = cb_len cb.
Proof.
  intros Hr. destruct (reachable_inv C OVR cb Hr) as [[Hwf _] HC].
  assert (Hi := wf_idx_range cb Hwf).
  destruct Hwf as (_ & Hb & Hs & Hl & _). rewrite HC in *.
  rewrite length_backlog. repeat split; lia.
Qed.

Lemma reachable_bounds_witness :
  let cb := fst (fst (cbuffer_pop None (fst (cbuffer_push ring16 1)) [0] 1)) in
  Z.of_nat (length (cb_buffer cb)) = 16 /\
  0 <= cb_idx cb < 16 /\
  0 <= cb_start cb < 16 /\
  0 <= cb_len cb <= 16 /\
  Z.of_nat (length (backlog cb)) = cb_len cb.
Proof.
  refine (reachable_bounds 16 None _ _).
  apply reach_pop; [apply reach_push, reach_init; [lia | reflexivity] | lia].
Defined.

(** * More on the line *)

Lemma rx_isr_rx EOL u b :
  us_rx (rx_isr EOL u b) = fst (cbuffer_push (us_rx u) b).
Proof.
  unfold rx_isr. destruct EOL as [eol|]; [destruct (b =? eol)|]; reflexivity.
Qed.

Lemma rx_isr_eol eol u b :
  fl_eol (rx_isr (Some eol) u b)
    = if b =? eol then (fl_eol u + 1) mod 64 else fl_eol u.
Proof. unfold rx_isr. destruct (b =? eol); reflexivity. Qed.

Lemma rx_isr_run_rx EOL bytes : forall u,
  us_rx (fold_left (rx_isr EOL) bytes u) = fst (push_all (us_rx u) bytes).
Proof.
  induction bytes as [|b bytes IH]; intros u; [reflexivity|].
  cbn [fold_left push_all]. rewrite IH, rx_isr_rx.
  destruct (cbuffer_push (us_rx u) b) as [c1 r]. cbn [fst].
  destruct (push_all c1 bytes). reflexivity.
Qed.

Lemma rx_isr_run_eol eol bytes : forall u,
  0 <= fl_eol u <= 63 ->
  fl_eol (fold_left (rx_isr (Some eol)) bytes u)
    = (fl_eol u + Z.of_nat (count_occ Z.eq_dec bytes eol)) mod 64.
Proof.
  induction bytes as [|b bytes IH]; intros u Hr.
  - simpl. rewrite Z.add_0_r, Z.mod_small by lia. reflexivity.
  - cbn [fold_left count_occ].
    rewrite IH; rewrite rx_isr_eol.
    + destruct (Z.eqb_spec b eol) as [->|Hne].
      * destruct (Z.eq_dec eol eol); [|congruence].
        rewrite Zplus_mod_idemp_l. f_equal. lia.
      * destruct (Z.eq_dec b eol); [congruence|]. reflexivity.
    + destruct (b =? eol); [|lia].
      pose proof (Z.mod_pos_bound (fl_eol u + 1) 64 ltac:(lia)). lia.
Qed.

Lemma isr0_run EOL bytes : forall m,
  usart0 (fold_left (ISR_USART0_RX_vect EOL) bytes m)
    = fold_left (rx_isr EOL) bytes (usart0 m).
Proof.
  induction bytes as [|b bytes IH]; intros m; simpl; [reflexivity|].
  rewrite IH. reflexivity.
Qed.

(** X7. The receive interrupt over a run of bytes: the buffer takes the
    bytes while it has room and drops the others, and the counter of line
    terminators goes up, modulo 64, by every terminator of the run, those
    that were dropped included. *)
Theorem isr_run_keeps_and_counts (USART0_EOL : option Z) m bytes eol :
  USART0_EOL = Some eol ->
  inv (us_rx (usart0 m)) -> 0 <= fl_eol (usart0 m) <= 63 ->
  let m' := fold_left (ISR_USART0_RX_vect USART0_EOL) bytes m in
  let room := Z.to_nat (capacity (us_rx (usart0 m)) - cb_len (us_rx (usart0 m))) in
  backlog (us_rx (usart0 m'))
    = backlog (us_rx (usart0 m)) ++ take room (u8 <$> bytes) /\
  fl_eol (usart0 m')
    = (fl_eol (usart0 m) + Z.of_nat (count_occ Z.eq_dec bytes eol)) mod 64 /\
  inv (us_rx (usart0 m')).
Proof.
  intros -> Hinv Hr m' room. subst m'.
  rewrite isr0_run, rx_isr_run_rx, rx_isr_run_eol by exact Hr.
  destruct (push_all_room (us_rx (usart0 m)) bytes Hinv) as (cb' & Hp & Hb & Hinv').
  rewrite Hp. cbn [fst]. auto.
Qed.

Lemma isr_run_keeps_and_counts_witness :
  let m := set_usart0 (mcu_init []) (set_rx (usart0 (mcu_init []))
             (fst (push_all ring16 (replicate 14 7)))) in
  let m' := fold_left (ISR_USART0_RX_vect (Some 13)) [65; 13; 66; 13] m in
  backlog (us_rx (usart0 m')) = replicate 14 7 ++ [65; 13] /\
  fl_eol (usart0 m') = 2 /\
  inv (us_rx (usart0 m')).
Proof.
  intros m.
  refine (isr_run_keeps_and_counts (Some 13) m [65; 13; 66; 13] 13 eq_refl _ _).
  - inv_by_computation.
  - vm_compute. split; discriminate.
Defined.

Lemma getmsg_line_spec OVR eol u s size :
  inv (us_rx u) -> 0 <= size <= 255 ->
  exists u' s',
    getmsg_line OVR (Some eol) u s size
      = Some (u', s', Z.min (Z.of_nat (length (message eol (backlog (us_rx u))))) size) /\
    inv (us_rx u') /\
    backlog (us_rx u') = drop (length (message eol (backlog (us_rx u)))) (backlog (us_rx u)) /\
    fl_eol u' =
      (if (Z.min (Z.of_nat (length (message eol (backlog (us_rx u))))) size =? 0)
          || (fl_eol u =? 0)
       then fl_eol u else (fl_eol u - 1) mod 64) /\
    length s' = length s /\
    (size <= Z.of_nat (length s) ->
     take (Z.to_nat (Z.min (Z.of_nat (length (message eol (backlog (us_rx u))))) size)) s'
       = take (Z.to_nat size) (message eol (backlog (us_rx u)))).
Proof.
  intros Hinv Hsz.
  destruct (popm_spec OVR (us_rx u) s size eol Hinv Hsz)
    as (cb' & s' & Hp & Hinv' & _ & _ & _ & Hb & Hlen & Htk).
  unfold getmsg_line. rewrite Hp.
  set (ok := Z.min (Z.of_nat (length (message eol (backlog (us_rx u))))) size) in *.
  assert (Hpre : forall l, take (length (message eol l)) l = message eol l).
  { induction l as [|x l IH]; simpl; [reflexivity|].
    destruct (x =? eol); simpl; [reflexivity | f_equal; exact IH]. }
  assert (Htake : size <= Z.of_nat (length s) ->
                  take (Z.to_nat ok) s' = take (Z.to_nat size) (message eol (backlog (us_rx u)))).
  { intros Hs. rewrite Htk by exact Hs.
    rewrite <- (f_equal (take (Z.to_nat size)) (Hpre (backlog (us_rx u)))), take_take.
    f_equal. subst ok. lia. }
  destruct (Z.eqb_spec ok 0) as [E|E]; destruct (Z.eqb_spec (fl_eol u) 0) as [E'|E'];
    cbn [negb andb orb fl_eol set_rx set_eol us_rx];
    rewrite ?E'; cbn [Z.eqb negb andb];
    try (destruct (Z.eqb_spec (fl_eol u) 0); [contradiction|]); cbn [negb];
    eexists _, s'; (split; [reflexivity|]); cbn [us_rx set_rx set_eol fl_eol]; auto 10.
Qed.

Lemma message_prefix eom l : take (length (message eom l)) l = message eom l.
Proof.
  induction l as [|x l IH]; simpl; [reflexivity|].
  destruct (x =? eom); simpl; [reflexivity | f_equal; exact IH].
Qed.

Lemma message_split eom l :
  l = message eom l ++ drop (length (message eom l)) l.
Proof.
  rewrite <- (f_equal (fun p => p ++ drop (length (message eom l)) l)
                      (message_prefix eom l)).
  symmetry. apply take_drop.
Qed.

(** X8. [usart_getmsg] on a line with a terminator configured takes one
    message out of the buffer (through the first terminator, or all of it),
    copies its first [size] bytes, and lowers the counter of terminators by
    one only when it copied something and the counter is not zero: the
    counter never goes below zero and never goes up. *)
Theorem getmsg_takes_one_message OVR (USART0_EOL USART1_EOL : option Z) m s size eol :
  USART0_EOL = Some eol ->
  inv (us_rx (usart0 m)) -> 0 <= fl_eol (usart0 m) <= 63 ->
  0 <= size <= 255 -> size <= Z.of_nat (length s) ->
  let msg := message eol (backlog (us_rx (usart0 m))) in
  let ok := Z.min (Z.of_nat (length msg)) size in
  exists m' s',
    usart_getmsg OVR USART0_EOL USART1_EOL 0 m s size = Some (m', s', ok) /\
    take (Z.to_nat ok) s' = take (Z.to_nat size) msg /\
    backlog (us_rx (usart0 m)) = msg ++ backlog (us_rx (usart0 m')) /\
    fl_eol (usart0 m') =
      (if (ok =? 0) || (fl_eol (usart0 m) =? 0)
       then fl_eol (usart0 m) else fl_eol (usart0 m) - 1) /\
    0 <= fl_eol (usart0 m') <= fl_eol (usart0 m).
Proof.
  intros -> Hinv Hr Hsz Hs msg ok. subst msg ok.
  destruct (getmsg_line_spec OVR eol (usart0 m) s size Hinv Hsz)
    as (u' & s' & Hg & Hinv' & Hb & He & Hlen & Htk).
  unfold usart_getmsg. simpl negb. cbv iota. rewrite Hg.
  eexists _, s'. split; [reflexivity|]. cbn [usart0 set_usart0].
  split; [apply Htk, Hs|].
  split.
  { rewrite Hb. apply message_split. }
  set (ok := Z.min (Z.of_nat (length (message eol (backlog (us_rx (usart0 m)))))) size)
    in *.
  assert (He' : fl_eol u' =
    (if (ok =? 0) || (fl_eol (usart0 m) =? 0)
     then fl_eol (usart0 m) else fl_eol (usart0 m) - 1)).
  { rewrite He.
    destruct (ok =? 0); cbn [orb]; [reflexivity|].
    destruct (Z.eqb_spec (fl_eol (usart0 m)) 0); [reflexivity|].
    apply Z.mod_small. lia. }
  split; [exact He'|]. rewrite He'.
  destruct (ok =? 0); cbn [orb]; [lia|].
  destruct (Z.eqb_spec (fl_eol (usart0 m)) 0); lia.
Qed.

Lemma getmsg_takes_one_message_witness :
  let m := fold_left (ISR_USART0_RX_vect (Some 13)) [65; 66; 13; 67] (mcu_init []) in
  exists m' s',
    usart_getmsg None (Some 13) None 0 m (replicate 8 0) 8 = Some (m', s', 3) /\
    take 3 s' = [65; 66; 13] /\
    [65; 66; 13; 67] = [65; 66; 13] ++ backlog (us_rx (usart0 m')) /\
    fl_eol (usart0 m') = 0 /\
    0 <= fl_eol (usart0 m') <= 1.
Proof.
  intros m.
  refine (getmsg_takes_one_message None (Some 13) None m (replicate 8 0) 8 13
            eq_refl _ _ _ _).
  - inv_by_computation.
  - vm_compute. split; discriminate.
  - lia.
  - vm_compute. discriminate.
Defined.

Lemma count_occ_absent (l : list Z) (x : Z) : x ∉ l -> count_occ Z.eq_dec l x = 0%nat.
Proof.
  induction l as [|y l IH]; intros Hn; simpl; [reflexivity|].
  apply not_elem_of_cons in Hn as [Hx Hn].
  destruct (Z.eq_dec y x); [congruence | auto].
Qed.

Lemma message_whole_terminated eom msg :
  eom ∉ msg -> message eom (msg ++ [eom]) = msg ++ [eom].
Proof. intros H. exact (message_terminated eom msg [] H). Qed.

(** X9. A message through the line and back: into an empty buffer with
    room for it, the interrupt stores the bytes of a message and its
    terminator; [usart_getmsg] with an area large enough then returns
    exactly the message with its terminator, leaves the buffer empty, and
    the counter of terminators is back where it was (from 63 it had wrapped
    to 0 and stays there). *)
Theorem message_round_trip OVR (USART0_EOL USART1_EOL : option Z) m msg eol s size :
  USART0_EOL = Some eol ->
  inv (us_rx (usart0 m)) -> cb_len (us_rx (usart0 m)) = 0 ->
  0 <= fl_eol (usart0 m) <= 63 ->
  Forall (fun b => 0 <= b <= 255) msg -> 0 <= eol <= 255 -> eol ∉ msg ->
  Z.of_nat (length msg) + 1 <= capacity (us_rx (usart0 m)) ->
  Z.of_nat (length msg) + 1 <= size <= 255 -> size <= Z.of_nat (length s) ->
  let m1 := fold_left (ISR_USART0_RX_vect USART0_EOL) (msg ++ [eol]) m in
  exists m2 s',
    usart_getmsg OVR USART0_EOL USART1_EOL 0 m1 s size
      = Some (m2, s', Z.of_nat (length msg) + 1) /\
    take (S (length msg)) s' = msg ++ [eol] /\
    cb_len (us_rx (usart0 m2)) = 0 /\
    fl_eol (usart0 m2)
      = (if fl_eol (usart0 m) =? 63 then 0 else fl_eol (usart0 m)).
Proof.
  intros -> Hinv Hempty Hr Hbytes Heol Hno Hroom Hsz Hs m1. subst m1.
  assert (Hinv1 : inv (us_rx (usart0
            (fold_left (ISR_USART0_RX_vect (Some eol)) (msg ++ [eol]) m))) /\
          backlog (us_rx (usart0
            (fold_left (ISR_USART0_RX_vect (Some eol)) (msg ++ [eol]) m)))
            = msg ++ [eol]).
  { rewrite isr0_run, rx_isr_run_rx.
    destruct (push_all_spec (msg ++ [eol]) (us_rx (usart0 m)) Hinv)
      as (cb' & Hp & Hinv' & _ & _ & Hb).
    { rewrite length_app. simpl. lia. }
    rewrite Hp. cbn [fst]. split; [exact Hinv'|].
    rewrite Hb, (backlog_empty _ Hempty), u8_bytes; [reflexivity|].
    apply Forall_app. split; [exact Hbytes|]. repeat constructor; lia. }
  destruct Hinv1 as [Hinv1 Hb1].
  assert (He1 : fl_eol (usart0
            (fold_left (ISR_USART0_RX_vect (Some eol)) (msg ++ [eol]) m))
          = (fl_eol (usart0 m) + 1) mod 64).
  { rewrite isr0_run, rx_isr_run_eol by exact Hr.
    rewrite count_occ_app, (count_occ_absent msg eol Hno). simpl.
    destruct (Z.eq_dec eol eol); [reflexivity | congruence]. }
  destruct (getmsg_line_spec OVR eol _ s size Hinv1 ltac:(lia))
    as (u' & s' & Hg & Hinv' & Hb & He & Hlen & Htk).
  rewrite Hb1, (message_whole_terminated eol msg) in Hg, Hb, He, Htk by exact Hno.
  rewrite length_app in Hg, Hb, He, Htk. simpl length in Hg, Hb, He, Htk.
  replace (Z.of_nat (length msg + 1) `min` size)
    with (Z.of_nat (length msg) + 1) in Hg, He, Htk by lia.
  unfold usart_getmsg. simpl negb. cbv iota. rewrite Hg.
  eexists _, s'. split; [reflexivity|]. cbn [usart0 set_usart0].
  split.
  { replace (S (length msg)) with (Z.to_nat (Z.of_nat (length msg) + 1)) by lia.
    rewrite Htk by exact Hs. apply take_ge. rewrite length_app. simpl. lia. }
  split.
  { destruct Hinv' as [(_ & _ & _ & Hl' & _) _].
    assert (Hz : length (backlog (us_rx u')) = 0%nat).
    { rewrite Hb. rewrite length_drop, length_app. simpl. lia. }
    rewrite length_backlog in Hz. lia. }
  rewrite He, He1.
  replace (Z.of_nat (length msg) + 1 =? 0) with false
    by (symmetry; apply Z.eqb_neq; lia).
  cbn [orb].
  destruct (Z.eqb_spec (fl_eol (usart0 m)) 63) as [E|E].
  - rewrite E. reflexivity.
  - rewrite (Z.mod_small (fl_eol (usart0 m) + 1)) by lia.
    destruct (Z.eqb_spec (fl_eol (usart0 m) + 1) 0); [lia|].
    rewrite Z.mod_small by lia. lia.
Qed.

Lemma message_round_trip_witness :
  let m1 := fold_left (ISR_USART0_RX_vect (Some 13)) ([72; 105] ++ [13]) (mcu_init []) in
  exists m2 s',
    usart_getmsg None (Some 13) None 0 m1 (replicate 8 0) 8 = Some (m2, s', 3) /\
    take 3 s' = [72; 105; 13] /\
    cb_len (us_rx (usart0 m2)) = 0 /\
    fl_eol (usart0 m2) = 0.
Proof.
  refine (message_round_trip None (Some 13) None (mcu_init []) [72; 105] 13
            (replicate 8 0) 8 eq_refl _ eq_refl _ _ _ _ _ _ _).
  - inv_by_computation.
  - vm_compute. split; discriminate.
  - repeat constructor; lia.
  - lia.
  - intros Hin.
    repeat (apply elem_of_cons in Hin as [Hin|Hin]; [discriminate|]).
    apply elem_of_nil in Hin. exact Hin.
  - vm_compute. discriminate.
  - vm_compute. split; discriminate.
  - vm_compute. discriminate.
Defined.

Lemma printstr_loop_spec port rest : forall body m,
  0 ∉ body ->
  exists m',
    printstr_loop port m (body ++ 0 :: rest) = Some m' /\
    sent port m' = sent port m ++ (u8 <$> body) /\
    (forall p, (p =? 0) <> (port =? 0) -> sent p m' = sent p m) /\
    usart0 m' = usart0 m /\ usart1 m' = usart1 m /\ rfid m' = rfid m /\
    UCSR0B m' = UCSR0B m /\ UCSR1B m' = UCSR1B m /\ line1 m' = line1 m.
Proof.
  induction body as [|c body IH]; intros m Hno.
  - exists m. simpl. rewrite app_nil_r. auto 10.
  - apply not_elem_of_cons in Hno as [Hc Hno].
    cbn [app printstr_loop].
    destruct (Z.eqb_spec c 0) as [E|E]; [congruence|]. cbn [negb].
    destruct (IH (usart_putchar port m (u8 c)) Hno)
      as (m' & Hp & Hs & Ho & H0 & H1 & Hr & Hb0 & Hb1 & Hl).
    exists m'. split; [exact Hp|].
    unfold usart_putchar, sent in *.
    destruct (port =? 0) eqn:Hport; cbn [negb] in *.
    + cbn [UDR0_tx set_UDR0_tx] in Hs.
      split; [rewrite Hs, <- app_assoc; reflexivity|].
      split.
      { intros p Hp0. specialize (Ho p Hp0).
        destruct (p =? 0); [congruence|]. exact Ho. }
      auto 10.
    + cbn [UDR1_tx set_UDR1_tx] in Hs.
      split; [rewrite Hs, <- app_assoc; reflexivity|].
      split.
      { intros p Hp0. specialize (Ho p Hp0).
        destruct (p =? 0); [|congruence]. exact Ho. }
      auto 10.
Qed.

(** X10. [usart_printstr] sends the characters of the string up to its
    first NUL, in order, on the port it was given and on no other, and
    changes nothing else: both lines, [rfid], the two control registers
    and what is still to arrive are as they were; for the NULL pointer the
    string is the line's own [tx] buffer. *)
Theorem printstr_sends_until_nul port m s body rest :
  0 ∉ body ->
  match s with Some l => l | None => us_tx (line port m) end = body ++ 0 :: rest ->
  exists m',
    usart_printstr port m s = Some m' /\
    sent port m' = sent port m ++ (u8 <$> body) /\
    (forall p, (p =? 0) <> (port =? 0) -> sent p m' = sent p m) /\
    usart0 m' = usart0 m /\ usart1 m' = usart1 m /\ rfid m' = rfid m /\
    UCSR0B m' = UCSR0B m /\ UCSR1B m' = UCSR1B m /\ line1 m' = line1 m.
Proof.
  intros Hno Htext.
  destruct (printstr_loop_spec port rest body m Hno) as (m' & Hp & Hrest).
  exists m'. split; [|exact Hrest].
  unfold usart_printstr, line in *.
  destruct (port =? 0); cbn [negb] in *; rewrite Htext; exact Hp.
Qed.

Lemma printstr_sends_until_nul_witness :
  exists m',
    usart_printstr 1 (mcu_init [[7]]) (Some [79; 75; 0; 33]) = Some m' /\
    sent 1 m' = sent 1 (mcu_init [[7]]) ++ (u8 <$> [79; 75]) /\
    (forall p, (p =? 0) <> (1 =? 0) -> sent p m' = sent p (mcu_init [[7]])) /\
    usart0 m' = usart0 (mcu_init [[7]]) /\ usart1 m' = usart1 (mcu_init [[7]]) /\
    rfid m' = rfid (mcu_init [[7]]) /\
    UCSR0B m' = UCSR0B (mcu_init [[7]]) /\ UCSR1B m' = UCSR1B (mcu_init [[7]]) /\
    line1 m' = line1 (mcu_init [[7]]).
Proof.
  refine (printstr_sends_until_nul 1 (mcu_init [[7]]) (Some [79; 75; 0; 33])
            [79; 75] [33] _ eq_refl).
  intros Hin.
  repeat (apply elem_of_cons in Hin as [Hin|Hin]; [discriminate|]).
  apply elem_of_nil in Hin. exact Hin.
Defined.

Lemma line_suspend port m : line port (usart_suspend port m) = line port m.
Proof. unfold line, usart_suspend. destruct (port =? 0); reflexivity. Qed.

(** X11. Suspending a line turns its receive interrupt off and keeps what
    it has buffered; resuming it turns the interrupt on again and discards
    everything: the buffer is empty whatever its cursors were, the counter
    of terminators is 0, a read returns no byte and leaves the area alone,
    and printing the line's own [tx] buffer sends nothing. *)
Theorem suspend_keeps_resume_clears OVR port m s size :
  1 <= capacity (us_rx (line port m)) <= 255 ->
  Z.of_nat (length (cb_buffer (us_rx (line port m)))) = capacity (us_rx (line port m)) ->
  us_tx (line port m) <> [] ->
  let m1 := usart_suspend port m in
  let m2 := usart_resume port m1 in
  (line port m1 = line port m /\ rx_interrupt port m1 = false) /\
  (rx_interrupt port m2 = true /\
   inv (us_rx (line port m2)) /\
   backlog (us_rx (line port m2)) = [] /\
   fl_eol (line port m2) = 0) /\
  (snd (usart_get OVR port m2 s size) = 0 /\
   snd (fst (usart_get OVR port m2 s size)) = s) /\
  (exists m3, usart_printstr port m2 None = Some m3 /\ sent port m3 = sent port m2).
Proof.
  intros HC Hb Htx m1 m2. subst m1 m2.
  split.
  { split; [apply line_suspend|].
    unfold rx_interrupt, usart_suspend. destruct (port =? 0); reflexivity. }
  unfold line in *.
  destruct (us_tx (if negb (port =? 0) then usart1 m else usart0 m))
    as [|t0 tx] eqn:Htxe; [congruence|].
  unfold rx_interrupt, usart_resume, usart_suspend, usart_get, usart_printstr, sent.
  destruct (port =? 0); cbn [negb] in *;
    cbn [usart0 usart1 set_usart0 set_usart1 set_UCSR0B set_UCSR1B UCSR0B UCSR1B
         us_rx us_tx set_rx set_tx clear_flags fl_eol UDR0_tx UDR1_tx];
    rewrite Htxe;
    (split; [split; [reflexivity|];
             split; [apply clear_inv; assumption|]; split; reflexivity|]);
    (split; [split; reflexivity|]);
    eexists; (split; [reflexivity|]); reflexivity.
Qed.

Lemma suspend_keeps_resume_clears_witness :
  let m := fold_left (ISR_USART1_RX_vect None) [1; 2; 3]
             (usart_resume 1 (mcu_init [])) in
  let m1 := usart_suspend 1 m in
  let m2 := usart_resume 1 m1 in
  (line 1 m1 = line 1 m /\ rx_interrupt 1 m1 = false) /\
  (rx_interrupt 1 m2 = true /\
   inv (us_rx (line 1 m2)) /\
   backlog (us_rx (line 1 m2)) = [] /\
   fl_eol (line 1 m2) = 0) /\
  (snd (usart_get None 1 m2 [9; 9] 2) = 0 /\
   snd (fst (usart_get None 1 m2 [9; 9] 2)) = [9; 9]) /\
  (exists m3, usart_printstr 1 m2 None = Some m3 /\ sent 1 m3 = sent 1 m2).
Proof.
  intros m.
  refine (suspend_keeps_resume_clears None 1 m [9; 9] 2 _ _ _).
  - vm_compute. split; discriminate.
  - reflexivity.
  - vm_compute. discriminate.
Defined.

(** * More on the reader protocol *)

(** ** Words and bytes *)

Lemma u16_lor a b : u16 (Z.lor a b) = Z.lor (u16 a) (u16 b).
Proof.
  unfold u16. change 65536 with (2 ^ 16). apply Z.bits_inj'. intros n Hn.
  rewrite Z.lor_spec, !Z.testbit_mod_pow2, Z.lor_spec by lia.
  destruct (n <? 16); reflexivity.
Qed.

Lemma u16_lxor a b : u16 (Z.lxor a b) = Z.lxor (u16 a) (u16 b).
Proof.
  unfold u16. change 65536 with (2 ^ 16). apply Z.bits_inj'. intros n Hn.
  rewrite Z.lxor_spec, !Z.testbit_mod_pow2, Z.lxor_spec by lia.
  destruct (n <? 16); reflexivity.
Qed.

Lemma u16_range x : 0 <= x < 65536 <-> u16 x = x.
Proof.
  unfold u16. split.
  - intros. apply Z.mod_small. lia.
  - intros <-. apply Z.mod_pos_bound. lia.
Qed.

Lemma u16_u16 x : u16 (u16 x) = u16 x.
Proof. unfold u16. apply Z.mod_mod. lia. Qed.

(** The two bytes of a 16-bit word, written into a 16-bit field high byte
    first, give the word back, whatever the field held. *)
Lemma word_of_bytes (old w : Z) :
  0 <= w < 65536 ->
  with_byte_at (with_byte_at old 1 (u8 (Z.shiftr w 8))) 0 (u8 (Z.land w 0xff)) = w.
Proof.
  intros Hw. apply u16_range in Hw. rewrite <- Hw at 3.
  unfold with_byte_at, u8, u16. simpl (_ =? _). cbv iota.
  change 0xff with (Z.ones 8). change 0xff00 with (Z.shiftl (Z.ones 8) 8).
  change 256 with (2 ^ 8). change 65536 with (2 ^ 16).
  apply Z.bits_inj'. intros n Hn.
  rewrite !Z.lor_spec, !Z.land_spec, !Z.lor_spec, !Z.land_spec.
  rewrite !Z.testbit_mod_pow2 by lia.
  rewrite !Z.shiftl_spec by lia.
  rewrite Z.land_spec, !Z.testbit_ones by lia.
  destruct (Z.ltb_spec n 8).
  - rewrite (Z.testbit_neg_r _ (n - 8)) by lia.
    replace (0 <=? n - 8) with false by (symmetry; apply Z.leb_gt; lia).
    replace (0 <=? n) with true by (symmetry; apply Z.leb_le; lia).
    replace (n <? 16) with true by (symmetry; apply Z.ltb_lt; lia).
    simpl. rewrite !andb_false_r, !andb_true_r. reflexivity.
  - rewrite Z.testbit_mod_pow2, Z.shiftr_spec by lia.
    replace (n - 8 + 8) with n by lia.
    replace (0 <=? n - 8) with true by (symmetry; apply Z.leb_le; lia).
    replace (0 <=? n) with true by (symmetry; apply Z.leb_le; lia).
    simpl. rewrite !andb_false_r, !orb_false_r. simpl.
    destruct (Z.ltb_spec n 16).
    + replace (n - 8 <? 8) with true by (symmetry; apply Z.ltb_lt; lia).
      simpl. rewrite andb_true_r. reflexivity.
    + replace (n - 8 <? 8) with false by (symmetry; apply Z.ltb_ge; lia).
      reflexivity.
Qed.

Lemma u8_range x : 0 <= u8 x <= 255.
Proof. unfold u8. pose proof (Z.mod_pos_bound x 256 ltac:(lia)). lia. Qed.

Lemma word_bytes_range w : Forall (fun b => 0 <= b <= 255) (word_bytes w).
Proof. unfold word_bytes. repeat constructor; apply u8_range. Qed.

(** ** The checksum fits 16 bits *)

Lemma crc16_shift_range crc bit : u16 crc = crc -> u16 (crc16_shift crc bit) = crc16_shift crc bit.
Proof.
  intros _. unfold crc16_shift.
  assert (Hs : u16 (Z.lor (u16 (Z.shiftl crc 1)) (Z.b2z bit))
               = Z.lor (u16 (Z.shiftl crc 1)) (Z.b2z bit)).
  { rewrite u16_lor, u16_u16. destruct bit; reflexivity. }
  destruct (Z.testbit crc 15); [|exact Hs].
  rewrite u16_lxor, Hs. reflexivity.
Qed.

Lemma crc16_byte_range crc byte : u16 crc = crc -> u16 (crc16_byte crc byte) = crc16_byte crc byte.
Proof.
  intros H. unfold crc16_byte. cbv beta iota delta [fold_left].
  repeat apply crc16_shift_range. exact H.
Qed.

Lemma crc16_fold_range bytes : forall crc,
  u16 crc = crc -> u16 (fold_left crc16_byte bytes crc) = fold_left crc16_byte bytes crc.
Proof.
  induction bytes as [|b bytes IH]; intros crc H; simpl; [exact H|].
  apply IH, crc16_byte_range, H.
Qed.

Lemma crc16_range bytes : 0 <= crc16 bytes < 65536.
Proof. apply u16_range. unfold crc16. apply crc16_fold_range. reflexivity. Qed.

Lemma m5_crc_crc16 r inc :
  rfid_len r <= Z.of_nat (length (rfid_data r)) ->
  m5_crc r inc = crc16 (crc_input r inc).
Proof.
  intros Hlen. unfold m5_crc, crc16, crc_input.
  rewrite payload_fold by lia. rewrite !fold_left_app. simpl.
  rewrite !CRC_calcCrc8_spec.
  destruct (inc =? 0); simpl; rewrite ?CRC_calcCrc8_spec; reflexivity.
Qed.

(** ** What [tx_pkt] puts on the wire *)

Lemma only_sent_refl m : only_sent m m [].
Proof. unfold only_sent. rewrite app_nil_r. auto 10. Qed.

Lemma only_sent_trans m1 m2 m3 b1 b2 :
  only_sent m1 m2 b1 -> only_sent m2 m3 b2 -> only_sent m1 m3 (b1 ++ b2).
Proof.
  intros (A1 & A2 & A3 & A4 & A5 & A6 & A7 & A8)
         (B1 & B2 & B3 & B4 & B5 & B6 & B7 & B8).
  unfold only_sent. rewrite B1, A1, app_assoc.
  repeat split; congruence.
Qed.

Lemma putchar_only_sent m c : only_sent m (usart_putchar RFID_USART m c) [c].
Proof. unfold only_sent. cbn. auto 10. Qed.

Lemma putchar_run (data : list Z) (n : nat) : forall m,
  (n <= length data)%nat ->
  only_sent m
    (fold_left (fun m i => usart_putchar RFID_USART m (peek data (Z.of_nat i)))
               (seq 0 n) m)
    (take n data).
Proof.
  induction n as [|n IH]; intros m Hn.
  - apply only_sent_refl.
  - rewrite seq_S, fold_left_app. cbn [fold_left Nat.add].
    destruct (lookup_lt_is_Some_2 data n ltac:(lia)) as [x Hx].
    rewrite (take_S_r _ _ x Hx).
    eapply only_sent_trans; [apply IH; lia|].
    unfold peek. rewrite Nat2Z.id, (list_lookup_total_correct _ _ _ Hx).
    apply putchar_only_sent.
Qed.

Lemma tx_pkt_spec m :
  rfid_len (rfid m) <= Z.of_nat (length (rfid_data (rfid m))) ->
  only_sent m (tx_pkt m)
    ([rfid_soh (rfid m); rfid_len (rfid m); rfid_opcode (rfid m)]
     ++ take (Z.to_nat (rfid_len (rfid m))) (rfid_data (rfid m))
     ++ word_bytes (rfid_crc (rfid m))).
Proof.
  intros Hlen. unfold tx_pkt, word_bytes. cbv zeta.
  change [rfid_soh (rfid m); rfid_len (rfid m); rfid_opcode (rfid m)]
    with ([rfid_soh (rfid m)] ++ [rfid_len (rfid m)] ++ [rfid_opcode (rfid m)]).
  change [u8 (Z.shiftr (rfid_crc (rfid m)) 8); u8 (Z.land (rfid_crc (rfid m)) 255)]
    with ([u8 (Z.shiftr (rfid_crc (rfid m)) 8)] ++ [u8 (Z.land (rfid_crc (rfid m)) 255)]).
  rewrite <- !app_assoc.
  eapply only_sent_trans; [apply putchar_only_sent|].
  eapply only_sent_trans; [apply putchar_only_sent|].
  eapply only_sent_trans; [apply putchar_only_sent|].
  eapply only_sent_trans; [apply putchar_run; lia|].
  eapply only_sent_trans; [apply putchar_only_sent|].
  apply putchar_only_sent.
Qed.

(** ** Polling the line and waiting on it *)

Lemma only_received_refl m : only_received m m.
Proof. unfold only_received. auto 10. Qed.

Lemma only_received_trans m1 m2 m3 :
  only_received m1 m2 -> only_received m2 m3 -> only_received m1 m3.
Proof.
  intros (A1 & A2 & A3 & A4 & A5 & A6 & A7) (B1 & B2 & B3 & B4 & B5 & B6 & B7).
  unfold only_received. repeat split; congruence.
Qed.

Lemma only_received_set_rfid m m' r :
  only_received m m' -> only_received m (set_rfid m' r).
Proof. intros H. exact H. Qed.

Lemma get_byte_head OVR m old x rest :
  inv (us_rx (usart1 m)) -> backlog (us_rx (usart1 m)) = x :: rest ->
  exists m',
    get_byte OVR m old = (m', x, 1) /\
    rfid m' = rfid m /\
    inv (us_rx (usart1 m')) /\
    backlog (us_rx (usart1 m')) = rest /\
    only_received m m' /\ line1 m' = line1 m.
Proof.
  intros Hinv Hb.
  destruct (pop_spec OVR (us_rx (usart1 m)) [old] 1 Hinv ltac:(lia) ltac:(lia))
    as (cb' & data' & Hp & Hinv' & _ & _ & _ & Hb' & Hlen & Htk).
  assert (Hl : cb_len (us_rx (usart1 m)) = Z.of_nat (length (x :: rest))).
  { rewrite <- Hb, length_backlog. destruct Hinv as [(_ & _ & _ & Hl & _) _]. lia. }
  simpl length in Hl.
  replace (cb_len (us_rx (usart1 m)) `min` 1) with 1 in * by lia.
  rewrite Hb in Hb', Htk. simpl in Hb', Htk, Hlen.
  assert (Hd : data' = [x]).
  { specialize (Htk ltac:(lia)).
    destruct data' as [|d0 [|d1 data']]; simpl in *; try lia. congruence. }
  subst data'.
  unfold get_byte, usart_get. simpl negb. cbv iota. rewrite Hp.
  eexists. split; [reflexivity|]. cbn.
  split; [reflexivity|]. split; [exact Hinv'|]. split; [exact Hb'|].
  split; [unfold only_received; cbn; auto 10 | reflexivity].
Qed.

Lemma isr1_run EOL bytes : forall m,
  usart1 (fold_left (ISR_USART1_RX_vect EOL) bytes m)
    = fold_left (rx_isr EOL) bytes (usart1 m) /\
  rfid (fold_left (ISR_USART1_RX_vect EOL) bytes m) = rfid m /\
  line1 (fold_left (ISR_USART1_RX_vect EOL) bytes m) = line1 m /\
  UDR1_tx (fold_left (ISR_USART1_RX_vect EOL) bytes m) = UDR1_tx m /\
  UDR0_tx (fold_left (ISR_USART1_RX_vect EOL) bytes m) = UDR0_tx m /\
  usart0 (fold_left (ISR_USART1_RX_vect EOL) bytes m) = usart0 m /\
  UCSR0B (fold_left (ISR_USART1_RX_vect EOL) bytes m) = UCSR0B m /\
  UCSR1B (fold_left (ISR_USART1_RX_vect EOL) bytes m) = UCSR1B m.
Proof.
  induction bytes as [|b bytes IH]; intros m; [cbn; auto 10|].
  cbn [fold_left].
  destruct (IH (ISR_USART1_RX_vect EOL m b)) as (H1 & H2 & H3 & H4 & H5 & H6 & H7 & H8).
  rewrite H1, H2, H3, H4, H5, H6, H7, H8. cbn. auto 10.
Qed.

Lemma rx_isr_run_tx EOL bytes : forall u,
  us_tx (fold_left (rx_isr EOL) bytes u) = us_tx u /\
  us_tx_size (fold_left (rx_isr EOL) bytes u) = us_tx_size u.
Proof.
  induction bytes as [|b bytes IH]; intros u; [split; reflexivity|].
  cbn [fold_left]. destruct (IH (rx_isr EOL u b)) as [-> ->].
  unfold rx_isr. destruct EOL as [eol|]; [destruct (b =? eol)|]; split; reflexivity.
Qed.

Lemma delay_spec EOL m :
  rfid (delay_ms EOL m) = rfid m /\
  only_received m (delay_ms EOL m) /\
  (inv (us_rx (usart1 m)) ->
   inv (us_rx (usart1 (delay_ms EOL m))) /\
   exists extra,
     backlog (us_rx (usart1 (delay_ms EOL m)))
       = backlog (us_rx (usart1 m)) ++ extra).
Proof.
  unfold delay_ms. destruct (line1 m) as [|bytes rest].
  { split; [reflexivity|]. split; [apply only_received_refl|].
    intros Hinv. split; [exact Hinv|]. exists []. rewrite app_nil_r. reflexivity. }
  destruct (Z.testbit (UCSR1B (set_line1 m rest)) 7).
  - destruct (isr1_run EOL bytes (set_line1 m rest))
      as (H1 & H2 & H3 & H4 & H5 & H6 & H7 & H8).
    destruct (rx_isr_run_tx EOL bytes (usart1 (set_line1 m rest))) as [Ht Hts].
    split; [rewrite H2; reflexivity|].
    split.
    { unfold only_received. rewrite H1, H4, H5, H6, H7, H8, Ht, Hts. cbn. auto 10. }
    intros Hinv. rewrite H1, rx_isr_run_rx. cbn [usart1 set_line1].
    destruct (push_all_room (us_rx (usart1 m)) bytes Hinv) as (cb' & Hp & Hb & Hinv').
    rewrite Hp. cbn [fst]. split; [exact Hinv'|]. eexists. exact Hb.
  - split; [reflexivity|]. split; [unfold only_received; cbn; auto 10|].
    intros Hinv. split; [exact Hinv|]. exists []. rewrite app_nil_r. reflexivity.
Qed.

(** ** A line that brings nothing *)

Lemma deaf_or_quiet_S n m :
  deaf_or_quiet (S n) m -> deaf_or_quiet n (set_line1 m (tail (line1 m))).
Proof.
  intros [H|H]; [left; exact H | right].
  unfold quiet in *. cbn [line1 set_line1].
  destruct (line1 m) as [|bytes rest]; [destruct n; constructor|].
  cbn [take tail] in *. inversion H; assumption.
Qed.

Lemma delay_nothing EOL n m :
  deaf_or_quiet (S n) m -> delay_ms EOL m = set_line1 m (tail (line1 m)).
Proof.
  intros H. unfold delay_ms.
  destruct m as [u0 u1 r b0 b1 t0 t1 l]. cbn [line1 tail UCSR1B set_line1].
  destruct l as [|bytes rest]; [reflexivity|].
  destruct H as [H|H].
  - cbn [UCSR1B] in H. rewrite H. reflexivity.
  - unfold quiet in H. cbn [line1 take] in H. inversion H; subst.
    destruct (Z.testbit b1 7); reflexivity.
Qed.

Lemma silent_turn OVR m i :
  rx_len m = 0 -> rfid_error (rfid m) = SOH -> rx_switch OVR m i = (m, i, false).
Proof.
  intros H0 He. unfold rx_switch. rewrite He. simpl (SOH =? SOH). cbv iota.
  rewrite get_byte_empty by exact H0.
  destruct m as [u0 u1 r b0 b1 t0 t1 l]. destruct r. reflexivity.
Qed.

Lemma silent_loop OVR EOL : forall n m i,
  deaf_or_quiet n m -> rx_len m = 0 -> rfid_error (rfid m) = SOH ->
  rx_loop OVR EOL n m i = set_line1 m (drop n (line1 m)).
Proof.
  induction n as [|n IH]; intros m i Hq H0 He.
  - destruct m. reflexivity.
  - cbn [rx_loop]. rewrite (delay_nothing EOL n m Hq).
    rewrite silent_turn by assumption.
    rewrite IH by (try apply deaf_or_quiet_S; assumption).
    cbn [line1 set_line1]. destruct (line1 m); [destruct n|]; reflexivity.
Qed.

(** ** Receiving never sends *)

Lemma get_byte_only_received OVR m old :
  only_received m (fst (fst (get_byte OVR m old))).
Proof.
  unfold get_byte, usart_get. simpl negb. cbv iota.
  destruct (cbuffer_pop OVR (us_rx (usart1 m)) [old] 1) as [[c s'] ok].
  unfold only_received. cbn. auto 10.
Qed.

Ltac poll_received OVR m :=
  match goal with
  | |- context [get_byte OVR m ?old] =>
      let R := fresh "R" in
      pose proof (get_byte_only_received OVR m old) as R;
      destruct (get_byte OVR m old) as [[? ?] ?]; cbn [fst] in R
  end.

Lemma rx_case_STATUS_only_received OVR m i :
  only_received m (fst (fst (rx_case_STATUS OVR m i))).
Proof.
  unfold rx_case_STATUS. destruct (i <? 2); [|exact (only_received_refl m)].
  poll_received OVR m. exact R.
Qed.

Lemma rx_switch_only_received OVR m i :
  only_received m (fst (fst (rx_switch OVR m i))).
Proof.
  unfold rx_switch. cbv zeta.
  destruct (rfid_error (rfid m) =? SOH).
  { poll_received OVR m.
    match goal with |- context [if ?c then _ else _] => destruct c end; exact R. }
  destruct (rfid_error (rfid m) =? LEN).
  { poll_received OVR m.
    match goal with |- context [if ?c then _ else _] => destruct c end; exact R. }
  destruct (rfid_error (rfid m) =? CMD).
  { poll_received OVR m.
    match goal with |- context [if ?c then _ else _] => destruct c end;
      (eapply only_received_trans; [|apply rx_case_STATUS_only_received]); exact R. }
  destruct (rfid_error (rfid m) =? STATUS); [apply rx_case_STATUS_only_received|].
  destruct (rfid_error (rfid m) =? DATA).
  { destruct (i <? rfid_len (rfid m)); [|exact (only_received_refl m)].
    poll_received OVR m. exact R. }
  destruct (rfid_error (rfid m) =? CRC); [|exact (only_received_refl m)].
  destruct (i <? 2).
  { poll_received OVR m. exact R. }
  destruct (m5_crc (rfid m) TRUE =? rfid_crc (rfid m)); exact (only_received_refl m).
Qed.

Lemma rx_loop_only_received OVR EOL : forall n m i,
  only_received m (rx_loop OVR EOL n m i).
Proof.
  induction n as [|n IH]; intros m i; [apply only_received_refl|].
  cbn [rx_loop].
  pose proof (rx_switch_only_received OVR (delay_ms EOL m) i) as R.
  destruct (rx_switch OVR (delay_ms EOL m) i) as [[m2 i2] last]. cbn [fst] in R.
  assert (R' : only_received m m2).
  { eapply only_received_trans; [apply delay_spec | exact R]. }
  destruct last; [exact R'|].
  eapply only_received_trans; [exact R' | apply IH].
Qed.

Lemma rx_pkt_only_received OVR EOL m timeout :
  only_received m (fst (rx_pkt OVR EOL m timeout)).
Proof.
  unfold rx_pkt. cbn [fst].
  exact (rx_loop_only_received OVR EOL _ (set_rfid m (set_error (rfid m) SOH)) 0).
Qed.

(** What the wait does to the reader's line depends on the line, on what
    is about to arrive and on the interrupt bit only. *)
Lemma delay_usart1 EOL m m0 :
  usart1 m = usart1 m0 -> line1 m = line1 m0 -> UCSR1B m = UCSR1B m0 ->
  usart1 (delay_ms EOL m) = usart1 (delay_ms EOL m0).
Proof.
  intros Hu Hl Hb. unfold delay_ms. rewrite Hl.
  destruct (line1 m0) as [|bytes rest]; [exact Hu|].
  cbn [UCSR1B set_line1]. rewrite Hb.
  destruct (Z.testbit (UCSR1B m0) 7); [|exact Hu].
  destruct (isr1_run EOL bytes (set_line1 m rest)) as (-> & _).
  destruct (isr1_run EOL bytes (set_line1 m0 rest)) as (-> & _).
  cbn [usart1 set_line1]. rewrite Hu. reflexivity.
Qed.

(** ** Since the first wait *)

Lemma tail_drop {A} (l : list A) : forall k, tail (drop k l) = drop (S k) l.
Proof.
  induction l as [|a l IH]; intros [|k]; try reflexivity.
  cbn [drop]. rewrite IH. reflexivity.
Qed.

Lemma delay_line1 EOL m : line1 (delay_ms EOL m) = tail (line1 m).
Proof.
  unfold delay_ms. destruct (line1 m) as [|bytes rest] eqn:Hl; [rewrite Hl; reflexivity|].
  cbn [tail UCSR1B set_line1].
  destruct (Z.testbit (UCSR1B m) 7); [|reflexivity].
  destruct (isr1_run EOL bytes (set_line1 m rest)) as (_ & _ & -> & _). reflexivity.
Qed.

Lemma push_TOP cb b : cb_TOP (fst (cbuffer_push cb b)) = cb_TOP cb.
Proof. unfold cbuffer_push. destruct (cb_overflow cb); reflexivity. Qed.

Lemma push_all_TOP bs : forall cb, cb_TOP (fst (push_all cb bs)) = cb_TOP cb.
Proof.
  induction bs as [|b bs IH]; intros cb; [reflexivity|].
  cbn [push_all]. pose proof (push_TOP cb b) as Hp.
  destruct (cbuffer_push cb b) as [c1 r]. cbn [fst] in Hp.
  specialize (IH c1). destruct (push_all c1 bs) as [c2 rs]. cbn [fst] in *.
  congruence.
Qed.

Lemma delay_capacity EOL m :
  capacity (us_rx (usart1 (delay_ms EOL m))) = capacity (us_rx (usart1 m)).
Proof.
  unfold delay_ms. destruct (line1 m) as [|bytes rest]; [reflexivity|].
  cbn [UCSR1B set_line1].
  destruct (Z.testbit (UCSR1B m) 7); [|reflexivity].
  destruct (isr1_run EOL bytes (set_line1 m rest)) as (-> & _).
  rewrite rx_isr_run_rx. unfold capacity. rewrite push_all_TOP. reflexivity.
Qed.

Lemma get_byte_capacity OVR m old :
  inv (us_rx (usart1 m)) ->
  capacity (us_rx (usart1 (fst (fst (get_byte OVR m old)))))
    = capacity (us_rx (usart1 m)).
Proof.
  intros Hinv.
  pose proof (pop_keeps_TOP OVR (us_rx (usart1 m)) [old] 1 Hinv ltac:(lia)) as Ht.
  unfold get_byte, usart_get. simpl negb. cbv iota.
  destruct (cbuffer_pop OVR (us_rx (usart1 m)) [old] 1) as [[c s'] ok].
  cbn [fst] in *. unfold capacity. cbn. rewrite Ht. reflexivity.
Qed.

Lemma quiet_split k m0 :
  quiet (S k) m0 ->
  quiet k m0 /\ Forall (fun bytes => bytes = []) (take 1 (drop k (line1 m0))).
Proof.
  unfold quiet. intros H.
  rewrite <- (Nat.add_1_r k), <- take_take_drop in H.
  apply Forall_app in H. exact H.
Qed.

Lemma since_start m r pending :
  holds m r pending -> exists later, holds_since m 0 m r pending later.
Proof.
  intros (Hr & Hinv & later & Hb). exists later.
  split; [exact Hr|]. split; [exact Hinv|].
  split; [exists later; split; [exact Hb | reflexivity]|].
  split; reflexivity.
Qed.

Lemma since_holds m0 k m r pending later :
  holds_since m0 k m r pending later -> holds m r pending.
Proof.
  intros (Hr & Hinv & (l & Hb & _) & _). split; [exact Hr|].
  split; [exact Hinv|]. exists l. exact Hb.
Qed.

Lemma since_index m0 k k' m r pending later :
  holds_since m0 k m r pending later -> k = k' ->
  holds_since m0 k' m r pending later.
Proof. intros H <-. exact H. Qed.

(** One more wait. *)
Lemma delay_since EOL m0 k m r pending later :
  holds_since m0 k m r pending later ->
  holds_since m0 (S k) (delay_ms EOL m) r pending later.
Proof.
  intros (Hr & Hinv & (l & Hb & Hq) & Hline & Hcap).
  destruct (delay_spec EOL m) as (Hr' & _ & Hrx).
  destruct (Hrx Hinv) as (Hinv' & extra & Hb').
  split; [congruence|]. split; [exact Hinv'|].
  split; [|split; [rewrite delay_line1, Hline; apply tail_drop
                  | rewrite delay_capacity; exact Hcap]].
  exists (l ++ extra). split; [rewrite Hb', Hb, app_assoc; reflexivity|].
  intros HqS. destruct (quiet_split k m0 HqS) as [Hqk Hq1].
  rewrite (Hq Hqk).
  assert (Hd : delay_ms EOL m = set_line1 m (tail (line1 m))).
  { apply (delay_nothing EOL 0). right. unfold quiet. rewrite Hline. exact Hq1. }
  rewrite Hd in Hb'. cbn [usart1 set_line1] in Hb'.
  rewrite <- (app_nil_r (backlog (us_rx (usart1 m)))) in Hb' at 1.
  apply app_inv_head in Hb'. rewrite <- Hb', app_nil_r. reflexivity.
Qed.

(** The bytes of one arrival, into an empty buffer with room for them. *)
Lemma arrival_since EOL m bytes rest :
  inv (us_rx (usart1 m)) -> cb_len (us_rx (usart1 m)) = 0 ->
  line1 m = bytes :: rest -> Z.testbit (UCSR1B m) 7 = true ->
  Z.of_nat (length bytes) <= capacity (us_rx (usart1 m)) ->
  Forall (fun b => 0 <= b <= 255) bytes ->
  holds_since (delay_ms EOL m) 0 (delay_ms EOL m) (rfid m) bytes [] /\
  line1 (delay_ms EOL m) = rest.
Proof.
  intros Hinv Hempty Hline Hie Hroom Hbytes.
  destruct (delay_spec EOL m) as (Hr' & _ & _).
  split; [|rewrite delay_line1, Hline; reflexivity].
  split; [exact Hr'|].
  assert (Hu : us_rx (usart1 (delay_ms EOL m)) = fst (push_all (us_rx (usart1 m)) bytes)).
  { unfold delay_ms. rewrite Hline. cbn [UCSR1B set_line1]. rewrite Hie.
    destruct (isr1_run EOL bytes (set_line1 m rest)) as (H1 & _).
    rewrite H1, rx_isr_run_rx. reflexivity. }
  destruct (push_all_spec bytes (us_rx (usart1 m)) Hinv ltac:(lia))
    as (cb' & Hp & Hinv' & _ & _ & Hb).
  rewrite Hu, Hp. cbn [fst]. split; [exact Hinv'|].
  split; [|split; reflexivity].
  exists []. split; [|reflexivity].
  rewrite Hb, (backlog_empty _ Hempty), u8_bytes, app_nil_r by assumption.
  reflexivity.
Qed.

Lemma since_transfer EOL m0 k m ma r0 pending later :
  usart1 m = usart1 ma -> line1 m = line1 ma -> UCSR1B m = UCSR1B ma ->
  holds_since m0 k (delay_ms EOL ma) r0 pending later ->
  holds_since m0 k (delay_ms EOL m) (rfid m) pending later.
Proof.
  intros Hu Hl Hb (_ & Hinv & Hlater & Hline & Hcap).
  unfold holds_since. rewrite (delay_usart1 EOL m ma Hu Hl Hb).
  rewrite delay_line1 in *. rewrite Hl.
  split; [apply delay_spec|]. auto.
Qed.

(** ** The stages of [rx_pkt], one turn at a time *)

Lemma holds_set_rfid m0 k later m r r' pending :
  holds_since m0 k m r pending later ->
  holds_since m0 k (set_rfid m r') r' pending later.
Proof. intros (_ & Hinv & Hb). split; [reflexivity|]. split; assumption. Qed.

(** Reaches the [holds] of a machine under the [set_rfid]s put on it. *)
Ltac holds_under H :=
  first [ exact H
        | eapply holds_set_rfid; exact H
        | eapply holds_set_rfid; eapply holds_set_rfid; exact H ].

Lemma holds_poll OVR m0 k later m r x pending old :
  holds_since m0 k m r (x :: pending) later ->
  exists m',
    get_byte OVR m old = (m', x, 1) /\ holds_since m0 k m' r pending later /\
    only_received m m'.
Proof.
  intros (Hr & Hinv & (l & Hb & Hq) & Hline & Hcap).
  pose proof (get_byte_capacity OVR m old Hinv) as Hc.
  destruct (get_byte_head OVR m old x (pending ++ l) Hinv Hb)
    as (m' & Hg & Hr' & Hinv' & Hb' & Hrec & Hl').
  rewrite Hg in Hc. cbn [fst] in Hc.
  exists m'. split; [exact Hg|]. split; [|exact Hrec].
  split; [congruence|]. split; [exact Hinv'|].
  split; [exists l; split; [exact Hb' | exact Hq]|].
  split; congruence.
Qed.

Lemma turn_SOH OVR m0 k later m r x pending i :
  holds_since m0 k m r (x :: pending) later -> rfid_error r = SOH ->
  exists m',
    rx_switch OVR m i = (m', i, false) /\
    holds_since m0 k m' (if x =? 0xff then set_error (set_soh r x) LEN else set_soh r x) pending later /\
    only_received m m'.
Proof.
  intros H He. assert (Hr := proj1 H). subst r.
  destruct (holds_poll OVR m0 k later m (rfid m) x pending (rfid_soh (rfid m)) H)
    as (m1 & Hg & H1 & Hrec).
  assert (Hr1 := proj1 H1).
  unfold rx_switch. rewrite He. simpl (SOH =? SOH). cbv iota.
  rewrite Hg. cbn [rfid set_rfid rfid_soh set_soh negb Z.eqb andb].
  rewrite Hr1.
  destruct (x =? 255); eexists; (split; [reflexivity|]);
    (split; [holds_under H1 | exact Hrec]).
Qed.

Lemma turn_LEN OVR m0 k later m r x pending i :
  holds_since m0 k m r (x :: pending) later -> rfid_error r = LEN ->
  exists m',
    rx_switch OVR m i = (m', i, false) /\
    holds_since m0 k m' (set_error (set_len r x) CMD) pending later /\
    only_received m m'.
Proof.
  intros H He. assert (Hr := proj1 H). subst r.
  destruct (holds_poll OVR m0 k later m (rfid m) x pending (rfid_len (rfid m)) H)
    as (m1 & Hg & H1 & Hrec).
  assert (Hr1 := proj1 H1).
  unfold rx_switch. rewrite He. simpl (LEN =? SOH). simpl (LEN =? LEN). cbv iota.
  rewrite Hg. cbn [rfid set_rfid negb Z.eqb]. rewrite Hr1.
  eexists. split; [reflexivity|].
  split; [holds_under H1 | exact Hrec].
Qed.

Lemma turn_STATUS_byte OVR m0 k later m r x pending i :
  holds_since m0 k m r (x :: pending) later -> 0 <= i < 2 ->
  exists m',
    rx_case_STATUS OVR m i = (m', i + 1, false) /\
    holds_since m0 k m' (set_status r (with_byte_at (rfid_status r) (1 - i) x)) pending later /\
    only_received m m'.
Proof.
  intros H Hi. assert (Hr := proj1 H). subst r.
  destruct (holds_poll OVR m0 k later m (rfid m) x pending (byte_at (rfid_status (rfid m)) (1 - i)) H)
    as (m1 & Hg & H1 & Hrec).
  assert (Hr1 := proj1 H1).
  unfold rx_case_STATUS.
  replace (i <? 2) with true by (symmetry; apply Z.ltb_lt; lia).
  rewrite Hg. cbn [negb Z.eqb]. rewrite Hr1, (u8_small (i + 1)) by lia.
  eexists. split; [reflexivity|].
  split; [holds_under H1 | exact Hrec].
Qed.

Lemma turn_CMD OVR m0 k later m r x y pending i :
  holds_since m0 k m r (x :: y :: pending) later -> rfid_error r = CMD ->
  exists m',
    rx_switch OVR m i = (m', 1, false) /\
    holds_since m0 k m' (set_status (set_error (set_opcode r x) STATUS)
                         (with_byte_at (rfid_status r) 1 y)) pending later /\
    only_received m m'.
Proof.
  intros H He. assert (Hr := proj1 H). subst r.
  destruct (holds_poll OVR m0 k later m (rfid m) x (y :: pending) (rfid_opcode (rfid m)) H)
    as (m1 & Hg & H1 & Hrec).
  assert (Hr1 := proj1 H1).
  unfold rx_switch. rewrite He.
  simpl (CMD =? SOH). simpl (CMD =? LEN). simpl (CMD =? CMD). cbv iota.
  rewrite Hg. cbn [rfid set_rfid negb Z.eqb]. rewrite Hr1.
  destruct (turn_STATUS_byte OVR m0 k later
              (set_rfid (set_rfid m1 (set_opcode (rfid m) x))
                        (set_error (set_opcode (rfid m) x) STATUS))
              (set_error (set_opcode (rfid m) x) STATUS) y pending 0)
    as (m2 & Hs & H2 & Hrec2); [holds_under H1 | lia |].
  rewrite Hs. exists m2. split; [reflexivity|]. split; [exact H2|].
  eapply only_received_trans; [exact Hrec | exact Hrec2].
Qed.

Lemma turn_STATUS OVR m0 k later m r x pending i :
  holds_since m0 k m r (x :: pending) later -> rfid_error r = STATUS -> 0 <= i < 2 ->
  exists m',
    rx_switch OVR m i = (m', i + 1, false) /\
    holds_since m0 k m' (set_status r (with_byte_at (rfid_status r) (1 - i) x)) pending later /\
    only_received m m'.
Proof.
  intros H He Hi. assert (Hr := proj1 H). subst r.
  unfold rx_switch. rewrite He.
  simpl (STATUS =? SOH). simpl (STATUS =? LEN). simpl (STATUS =? CMD).
  simpl (STATUS =? STATUS). cbv iota.
  apply turn_STATUS_byte; assumption.
Qed.

Lemma turn_STATUS_done OVR m0 k later m r pending i :
  holds_since m0 k m r pending later -> rfid_error r = STATUS -> 2 <= i ->
  exists m',
    rx_switch OVR m i = (m', 0, false) /\
    holds_since m0 k m' (set_error r DATA) pending later /\
    only_received m m'.
Proof.
  intros H He Hi. assert (Hr := proj1 H). subst r.
  unfold rx_switch. rewrite He.
  simpl (STATUS =? SOH). simpl (STATUS =? LEN). simpl (STATUS =? CMD).
  simpl (STATUS =? STATUS). cbv iota. unfold rx_case_STATUS.
  replace (i <? 2) with false by (symmetry; apply Z.ltb_ge; lia).
  eexists. split; [reflexivity|].
  split; [holds_under H | exact (only_received_refl m)].
Qed.

Lemma turn_DATA OVR m0 k later m r x pending i :
  holds_since m0 k m r (x :: pending) later -> rfid_error r = DATA ->
  0 <= i < rfid_len r -> rfid_len r <= 255 ->
  exists m',
    rx_switch OVR m i = (m', i + 1, false) /\
    holds_since m0 k m' (set_data r (poke (rfid_data r) i x)) pending later /\
    only_received m m'.
Proof.
  intros H He Hi Hl. assert (Hr := proj1 H). subst r.
  destruct (holds_poll OVR m0 k later m (rfid m) x pending (peek (rfid_data (rfid m)) i) H)
    as (m1 & Hg & H1 & Hrec).
  assert (Hr1 := proj1 H1).
  unfold rx_switch. rewrite He.
  simpl (DATA =? SOH). simpl (DATA =? LEN). simpl (DATA =? CMD).
  simpl (DATA =? STATUS). simpl (DATA =? DATA). cbv iota.
  replace (i <? rfid_len (rfid m)) with true by (symmetry; apply Z.ltb_lt; lia).
  rewrite Hg. cbn [negb Z.eqb]. rewrite Hr1, (u8_small (i + 1)) by lia.
  eexists. split; [reflexivity|].
  split; [holds_under H1 | exact Hrec].
Qed.

Lemma turn_DATA_done OVR m0 k later m r pending i :
  holds_since m0 k m r pending later -> rfid_error r = DATA -> rfid_len r <= i ->
  exists m',
    rx_switch OVR m i = (m', 0, false) /\
    holds_since m0 k m' (set_error r CRC) pending later /\
    only_received m m'.
Proof.
  intros H He Hi. assert (Hr := proj1 H). subst r.
  unfold rx_switch. rewrite He.
  simpl (DATA =? SOH). simpl (DATA =? LEN). simpl (DATA =? CMD).
  simpl (DATA =? STATUS). simpl (DATA =? DATA). cbv iota.
  replace (i <? rfid_len (rfid m)) with false by (symmetry; apply Z.ltb_ge; lia).
  eexists. split; [reflexivity|].
  split; [holds_under H | exact (only_received_refl m)].
Qed.

Lemma turn_CRC OVR m0 k later m r x pending i :
  holds_since m0 k m r (x :: pending) later -> rfid_error r = CRC -> 0 <= i < 2 ->
  exists m',
    rx_switch OVR m i = (m', i + 1, false) /\
    holds_since m0 k m' (set_crc r (with_byte_at (rfid_crc r) (1 - i) x)) pending later /\
    only_received m m'.
Proof.
  intros H He Hi. assert (Hr := proj1 H). subst r.
  destruct (holds_poll OVR m0 k later m (rfid m) x pending (byte_at (rfid_crc (rfid m)) (1 - i)) H)
    as (m1 & Hg & H1 & Hrec).
  assert (Hr1 := proj1 H1).
  unfold rx_switch. rewrite He.
  simpl (CRC =? SOH). simpl (CRC =? LEN). simpl (CRC =? CMD).
  simpl (CRC =? STATUS). simpl (CRC =? DATA). simpl (CRC =? CRC). cbv iota.
  replace (i <? 2) with true by (symmetry; apply Z.ltb_lt; lia).
  rewrite Hg. cbn [negb Z.eqb]. rewrite Hr1, (u8_small (i + 1)) by lia.
  eexists. split; [reflexivity|].
  split; [holds_under H1 | exact Hrec].
Qed.

Lemma turn_CRC_check OVR m0 k later m r pending i :
  holds_since m0 k m r pending later -> rfid_error r = CRC -> 2 <= i ->
  exists m',
    rx_switch OVR m i = (m', i, true) /\
    holds_since m0 k m' (if m5_crc r TRUE =? rfid_crc r then set_error r END else r) pending later /\
    only_received m m'.
Proof.
  intros H He Hi. assert (Hr := proj1 H). subst r.
  unfold rx_switch. rewrite He.
  simpl (CRC =? SOH). simpl (CRC =? LEN). simpl (CRC =? CMD).
  simpl (CRC =? STATUS). simpl (CRC =? DATA). simpl (CRC =? CRC). cbv iota.
  replace (i <? 2) with false by (symmetry; apply Z.ltb_ge; lia).
  destruct (m5_crc (rfid m) TRUE =? rfid_crc (rfid m)); eexists; (split; [reflexivity|]).
  - split; [holds_under H | exact (only_received_refl m)].
  - split; [exact H | exact (only_received_refl m)].
Qed.

(** ** Runs of the loop of [rx_pkt] *)

Lemma rx_loop_turn OVR EOL n m i m' i' :
  rx_switch OVR (delay_ms EOL m) i = (m', i', false) ->
  only_received (delay_ms EOL m) m' ->
  rx_loop OVR EOL (S n) m i = rx_loop OVR EOL n m' i' /\ only_received m m'.
Proof.
  intros Hs Hrec. split; [cbn [rx_loop]; rewrite Hs; reflexivity|].
  eapply only_received_trans; [apply delay_spec | exact Hrec].
Qed.

Lemma rx_loop_last OVR EOL n m i m' i' :
  rx_switch OVR (delay_ms EOL m) i = (m', i', true) ->
  only_received (delay_ms EOL m) m' ->
  rx_loop OVR EOL (S n) m i = m' /\ only_received m m'.
Proof.
  intros Hs Hrec. split; [cbn [rx_loop]; rewrite Hs; reflexivity|].
  eapply only_received_trans; [apply delay_spec | exact Hrec].
Qed.

Lemma set_soh_same r : set_soh r (rfid_soh r) = r.
Proof. destruct r. reflexivity. Qed.

Lemma set_data_same r : set_data r (rfid_data r) = r.
Proof. destruct r. reflexivity. Qed.

(** Bytes other than 0xFF in front of a frame are read and dropped, one a
    turn, and leave everything but [soh] alone. *)
Lemma run_garbage OVR EOL m0 later pending n i : forall g m r k,
  Forall (fun b => b <> 0xff) g ->
  holds_since m0 k (delay_ms EOL m) r (g ++ pending) later -> rfid_error r = SOH ->
  exists m' s,
    rx_loop OVR EOL (length g + n) m i = rx_loop OVR EOL n m' i /\
    holds_since m0 (length g + k) (delay_ms EOL m') (set_soh r s) pending later /\
    only_received m m'.
Proof.
  induction g as [|x g IH]; intros m r k Hg H He.
  - exists m, (rfid_soh r). rewrite set_soh_same.
    split; [reflexivity|]. split; [exact H | apply only_received_refl].
  - inversion Hg as [|? ? Hx Hg']; subst.
    destruct (turn_SOH OVR m0 k later (delay_ms EOL m) r x (g ++ pending) i H He)
      as (m1 & Hs & H1 & Hrec).
    replace (x =? 255) with false in H1 by (symmetry; apply Z.eqb_neq; exact Hx).
    destruct (rx_loop_turn OVR EOL (length g + n) m i m1 i Hs Hrec) as [Hl Hrec1].
    destruct (IH m1 (set_soh r x) (S k) Hg' (delay_since EOL _ _ _ _ _ _ H1) He)
      as (m' & s & Hl' & H' & Hrec').
    exists m', s. cbn [length Nat.add]. rewrite Hl, Hl'.
    split; [reflexivity|].
    split; [eapply since_index; [exact H' | lia]|].
    eapply only_received_trans; eassumption.
Qed.

(** The payload is read into [rfid->data], one byte a turn. *)
Lemma run_data OVR EOL m0 later pending n : forall bs m r i k,
  holds_since m0 k (delay_ms EOL m) r (bs ++ pending) later -> rfid_error r = DATA ->
  0 <= i -> i + Z.of_nat (length bs) = rfid_len r -> rfid_len r <= 255 ->
  rfid_len r <= Z.of_nat (length (rfid_data r)) ->
  exists m' d',
    rx_loop OVR EOL (length bs + n) m i = rx_loop OVR EOL n m' (rfid_len r) /\
    holds_since m0 (length bs + k) (delay_ms EOL m') (set_data r d') pending later /\
    only_received m m' /\
    length d' = length (rfid_data r) /\
    take (Z.to_nat (rfid_len r)) d' = take (Z.to_nat i) (rfid_data r) ++ bs.
Proof.
  induction bs as [|b bs IH]; intros m r i k H He Hi Hlen Hl Hd.
  - exists m, (rfid_data r). rewrite set_data_same.
    simpl in Hlen. replace i with (rfid_len r) by lia. rewrite app_nil_r.
    split; [reflexivity|]. split; [exact H|].
    split; [apply only_received_refl|]. split; reflexivity.
  - simpl length in Hlen.
    destruct (turn_DATA OVR m0 k later (delay_ms EOL m) r b (bs ++ pending) i H He
                ltac:(lia) Hl) as (m1 & Hs & H1 & Hrec).
    destruct (rx_loop_turn OVR EOL (length bs + n) m i m1 (i + 1) Hs Hrec)
      as [Hloop Hrec1].
    destruct (IH m1 (set_data r (poke (rfid_data r) i b)) (i + 1) (S k)
                (delay_since EOL _ _ _ _ _ _ H1) He ltac:(lia))
      as (m' & d' & Hloop' & H' & Hrec' & Hlen' & Htk);
      [cbn; lia | exact Hl | cbn; rewrite length_poke; exact Hd |].
    cbn [rfid_len set_data rfid_data] in *.
    exists m', d'. cbn [length Nat.add]. rewrite Hloop, Hloop'.
    split; [reflexivity|].
    split; [eapply since_index; [exact H' | lia]|].
    split; [eapply only_received_trans; eassumption|].
    split; [rewrite Hlen'; apply length_poke|].
    rewrite Htk, take_poke_snoc by lia. rewrite <- app_assoc. reflexivity.
Qed.

(** A whole inbound frame at the head of the buffer is read in [len + 9]
    turns; the last one compares the checksums and ends the loop. *)
Lemma run_frame OVR EOL m0 k later m r i n len op st payload crc pending :
  holds_since m0 k (delay_ms EOL m) r (frame_in len op st payload crc ++ pending) later ->
  rfid_error r = SOH ->
  0 <= len <= 255 -> Z.of_nat (length payload) = len ->
  len <= Z.of_nat (length (rfid_data r)) ->
  0 <= st < 65536 -> 0 <= crc < 65536 ->
  exists m' r',
    rx_loop OVR EOL (length payload + 9 + n) m i = m' /\
    holds_since m0 (length payload + 8 + k) m' r' pending later /\ only_received m m' /\
    rfid_soh r' = 0xff /\ rfid_len r' = len /\ rfid_opcode r' = op /\
    rfid_status r' = st /\ rfid_crc r' = crc /\
    take (Z.to_nat len) (rfid_data r') = payload /\
    length (rfid_data r') = length (rfid_data r) /\
    rfid_size r' = rfid_size r /\
    rfid_error r' = (if crc_in len op st payload =? crc then END else CRC).
Proof.
  intros H He Hlen Hpl Hd Hst Hcrc.
  unfold frame_in, word_bytes in H. rewrite <- !app_assoc in H. cbn [app] in H.
  replace (length payload + 9 + n)%nat
    with (S (S (S (S (S (length payload + S (S (S (S n)))))))))%nat by lia.
  (* SOH *)
  destruct (turn_SOH OVR _ _ _ _ _ _ _ i H He) as (m1 & Hs1 & H1 & R1).
  change (255 =? 255) with true in H1. cbv iota in H1.
  destruct (rx_loop_turn OVR EOL (S (S (S (S (length payload + S (S (S (S n))))))))
              _ _ _ _ Hs1 R1) as [L1 T1].
  apply (delay_since EOL) in H1.
  (* LEN *)
  destruct (turn_LEN OVR _ _ _ _ _ _ _ i H1 eq_refl) as (m2 & Hs2 & H2 & R2).
  destruct (rx_loop_turn OVR EOL (S (S (S (length payload + S (S (S (S n)))))))
              _ _ _ _ Hs2 R2) as [L2 T2].
  apply (delay_since EOL) in H2.
  (* CMD, and the first byte of the status word *)
  destruct (turn_CMD OVR _ _ _ _ _ _ _ _ i H2 eq_refl) as (m3 & Hs3 & H3 & R3).
  destruct (rx_loop_turn OVR EOL (S (S (length payload + S (S (S (S n))))))
              _ _ _ _ Hs3 R3) as [L3 T3].
  apply (delay_since EOL) in H3.
  (* STATUS *)
  destruct (turn_STATUS OVR _ _ _ _ _ _ _ 1 H3 eq_refl ltac:(lia)) as (m4 & Hs4 & H4 & R4).
  destruct (rx_loop_turn OVR EOL (S (length payload + S (S (S (S n)))))
              _ _ _ _ Hs4 R4) as [L4 T4].
  apply (delay_since EOL) in H4.
  destruct (turn_STATUS_done OVR _ _ _ _ _ _ (1 + 1) H4 eq_refl ltac:(lia))
    as (m5 & Hs5 & H5 & R5).
  destruct (rx_loop_turn OVR EOL (length payload + S (S (S (S n))))
              _ _ _ _ Hs5 R5) as [L5 T5].
  apply (delay_since EOL) in H5.
  cbn [set_status set_error set_opcode set_len set_soh rfid_status rfid_size
       rfid_data rfid_soh rfid_len rfid_opcode rfid_crc rfid_error] in H5.
  change (1 - 1) with 0 in H5.
  rewrite word_of_bytes in H5 by exact Hst.
  (* DATA *)
  match type of H5 with holds_since _ ?k5 _ ?r5 _ _ =>
    destruct (run_data OVR EOL m0 later
                (u8 (Z.shiftr crc 8) :: u8 (Z.land crc 255) :: pending)
                (S (S (S (S n)))) payload m5 r5 0 k5 H5 eq_refl ltac:(lia))
      as (m6 & d' & L6 & H6 & T6 & Hdl & Htk)
  end; [cbn; lia | cbn; lia | cbn; lia |].
  cbn [set_crc set_data set_status set_error set_opcode set_len set_soh
       rfid_status rfid_size rfid_data rfid_soh rfid_len rfid_opcode rfid_crc
       rfid_error] in H6, L6, Hdl, Htk.
  rewrite take_0 in Htk. cbn [app] in Htk.
  destruct (turn_DATA_done OVR _ _ _ _ _ _ len H6 eq_refl ltac:(cbn; lia))
    as (m7 & Hs7 & H7 & R7).
  destruct (rx_loop_turn OVR EOL (S (S (S n))) _ _ _ _ Hs7 R7) as [L7 T7].
  apply (delay_since EOL) in H7.
  (* CRC *)
  destruct (turn_CRC OVR _ _ _ _ _ _ _ 0 H7 eq_refl ltac:(lia)) as (m8 & Hs8 & H8 & R8).
  destruct (rx_loop_turn OVR EOL (S (S n)) _ _ _ _ Hs8 R8) as [L8 T8].
  apply (delay_since EOL) in H8.
  destruct (turn_CRC OVR _ _ _ _ _ _ _ (0 + 1) H8 eq_refl ltac:(lia)) as (m9 & Hs9 & H9 & R9).
  destruct (rx_loop_turn OVR EOL (S n) _ _ _ _ Hs9 R9) as [L9 T9].
  apply (delay_since EOL) in H9.
  cbn [set_crc set_data set_status set_error set_opcode set_len set_soh
       rfid_status rfid_size rfid_data rfid_soh rfid_len rfid_opcode rfid_crc
       rfid_error] in H9.
  change (1 - 0) with 1 in H9. change (1 - (0 + 1)) with 0 in H9.
  rewrite word_of_bytes in H9 by exact Hcrc.
  destruct (turn_CRC_check OVR _ _ _ _ _ _ (0 + 1 + 1) H9 eq_refl ltac:(lia))
    as (m10 & Hs10 & H10 & R10).
  destruct (rx_loop_last OVR EOL n _ _ _ _ Hs10 R10) as [L10 T10].
  rewrite m5_crc_crc16 in H10 by (cbn; rewrite Hdl; exact Hd).
  unfold crc_input in H10.
  cbn [set_crc set_data set_status set_error set_opcode set_len set_soh
       rfid_status rfid_size rfid_data rfid_soh rfid_len rfid_opcode rfid_crc
       rfid_error] in H10.
  change (negb (TRUE =? 0)) with true in H10. cbv iota in H10.
  rewrite Htk in H10.
  assert (Hrec : only_received m m10).
  { eapply only_received_trans; [exact T1|].
    eapply only_received_trans; [exact T2|].
    eapply only_received_trans; [exact T3|].
    eapply only_received_trans; [exact T4|].
    eapply only_received_trans; [exact T5|].
    eapply only_received_trans; [exact T6|].
    eapply only_received_trans; [exact T7|].
    eapply only_received_trans; [exact T8|].
    eapply only_received_trans; [exact T9|]. exact T10. }
  assert (Hloop : rx_loop OVR EOL
            (S (S (S (S (S (length payload + S (S (S (S n))))))))) m i = m10).
  { rewrite L1, L2, L3, L4, L5, L6, L7, L8, L9. exact L10. }
  match type of H10 with holds_since _ _ _ (if ?c then _ else _) _ _ =>
    change c with (crc_in len op st payload =? crc) in H10
  end.
  apply (since_index _ _ (length payload + 8 + k)) in H10; [|lia].
  destruct (crc_in len op st payload =? crc);
    eexists m10, _; (split; [exact Hloop|]); (split; [exact H10|]);
    (split; [exact Hrec|]); cbn; auto 10.
Qed.

(** ** [rx_pkt] on a frame *)

Lemma rx_pkt_frame OVR EOL m0 k later m timeout g len op st payload crc rest :
  holds_since m0 k (delay_ms EOL m) (rfid m)
    (g ++ frame_in len op st payload crc ++ rest) later ->
  Forall (fun b => b <> 0xff) g ->
  0 <= len <= 255 -> Z.of_nat (length payload) = len ->
  len <= Z.of_nat (length (rfid_data (rfid m))) ->
  0 <= st < 65536 -> 0 <= crc < 65536 ->
  (length g + length payload + 9 <= Z.to_nat (u16 timeout))%nat ->
  exists m',
    rx_pkt OVR EOL m timeout
      = (m', if crc_in len op st payload =? crc then END else CRC) /\
    holds_since m0 (length g + length payload + 8 + k) m' (rfid m') rest later /\
    only_received m m' /\
    rfid_len (rfid m') = len /\ rfid_opcode (rfid m') = op /\
    rfid_status (rfid m') = st /\ rfid_crc (rfid m') = crc /\
    take (Z.to_nat len) (rfid_data (rfid m')) = payload /\
    length (rfid_data (rfid m')) = length (rfid_data (rfid m)) /\
    rfid_size (rfid m') = rfid_size (rfid m) /\
    rfid_error (rfid m') = (if crc_in len op st payload =? crc then END else CRC).
Proof.
  intros H Hg Hlen Hpl Hd Hst Hcrc Hto.
  unfold rx_pkt. cbv zeta.
  assert (H0 : holds_since m0 k (delay_ms EOL (set_rfid m (set_error (rfid m) SOH)))
                 (set_error (rfid m) SOH)
                 (g ++ frame_in len op st payload crc ++ rest) later).
  { exact (since_transfer EOL m0 k (set_rfid m (set_error (rfid m) SOH)) m (rfid m) _ _
             eq_refl eq_refl eq_refl H). }
  destruct (Nat.le_exists_sub _ _ Hto) as (j & Hj & _). rewrite Hj.
  replace (j + (length g + length payload + 9))%nat
    with (length g + (length payload + 9 + j))%nat by lia.
  destruct (run_garbage OVR EOL m0 later (frame_in len op st payload crc ++ rest)
              (length payload + 9 + j) 0 g _ _ k Hg H0 eq_refl)
    as (m1 & s & L1 & H1 & R1).
  destruct (run_frame OVR EOL m0 _ later m1 _ 0 j len op st payload crc rest H1 eq_refl
              Hlen Hpl Hd Hst Hcrc)
    as (m' & r' & L2 & H2 & R2 & _ & F1 & F2 & F3 & F4 & F5 & F6 & F7 & F8).
  exists m'. rewrite L1, L2.
  assert (Hr := proj1 H2). rewrite Hr.
  split; [rewrite F8; reflexivity|].
  split; [eapply since_index; [exact H2 | lia]|].
  split; [exact (only_received_trans _ _ _ R1 R2)|].
  auto 12.
Qed.

(** ** [send_cmd], piece by piece *)

Lemma send_cmd_unfold OVR EOL m :
  let m2 := set_rfid m (set_crc (set_soh (rfid m) 0xff)
                                (m5_crc (set_soh (rfid m) 0xff) FALSE)) in
  let mr := fst (rx_pkt OVR EOL (tx_pkt m2) 500) in
  send_cmd OVR EOL m =
    (mr, if (rfid_error (rfid mr) =? 0) && (rfid_opcode (rfid mr) =? rfid_opcode (rfid m))
            && (rfid_status (rfid mr) =? 0)
         then TRUE else FALSE).
Proof.
  intros m2 mr.
  assert (Hm : set_rfid (set_rfid m (set_soh (rfid m) 0xff))
                 (set_crc (rfid (set_rfid m (set_soh (rfid m) 0xff)))
                    (m5_crc (rfid (set_rfid m (set_soh (rfid m) 0xff))) FALSE)) = m2)
    by reflexivity.
  unfold send_cmd. cbv zeta. rewrite Hm. fold mr.
  match goal with |- (if ?c then _ else _) = _ => destruct c end; reflexivity.
Qed.

Lemma tx_frame m :
  rfid_len (rfid m) <= Z.of_nat (length (rfid_data (rfid m))) ->
  let m2 := set_rfid m (set_crc (set_soh (rfid m) 0xff)
                                (m5_crc (set_soh (rfid m) 0xff) FALSE)) in
  only_sent m2 (tx_pkt m2)
    (frame_out (rfid_len (rfid m)) (rfid_opcode (rfid m))
       (take (Z.to_nat (rfid_len (rfid m))) (rfid_data (rfid m)))).
Proof.
  intros Hlen m2.
  pose proof (tx_pkt_spec m2 Hlen) as S. subst m2.
  cbn [rfid set_rfid set_crc set_soh rfid_soh rfid_len rfid_opcode rfid_data
       rfid_crc] in S.
  assert (E : m5_crc (set_soh (rfid m) 255) FALSE
              = crc16 ([rfid_len (rfid m); rfid_opcode (rfid m)]
                       ++ take (Z.to_nat (rfid_len (rfid m))) (rfid_data (rfid m))))
    by (rewrite m5_crc_crc16 by exact Hlen; reflexivity).
  unfold frame_out. rewrite <- E. exact S.
Qed.

Lemma send_cmd_sent OVR EOL m :
  rfid_len (rfid m) <= Z.of_nat (length (rfid_data (rfid m))) ->
  UDR1_tx (fst (send_cmd OVR EOL m))
    = UDR1_tx m ++ frame_out (rfid_len (rfid m)) (rfid_opcode (rfid m))
                     (take (Z.to_nat (rfid_len (rfid m))) (rfid_data (rfid m))) /\
  UDR0_tx (fst (send_cmd OVR EOL m)) = UDR0_tx m /\
  usart0 (fst (send_cmd OVR EOL m)) = usart0 m /\
  UCSR0B (fst (send_cmd OVR EOL m)) = UCSR0B m /\
  UCSR1B (fst (send_cmd OVR EOL m)) = UCSR1B m.
Proof.
  intros Hlen.
  pose proof (send_cmd_unfold OVR EOL m) as U. cbv zeta in U.
  pose proof (tx_frame m Hlen) as S. cbv zeta in S.
  remember (set_rfid m (set_crc (set_soh (rfid m) 255)
                                (m5_crc (set_soh (rfid m) 255) FALSE))) as m2 eqn:Em2.
  assert (A : UDR1_tx m2 = UDR1_tx m /\ UDR0_tx m2 = UDR0_tx m /\
              usart0 m2 = usart0 m /\ UCSR0B m2 = UCSR0B m /\ UCSR1B m2 = UCSR1B m)
    by (rewrite Em2; repeat split; reflexivity).
  clear Em2. destruct A as (A1 & A2 & A3 & A4 & A5).
  destruct S as (S1 & S2 & S3 & _ & _ & S6 & S7 & _).
  remember (tx_pkt m2) as mt eqn:Emt. clear Emt.
  pose proof (rx_pkt_only_received OVR EOL mt 500) as R.
  remember (rx_pkt OVR EOL mt 500) as p eqn:Ep. clear Ep.
  rewrite U. cbn [fst].
  destruct R as (R1 & R2 & R3 & R4 & R5 & _).
  rewrite R1, R2, R3, R4, R5, S1, S2, S3, S6, S7, A1, A2, A3, A4, A5. auto.
Qed.

Lemma frame_in_range len op st payload crc :
  0 <= len <= 255 -> 0 <= op <= 255 -> Forall (fun b => 0 <= b <= 255) payload ->
  Forall (fun b => 0 <= b <= 255) (frame_in len op st payload crc).
Proof.
  intros Hl Ho Hp. unfold frame_in.
  repeat (apply Forall_app; split); try apply word_bytes_range; try exact Hp.
  repeat constructor; lia.
Qed.

(** The reply arrives whole during the first wait, on an empty buffer with
    room for it. *)
Lemma send_cmd_exchange OVR EOL m len op st payload crc lines :
  inv (us_rx (usart1 m)) -> rx_len m = 0 ->
  Z.testbit (UCSR1B m) 7 = true ->
  line1 m = frame_in len op st payload crc :: lines ->
  Z.of_nat (length payload) + 7 <= capacity (us_rx (usart1 m)) ->
  0 <= len <= 255 -> Z.of_nat (length payload) = len ->
  0 <= op <= 255 -> Forall (fun b => 0 <= b <= 255) payload ->
  0 <= st < 65536 -> 0 <= crc < 65536 ->
  rfid_len (rfid m) <= Z.of_nat (length (rfid_data (rfid m))) ->
  len <= Z.of_nat (length (rfid_data (rfid m))) ->
  exists m',
    send_cmd OVR EOL m
      = (m', if (crc_in len op st payload =? crc) && (op =? rfid_opcode (rfid m))
                && (st =? 0)
             then TRUE else FALSE) /\
    UDR1_tx m' = UDR1_tx m ++ frame_out (rfid_len (rfid m)) (rfid_opcode (rfid m))
                   (take (Z.to_nat (rfid_len (rfid m))) (rfid_data (rfid m))) /\
    (rfid_error (rfid m') = (if crc_in len op st payload =? crc then END else CRC) /\
     rfid_len (rfid m') = len /\ rfid_opcode (rfid m') = op /\
     rfid_status (rfid m') = st /\ rfid_crc (rfid m') = crc /\
     take (Z.to_nat len) (rfid_data (rfid m')) = payload /\
     length (rfid_data (rfid m')) = length (rfid_data (rfid m)) /\
     rfid_size (rfid m') = rfid_size (rfid m)) /\
    inv (us_rx (usart1 m')) /\
    capacity (us_rx (usart1 m')) = capacity (us_rx (usart1 m)) /\
    UCSR1B m' = UCSR1B m /\
    line1 m' = drop (length payload + 8) lines /\
    (Forall (fun bytes => bytes = []) (take (length payload + 8) lines) -> rx_len m' = 0).
Proof.
  intros Hinv H0 Hie Hline Hroom Hlen Hpl Hop Hpay Hst Hcrc Hout Hin.
  destruct (send_cmd_sent OVR EOL m Hout) as (Hsent & _ & _ & _ & Hcsr).
  pose proof (send_cmd_unfold OVR EOL m) as U. cbv zeta in U.
  pose proof (tx_frame m Hout) as S. cbv zeta in S.
  remember (set_rfid m (set_crc (set_soh (rfid m) 255)
                                (m5_crc (set_soh (rfid m) 255) FALSE))) as m2 eqn:Em2.
  assert (A : usart1 m2 = usart1 m /\ UCSR1B m2 = UCSR1B m /\ line1 m2 = line1 m /\
              rfid_data (rfid m2) = rfid_data (rfid m) /\
              rfid_size (rfid m2) = rfid_size (rfid m))
    by (rewrite Em2; repeat split; reflexivity).
  clear Em2. destruct A as (A1 & A2 & A3 & A4 & A5).
  destruct S as (_ & _ & _ & S4 & S5 & _ & S7 & S8).
  remember (tx_pkt m2) as mt eqn:Emt. clear Emt.
  assert (Hlenf : Z.of_nat (length (frame_in len op st payload crc))
                  = Z.of_nat (length payload) + 7).
  { unfold frame_in, word_bytes. rewrite !length_app. simpl length. lia. }
  destruct (arrival_since EOL m (frame_in len op st payload crc) lines Hinv H0 Hline Hie
              ltac:(lia) (frame_in_range len op st payload crc Hlen Hop Hpay))
    as (Harr & Hlines).
  pose proof (delay_capacity EOL m) as Hcap0.
  remember (delay_ms EOL m) as m0 eqn:Em0.
  assert (Ht : holds_since m0 0 (delay_ms EOL mt) (rfid mt)
                 ([] ++ frame_in len op st payload crc ++ []) []).
  { rewrite app_nil_r. rewrite Em0 in Harr |- *.
    apply (since_transfer EOL _ 0 mt m (rfid m)); [| | |exact Harr]; congruence. }
  clear Em0.
  assert (Hto : (length (@nil Z) + length payload + 9 <= Z.to_nat (u16 500))%nat).
  { change (Z.to_nat (u16 500)) with 500%nat. cbn [length Nat.add]. lia. }
  destruct (rx_pkt_frame OVR EOL m0 0 [] mt 500 [] len op st payload crc [] Ht
              (Forall_nil _) Hlen Hpl ltac:(rewrite S5, A4; exact Hin) Hst Hcrc Hto)
    as (m' & Hrx & Hend & _ & F1 & F2 & F3 & F4 & F5 & F6 & F7 & He).
  remember (rx_pkt OVR EOL mt 500) as p eqn:Ep. clear Ep. subst p.
  cbn [fst] in U. rewrite U in Hsent, Hcsr. cbn [fst] in Hsent, Hcsr.
  destruct Hend as (_ & Hinv' & (l & Hb & Hq) & Hline' & Hcap').
  cbn [length Nat.add app] in Hline', Hq, Hb. rewrite Nat.add_0_r in Hline', Hq.
  exists m'. rewrite U, He, F1, F2, F3, F4, F5, F6, F7, S5, A4, A5.
  split; [destruct (crc_in len op st payload =? crc); reflexivity|].
  split; [exact Hsent|]. split; [auto 12|].
  split; [exact Hinv'|]. split; [congruence|]. split; [exact Hcsr|].
  split; [rewrite Hline', Hlines; reflexivity|].
  intros Hquiet.
  assert (Hl : l = []) by (apply Hq; unfold quiet; rewrite Hlines; exact Hquiet).
  rewrite Hl in Hb.
  pose proof (length_backlog (us_rx (usart1 m'))) as Hlb. rewrite Hb in Hlb.
  destruct Hinv' as [(_ & _ & _ & Hl' & _) _].
  unfold rx_len. simpl length in Hlb. lia.
Qed.

Lemma rx_pkt_silent OVR EOL m timeout :
  deaf_or_quiet (Z.to_nat (u16 timeout)) m -> rx_len m = 0 ->
  rx_pkt OVR EOL m timeout
    = (set_line1 (set_rfid m (set_error (rfid m) SOH))
         (drop (Z.to_nat (u16 timeout)) (line1 m)), SOH).
Proof.
  intros Hq H0. unfold rx_pkt. cbv zeta.
  rewrite silent_loop; [reflexivity | exact Hq | exact H0 | reflexivity].
Qed.

Lemma send_cmd_silent OVR EOL m :
  deaf_or_quiet 500 m -> rx_len m = 0 ->
  rfid_len (rfid m) <= Z.of_nat (length (rfid_data (rfid m))) ->
  exists m',
    send_cmd OVR EOL m = (m', FALSE) /\
    UDR1_tx m' = UDR1_tx m ++ frame_out (rfid_len (rfid m)) (rfid_opcode (rfid m))
                   (take (Z.to_nat (rfid_len (rfid m))) (rfid_data (rfid m))) /\
    rfid m' = set_error (set_crc (set_soh (rfid m) 0xff)
                                 (m5_crc (set_soh (rfid m) 0xff) FALSE)) SOH /\
    usart1 m' = usart1 m /\ line1 m' = drop 500 (line1 m) /\
    UCSR1B m' = UCSR1B m.
Proof.
  intros Hq H0 Hout.
  rewrite send_cmd_unfold. cbv zeta.
  destruct (tx_frame m Hout) as (S1 & _ & _ & S4 & S5 & _ & S7 & S8).
  cbv zeta in S1, S4, S5, S7, S8.
  match type of S1 with
  | UDR1_tx ?mt = _ =>
      assert (Hrx := rx_pkt_silent OVR EOL mt 500);
      change (Z.to_nat (u16 500)) with 500%nat in Hrx;
      rewrite Hrx;
      [| destruct Hq as [Hq|Hq];
         [left; rewrite S7; exact Hq | right; unfold quiet; rewrite S8; exact Hq]
       | unfold rx_len; rewrite S4; exact H0]
  end.
  eexists. split; [reflexivity|].
  cbn [fst UDR1_tx rfid usart1 line1 UCSR1B set_line1 set_rfid].
  rewrite S1, S4, S5, S7, S8. auto 10.
Qed.

(** ** [memcpy] *)

Lemma memcpy_spec (dst src : list Z) (n : Z) :
  n <= Z.of_nat (length src) -> n <= Z.of_nat (length dst) ->
  memcpy dst src n = take (Z.to_nat n) src ++ drop (Z.to_nat n) dst.
Proof.
  intros Hs Hd. unfold memcpy.
  assert (Hk : (Z.to_nat n <= length src)%nat) by lia.
  assert (Hk' : (Z.to_nat n <= length dst)%nat) by lia.
  generalize dependent (Z.to_nat n). clear Hs Hd n.
  induction n as [|k IH]; intros Hs Hd; [reflexivity|].
  rewrite seq_S, fold_left_app, IH by lia. cbn [fold_left Nat.add].
  destruct (lookup_lt_is_Some_2 src k ltac:(lia)) as [x Hx].
  destruct (lookup_lt_is_Some_2 dst k ltac:(lia)) as [y Hy].
  unfold peek, poke. rewrite Nat2Z.id, (list_lookup_total_correct _ _ _ Hx).
  rewrite (take_S_r _ _ x Hx), (drop_S _ _ _ Hy).
  rewrite insert_app_r_alt by (rewrite length_take; lia).
  rewrite length_take, Nat.min_l by lia. rewrite Nat.sub_diag. cbn [insert].
  rewrite <- app_assoc. reflexivity.
Qed.

(** * The reader protocol: more results *)

(** X13. [tx_pkt] sends, on the reader's port and in this order, the
    header, the length and the opcode held in [rfid], the first [len]
    bytes of [rfid->data], and the checksum held in [rfid], most
    significant byte first; it changes nothing else. *)
Theorem tx_pkt_layout m :
  rfid_len (rfid m) <= Z.of_nat (length (rfid_data (rfid m))) ->
  UDR1_tx (tx_pkt m)
    = UDR1_tx m
      ++ [rfid_soh (rfid m); rfid_len (rfid m); rfid_opcode (rfid m)]
      ++ take (Z.to_nat (rfid_len (rfid m))) (rfid_data (rfid m))
      ++ [u8 (Z.shiftr (rfid_crc (rfid m)) 8); u8 (Z.land (rfid_crc (rfid m)) 0xff)] /\
  UDR0_tx (tx_pkt m) = UDR0_tx m /\
  usart0 (tx_pkt m) = usart0 m /\ usart1 (tx_pkt m) = usart1 m /\
  rfid (tx_pkt m) = rfid m /\
  UCSR0B (tx_pkt m) = UCSR0B m /\ UCSR1B (tx_pkt m) = UCSR1B m /\
  line1 (tx_pkt m) = line1 m.
Proof. intros Hlen. exact (tx_pkt_spec m Hlen). Qed.

Lemma tx_pkt_layout_witness :
  let m := set_rfid (mcu_init []) (Rfid 16 1 [0x03; 0xe8; 0x55] 0xff 2 0x21 0 0xd509 0) in
  UDR1_tx (tx_pkt m)
    = UDR1_tx m
      ++ [rfid_soh (rfid m); rfid_len (rfid m); rfid_opcode (rfid m)]
      ++ take (Z.to_nat (rfid_len (rfid m))) (rfid_data (rfid m))
      ++ [u8 (Z.shiftr (rfid_crc (rfid m)) 8); u8 (Z.land (rfid_crc (rfid m)) 0xff)] /\
  UDR0_tx (tx_pkt m) = UDR0_tx m /\
  usart0 (tx_pkt m) = usart0 m /\ usart1 (tx_pkt m) = usart1 m /\
  rfid (tx_pkt m) = rfid m /\
  UCSR0B (tx_pkt m) = UCSR0B m /\ UCSR1B (tx_pkt m) = UCSR1B m /\
  line1 (tx_pkt m) = line1 m.
Proof.
  intros m. refine (tx_pkt_layout m _). simpl. lia.
Defined.

(** X14. [rx_pkt] decodes a frame.  When, by the end of the first wait,
    the line's buffer holds bytes other than 0xFF followed by a frame
    (header 0xFF, length, opcode, status word, [len] bytes of payload,
    checksum word), and [timeout] allows one turn for each such byte and
    [len + 9] turns for the frame, [rx_pkt] drops the bytes in front,
    stores length, opcode, status word, checksum and payload in [rfid],
    takes the frame and no byte after it from the buffer, and returns END
    (0) when the checksum received is the CRC of length, opcode, status and
    payload, CRC (6) when it is not.  It sends nothing.  The area of
    [rfid->data] must have room for the payload. *)
Theorem rx_pkt_decodes_frame OVR EOL m timeout g len op st payload crc rest :
  holds (delay_ms EOL m) (rfid m) (g ++ frame_in len op st payload crc ++ rest) ->
  Forall (fun b => b <> 0xff) g ->
  0 <= len <= 255 -> Z.of_nat (length payload) = len ->
  len <= Z.of_nat (length (rfid_data (rfid m))) ->
  0 <= st < 65536 -> 0 <= crc < 65536 ->
  (length g + length payload + 9 <= Z.to_nat (u16 timeout))%nat ->
  exists m',
    rx_pkt OVR EOL m timeout
      = (m', if crc_in len op st payload =? crc then END else CRC) /\
    holds m' (rfid m') rest /\ only_received m m' /\
    rfid_len (rfid m') = len /\ rfid_opcode (rfid m') = op /\
    rfid_status (rfid m') = st /\ rfid_crc (rfid m') = crc /\
    take (Z.to_nat len) (rfid_data (rfid m')) = payload /\
    length (rfid_data (rfid m')) = length (rfid_data (rfid m)) /\
    rfid_size (rfid m') = rfid_size (rfid m).
Proof.
  intros H Hg Hlen Hpl Hd Hst Hcrc Hto.
  destruct (since_start _ _ _ H) as (later & Hs).
  destruct (rx_pkt_frame OVR EOL _ 0 later m timeout g len op st payload crc rest
              Hs Hg Hlen Hpl Hd Hst Hcrc Hto)
    as (m' & H1 & H2 & H3 & H4 & H5 & H6 & H7 & H8 & H9 & H10 & _).
  apply since_holds in H2.
  exists m'. auto 12.
Qed.

Lemma rx_pkt_decodes_frame_witness :
  let m := mcu_listening 16 [[7] ++ frame_in 2 0x21 0 [0xab; 0xcd] 63811 ++ [5]] in
  exists m',
    rx_pkt None None m 20
      = (m', if crc_in 2 0x21 0 [0xab; 0xcd] =? 63811 then END else CRC) /\
    holds m' (rfid m') [5] /\ only_received m m' /\
    rfid_len (rfid m') = 2 /\ rfid_opcode (rfid m') = 0x21 /\
    rfid_status (rfid m') = 0 /\ rfid_crc (rfid m') = 63811 /\
    take (Z.to_nat 2) (rfid_data (rfid m')) = [0xab; 0xcd] /\
    length (rfid_data (rfid m')) = length (rfid_data (rfid m)) /\
    rfid_size (rfid m') = rfid_size (rfid m).
Proof.
  intros m.
  refine (rx_pkt_decodes_frame None None m 20 [7] 2 0x21 0 [0xab; 0xcd] 63811 [5]
            _ _ _ _ _ _ _ _).
  - split; [reflexivity|]. split; [inv_by_computation|].
    exists []. vm_compute. reflexivity.
  - repeat constructor. discriminate.
  - lia.
  - reflexivity.
  - vm_compute. discriminate.
  - lia.
  - lia.
  - vm_compute. lia.
Defined.

(** X15. [rx_pkt] gives up.  On an empty buffer, when the receive
    interrupt of the line is off or nothing arrives for [timeout] waits,
    [rx_pkt] makes exactly [timeout] waits and returns SOH (1); it leaves
    the machine as it was but for [rfid->error]. *)
Theorem rx_pkt_gives_up OVR EOL m timeout :
  deaf_or_quiet (Z.to_nat (u16 timeout)) m -> rx_len m = 0 ->
  rx_pkt OVR EOL m timeout
    = (set_line1 (set_rfid m (set_error (rfid m) SOH))
         (drop (Z.to_nat (u16 timeout)) (line1 m)), SOH).
Proof. intros Hq H0. exact (rx_pkt_silent OVR EOL m timeout Hq H0). Qed.

Lemma rx_pkt_gives_up_witness :
  let m := mcu_listening 16 [[]; []; []; [0xff; 0x00]] in
  rx_pkt None None m 3
    = (set_line1 (set_rfid m (set_error (rfid m) SOH))
         (drop (Z.to_nat (u16 3)) (line1 m)), SOH).
Proof.
  intros m. refine (rx_pkt_gives_up None None m 3 _ _).
  - right. unfold quiet. vm_compute. repeat constructor.
  - reflexivity.
Defined.

(** X16. [send_cmd] puts exactly one frame on the wire, whatever the
    reader answers or fails to answer: header 0xFF, the length and the
    opcode set in [rfid], the first [len] bytes of [rfid->data], and the
    CRC of length, opcode and these bytes.  Port 0 and the control
    registers are left alone. *)
Theorem send_cmd_sends_one_frame OVR EOL m :
  rfid_len (rfid m) <= Z.of_nat (length (rfid_data (rfid m))) ->
  UDR1_tx (fst (send_cmd OVR EOL m))
    = UDR1_tx m ++ frame_out (rfid_len (rfid m)) (rfid_opcode (rfid m))
                     (take (Z.to_nat (rfid_len (rfid m))) (rfid_data (rfid m))) /\
  UDR0_tx (fst (send_cmd OVR EOL m)) = UDR0_tx m /\
  usart0 (fst (send_cmd OVR EOL m)) = usart0 m /\
  UCSR0B (fst (send_cmd OVR EOL m)) = UCSR0B m /\
  UCSR1B (fst (send_cmd OVR EOL m)) = UCSR1B m.
Proof. intros Hlen. exact (send_cmd_sent OVR EOL m Hlen). Qed.

Lemma send_cmd_sends_one_frame_witness :
  let m := set_rfid (mcu_listening 16 [[0x01; 0xff]; [0x02]])
             (Rfid 16 1 [0x03; 0xe8; 0x55] 0 2 0x21 0 0 0) in
  UDR1_tx (fst (send_cmd None None m))
    = UDR1_tx m ++ frame_out (rfid_len (rfid m)) (rfid_opcode (rfid m))
                     (take (Z.to_nat (rfid_len (rfid m))) (rfid_data (rfid m))) /\
  UDR0_tx (fst (send_cmd None None m)) = UDR0_tx m /\
  usart0 (fst (send_cmd None None m)) = usart0 m /\
  UCSR0B (fst (send_cmd None None m)) = UCSR0B m /\
  UCSR1B (fst (send_cmd None None m)) = UCSR1B m.
Proof.
  intros m. refine (send_cmd_sends_one_frame None None m _). simpl. lia.
Defined.

(** X17. [send_cmd] reads the reply.  On an empty buffer with the receive
    interrupt on, when the reply frame arrives whole during the first wait
    and fits the buffer, [send_cmd] returns TRUE exactly when the frame's
    checksum is right, its opcode is the one sent and its status word is
    0, and FALSE otherwise; either way [rfid] holds the reply's length,
    opcode, status word, checksum and payload, and [rfid->error] is END (0)
    or CRC (6) as the checksum is right or wrong.  Reading the frame takes
    [len + 8] further waits; when nothing arrives during them the buffer is
    empty again afterwards. *)
Theorem send_cmd_reads_reply OVR EOL m len op st payload crc later :
  inv (us_rx (usart1 m)) -> rx_len m = 0 ->
  Z.testbit (UCSR1B m) 7 = true ->
  line1 m = frame_in len op st payload crc :: later ->
  Z.of_nat (length payload) + 7 <= capacity (us_rx (usart1 m)) ->
  0 <= len <= 255 -> Z.of_nat (length payload) = len ->
  0 <= op <= 255 -> Forall (fun b => 0 <= b <= 255) payload ->
  0 <= st < 65536 -> 0 <= crc < 65536 ->
  rfid_len (rfid m) <= Z.of_nat (length (rfid_data (rfid m))) ->
  len <= Z.of_nat (length (rfid_data (rfid m))) ->
  exists m',
    send_cmd OVR EOL m
      = (m', if (crc_in len op st payload =? crc) && (op =? rfid_opcode (rfid m))
                && (st =? 0)
             then TRUE else FALSE) /\
    (rfid_error (rfid m') = (if crc_in len op st payload =? crc then END else CRC) /\
     rfid_len (rfid m') = len /\ rfid_opcode (rfid m') = op /\
     rfid_status (rfid m') = st /\ rfid_crc (rfid m') = crc /\
     take (Z.to_nat len) (rfid_data (rfid m')) = payload /\
     length (rfid_data (rfid m')) = length (rfid_data (rfid m)) /\
     rfid_size (rfid m') = rfid_size (rfid m)) /\
    line1 m' = drop (length payload + 8) later /\
    (Forall (fun bytes => bytes = []) (take (length payload + 8) later) ->
     rx_len m' = 0).
Proof.
  intros Hinv H0 Hie Hline Hroom Hlen Hpl Hop Hpay Hst Hcrc Hout Hin.
  destruct (send_cmd_exchange OVR EOL m len op st payload crc later
              Hinv H0 Hie Hline Hroom Hlen Hpl Hop Hpay Hst Hcrc Hout Hin)
    as (m' & H1 & _ & H2 & _ & _ & _ & H3 & H4).
  exists m'. auto.
Qed.

Lemma send_cmd_reads_reply_witness :
  let m := set_rfid (mcu_listening 16 [frame_in 2 0x21 0 [0xab; 0xcd] 63811;
                                       []; []; []; []; []; []; []; []; []; []; [0x07]])
             (Rfid 16 1 (replicate 255 0) 0 0 0x21 0 0 0) in
  exists m',
    send_cmd None None m
      = (m', if (crc_in 2 0x21 0 [0xab; 0xcd] =? 63811) && (0x21 =? rfid_opcode (rfid m))
                && (0 =? 0)
             then TRUE else FALSE) /\
    (rfid_error (rfid m')
       = (if crc_in 2 0x21 0 [0xab; 0xcd] =? 63811 then END else CRC) /\
     rfid_len (rfid m') = 2 /\ rfid_opcode (rfid m') = 0x21 /\
     rfid_status (rfid m') = 0 /\ rfid_crc (rfid m') = 63811 /\
     take (Z.to_nat 2) (rfid_data (rfid m')) = [0xab; 0xcd] /\
     length (rfid_data (rfid m')) = length (rfid_data (rfid m)) /\
     rfid_size (rfid m') = rfid_size (rfid m)) /\
    line1 m' = drop (length [0xab; 0xcd] + 8)
                 [[]; []; []; []; []; []; []; []; []; []; [0x07]] /\
    (Forall (fun bytes => bytes = [])
       (take (length [0xab; 0xcd] + 8) [[]; []; []; []; []; []; []; []; []; []; [0x07]]) ->
     rx_len m' = 0).
Proof.
  intros m.
  refine (send_cmd_reads_reply None None m 2 0x21 0 [0xab; 0xcd] 63811
            [[]; []; []; []; []; []; []; []; []; []; [0x07]]
            _ _ _ _ _ _ _ _ _ _ _ _ _).
  - inv_by_computation.
  - reflexivity.
  - reflexivity.
  - reflexivity.
  - vm_compute. discriminate.
  - lia.
  - reflexivity.
  - lia.
  - repeat constructor; lia.
  - lia.
  - lia.
  - vm_compute. discriminate.
  - vm_compute. discriminate.
Defined.

(** X18. [send_cmd] without an answer.  On an empty buffer, when the
    receive interrupt is off or nothing arrives for 500 waits, [send_cmd]
    sends its frame, waits the 500 turns and returns FALSE with
    [rfid->error] at SOH (1); the opcode, the status word, the length and
    the data in [rfid] are the ones it was called with, and the buffer is
    untouched. *)
Theorem send_cmd_no_answer OVR EOL m :
  deaf_or_quiet 500 m -> rx_len m = 0 ->
  rfid_len (rfid m) <= Z.of_nat (length (rfid_data (rfid m))) ->
  exists m',
    send_cmd OVR EOL m = (m', FALSE) /\
    UDR1_tx m' = UDR1_tx m ++ frame_out (rfid_len (rfid m)) (rfid_opcode (rfid m))
                   (take (Z.to_nat (rfid_len (rfid m))) (rfid_data (rfid m))) /\
    rfid m' = set_error (set_crc (set_soh (rfid m) 0xff)
                                 (m5_crc (set_soh (rfid m) 0xff) FALSE)) SOH /\
    usart1 m' = usart1 m /\ line1 m' = drop 500 (line1 m).
Proof.
  intros Hq H0 Hout.
  destruct (send_cmd_silent OVR EOL m Hq H0 Hout) as (m' & H1 & H2 & H3 & H4 & H5 & _).
  exists m'. auto 10.
Qed.

Lemma send_cmd_no_answer_witness :
  let m := set_rfid (mcu_listening 16 [])
             (Rfid 16 1 [0x03; 0xe8; 0x55] 0 2 0x21 0 0 0) in
  exists m',
    send_cmd None None m = (m', FALSE) /\
    UDR1_tx m' = UDR1_tx m ++ frame_out (rfid_len (rfid m)) (rfid_opcode (rfid m))
                   (take (Z.to_nat (rfid_len (rfid m))) (rfid_data (rfid m))) /\
    rfid m' = set_error (set_crc (set_soh (rfid m) 0xff)
                                 (m5_crc (set_soh (rfid m) 0xff) FALSE)) SOH /\
    usart1 m' = usart1 m /\ line1 m' = drop 500 (line1 m).
Proof.
  intros m. refine (send_cmd_no_answer None None m _ _ _).
  - right. constructor.
  - reflexivity.
  - simpl. lia.
Defined.

(** ** [rfid_suspend], [rfid_read] and [rfid_resume] *)

(** X19. After [rfid_suspend] the reader is not heard: whatever arrives on
    the line, [rx_pkt] on an empty buffer stores nothing, uses up its
    [timeout] waits and returns SOH (1). *)
Theorem suspended_reader_is_not_heard OVR EOL m timeout :
  rx_len m = 0 ->
  rx_pkt OVR EOL (rfid_suspend m) timeout
    = (set_line1 (set_rfid (rfid_suspend m) (set_error (rfid m) SOH))
         (drop (Z.to_nat (u16 timeout)) (line1 m)), SOH) /\
  usart1 (fst (rx_pkt OVR EOL (rfid_suspend m) timeout)) = usart1 m.
Proof.
  intros H0.
  rewrite (rx_pkt_silent OVR EOL (rfid_suspend m) timeout);
    [split; reflexivity | left; reflexivity | exact H0].
Qed.

Lemma suspended_reader_is_not_heard_witness :
  let m := mcu_listening 16 [frame_in 0 0x04 0 [] 5427; [0xff]] in
  rx_pkt None None (rfid_suspend m) 2
    = (set_line1 (set_rfid (rfid_suspend m) (set_error (rfid m) SOH))
         (drop (Z.to_nat (u16 2)) (line1 m)), SOH) /\
  usart1 (fst (rx_pkt None None (rfid_suspend m) 2)) = usart1 m.
Proof.
  intros m. refine (suspended_reader_is_not_heard None None m 2 _). reflexivity.
Defined.

Lemma length_memcpy dst src n : length (memcpy dst src n) = length dst.
Proof.
  unfold memcpy. generalize (seq 0 (Z.to_nat n)). intros l. revert dst.
  induction l as [|k l IH]; intros dst; [reflexivity|].
  cbn [fold_left]. rewrite IH. apply length_poke.
Qed.

(** [send_cmd] right after [usart_clear_rx_buffer], with the command [r]
    set in [rfid], when the reply arrives whole during the first wait. *)
Lemma cleared_exchange OVR EOL m r len op st payload crc later :
  1 <= capacity (us_rx (usart1 m)) <= 255 ->
  Z.of_nat (length (cb_buffer (us_rx (usart1 m)))) = capacity (us_rx (usart1 m)) ->
  Z.testbit (UCSR1B m) 7 = true ->
  line1 m = frame_in len op st payload crc :: later ->
  Z.of_nat (length payload) + 7 <= capacity (us_rx (usart1 m)) ->
  0 <= len <= 255 -> Z.of_nat (length payload) = len ->
  0 <= op <= 255 -> Forall (fun b => 0 <= b <= 255) payload ->
  0 <= st < 65536 -> 0 <= crc < 65536 ->
  rfid_len r <= Z.of_nat (length (rfid_data r)) ->
  len <= Z.of_nat (length (rfid_data r)) ->
  exists m',
    send_cmd OVR EOL (set_rfid (usart_clear_rx_buffer RFID_USART m) r)
      = (m', if (crc_in len op st payload =? crc) && (op =? rfid_opcode r) && (st =? 0)
             then TRUE else FALSE) /\
    UDR1_tx m' = UDR1_tx m ++ frame_out (rfid_len r) (rfid_opcode r)
                   (take (Z.to_nat (rfid_len r)) (rfid_data r)) /\
    take (Z.to_nat len) (rfid_data (rfid m')) = payload /\
    length (rfid_data (rfid m')) = length (rfid_data r) /\
    rfid_size (rfid m') = rfid_size r.
Proof.
  intros HC Hb Hie Hline Hroom Hlen Hpl Hop Hpay Hst Hcrc Hout Hin.
  destruct (send_cmd_exchange OVR EOL
              (set_rfid (usart_clear_rx_buffer RFID_USART m) r)
              len op st payload crc later
              (clear_inv _ HC Hb) eq_refl Hie Hline Hroom Hlen Hpl Hop Hpay Hst Hcrc
              Hout Hin)
    as (m' & H1 & H2 & (_ & _ & _ & _ & _ & H3 & H4 & H5) & _).
  exists m'. auto 10.
Qed.

(** X20. [rfid_read] delivers the tag's code (build without
    [RFID_M5_PASSWORD]).  It empties the line's buffer and sends
    FF 02 21 03 E8 D5 09.  When the reply frame arrives whole during the
    first wait and fits the buffer, [rfid_read] returns TRUE exactly when
    the reply's checksum is right, its opcode is 0x21 and its status word
    is 0; it then copies the first [rfid->size] bytes of the payload to the
    caller's area and leaves the rest of the area alone; otherwise it
    returns FALSE and the area is untouched.  Either way [rfid->data] is
    freed. *)
Theorem rfid_read_delivers OVR EOL m mem data len op st payload crc later :
  1 <= capacity (us_rx (usart1 m)) <= 255 ->
  Z.of_nat (length (cb_buffer (us_rx (usart1 m)))) = capacity (us_rx (usart1 m)) ->
  Z.testbit (UCSR1B m) 7 = true ->
  line1 m = frame_in len op st payload crc :: later ->
  Z.of_nat (length payload) + 7 <= capacity (us_rx (usart1 m)) ->
  length mem = 255%nat ->
  0 <= len <= 255 -> Z.of_nat (length payload) = len ->
  0 <= op <= 255 -> Forall (fun b => 0 <= b <= 255) payload ->
  0 <= st < 65536 -> 0 <= crc < 65536 ->
  0 <= rfid_size (rfid m) <= len ->
  rfid_size (rfid m) <= Z.of_nat (length data) ->
  let size := Z.to_nat (rfid_size (rfid m)) in
  let valid := (crc_in len op st payload =? crc) && (op =? 0x21) && (st =? 0) in
  exists m',
    rfid_read OVR EOL None m mem data
      = (m',
         if valid then take size payload ++ drop size data else data,
         if valid then TRUE else FALSE) /\
    UDR1_tx m' = UDR1_tx m ++ [0xff; 0x02; 0x21; 0x03; 0xe8; 0xd5; 0x09] /\
    rfid_data (rfid m') = [].
Proof.
  intros HC Hb Hie Hline Hroom Hmem Hlen Hpl Hop Hpay Hst Hcrc Hsize Hdata size valid.
  subst size valid. unfold rfid_read. cbv zeta.
  match goal with
  | |- context [send_cmd OVR EOL (set_rfid (usart_clear_rx_buffer RFID_USART ?m0) ?r)] =>
      destruct (cleared_exchange OVR EOL m0 r len op st payload crc later
                  HC Hb Hie Hline Hroom Hlen Hpl Hop Hpay Hst Hcrc)
        as (m' & Hs & Hsent & Htk & Hdl & Hsz);
      [ unfold usart_clear_rx_buffer, RFID_USART; cbn -[Z.of_nat length poke];
        rewrite !length_poke, Hmem; lia
      | unfold usart_clear_rx_buffer, RFID_USART; cbn -[Z.of_nat length poke];
        rewrite !length_poke, Hmem; lia
      | rewrite Hs ]
  end.
  unfold usart_clear_rx_buffer, RFID_USART in Hsent, Hdl, Hsz.
  cbn -[Z.of_nat length poke frame_out take] in Hsent, Hdl, Hsz.
  cbv beta iota. cbn [rfid_opcode set_data set_opcode set_len].
  rewrite !length_poke, Hmem in Hdl.
  exists (set_rfid m' (set_data (rfid m') [])).
  split; [|split; [|reflexivity]].
  - destruct ((crc_in len op st payload =? crc) && (op =? 33) && (st =? 0));
      cbn [TRUE FALSE Z.eqb negb]; [|reflexivity].
    rewrite Hsz, memcpy_spec by lia.
    rewrite <- Htk, take_take, Nat.min_l by lia. reflexivity.
  - cbn [UDR1_tx set_rfid]. rewrite Hsent. f_equal.
    destruct mem as [|a [|b mem]]; [discriminate Hmem | discriminate Hmem|].
    reflexivity.
Qed.

Lemma rfid_read_delivers_witness :
  let m := mcu_listening 4 [frame_in 4 0x21 0 [0x11; 0x22; 0x33; 0x44] 37468] in
  exists m',
    rfid_read None None None m (replicate 255 0) [9; 9; 9; 9; 9; 9]
      = (m',
         if (crc_in 4 0x21 0 [0x11; 0x22; 0x33; 0x44] =? 37468) && (0x21 =? 0x21) && (0 =? 0)
         then take (Z.to_nat (rfid_size (rfid m))) [0x11; 0x22; 0x33; 0x44]
              ++ drop (Z.to_nat (rfid_size (rfid m))) [9; 9; 9; 9; 9; 9]
         else [9; 9; 9; 9; 9; 9],
         if (crc_in 4 0x21 0 [0x11; 0x22; 0x33; 0x44] =? 37468) && (0x21 =? 0x21) && (0 =? 0)
         then TRUE else FALSE) /\
    UDR1_tx m' = UDR1_tx m ++ [0xff; 0x02; 0x21; 0x03; 0xe8; 0xd5; 0x09] /\
    rfid_data (rfid m') = [].
Proof.
  intros m.
  refine (rfid_read_delivers None None m (replicate 255 0) [9; 9; 9; 9; 9; 9]
            4 0x21 0 [0x11; 0x22; 0x33; 0x44] 37468 []
            _ _ _ _ _ _ _ _ _ _ _ _ _ _).
  - vm_compute. split; discriminate.
  - reflexivity.
  - reflexivity.
  - reflexivity.
  - vm_compute. discriminate.
  - reflexivity.
  - lia.
  - reflexivity.
  - lia.
  - repeat constructor; lia.
  - lia.
  - lia.
  - vm_compute. split; discriminate.
  - vm_compute. discriminate.
Defined.

(** X21. [rfid_read] when the build defines [RFID_M5_PASSWORD] as four
    bytes.  The command sent is FF 1E 28, the 30 bytes 03 E8 02 01 00 00
    00 02 08, the password, 00 00 00 00 and the singulation bytes, and
    their CRC.  When the reply frame arrives whole during the first wait
    and fits the buffer, [rfid_read] returns TRUE exactly when the reply's
    checksum is right, its opcode is 0x28 and its status word is 0; the
    bytes it then copies to the caller's area are the [rfid->size] bytes
    that follow the first byte of the payload, and the rest of the area is
    left alone; otherwise it returns FALSE and the area is untouched. *)
Theorem rfid_read_with_password OVR EOL password m mem data len op st payload crc later :
  length password = 4%nat ->
  1 <= capacity (us_rx (usart1 m)) <= 255 ->
  Z.of_nat (length (cb_buffer (us_rx (usart1 m)))) = capacity (us_rx (usart1 m)) ->
  Z.testbit (UCSR1B m) 7 = true ->
  line1 m = frame_in len op st payload crc :: later ->
  Z.of_nat (length payload) + 7 <= capacity (us_rx (usart1 m)) ->
  length mem = 255%nat ->
  0 <= len <= 255 -> Z.of_nat (length payload) = len ->
  0 <= op <= 255 -> Forall (fun b => 0 <= b <= 255) payload ->
  0 <= st < 65536 -> 0 <= crc < 65536 ->
  0 <= rfid_size (rfid m) -> rfid_size (rfid m) + 1 <= len ->
  rfid_size (rfid m) <= Z.of_nat (length data) ->
  let size := Z.to_nat (rfid_size (rfid m)) in
  let valid := (crc_in len op st payload =? crc) && (op =? 0x28) && (st =? 0) in
  exists m',
    rfid_read OVR EOL (Some password) m mem data
      = (m',
         if valid then take size (drop 1 payload) ++ drop size data else data,
         if valid then TRUE else FALSE) /\
    UDR1_tx m'
      = UDR1_tx m
        ++ frame_out 0x1e 0x28
             ([0x03; 0xe8; 0x02; 0x01; 0x00; 0x00; 0x00; 0x02; 0x08]
              ++ password ++ [0x00; 0x00; 0x00; 0x00] ++ RFID_M5_SINGULATION) /\
    rfid_data (rfid m') = [].
Proof.
  intros Hpw HC Hb Hie Hline Hroom Hmem Hlen Hpl Hop Hpay Hst Hcrc Hsize0 Hsize Hdata
         size valid.
  subst size valid. unfold rfid_read. cbv zeta.
  match goal with
  | |- context [send_cmd OVR EOL (set_rfid (usart_clear_rx_buffer RFID_USART ?m0) ?r)] =>
      destruct (cleared_exchange OVR EOL m0 r len op st payload crc later
                  HC Hb Hie Hline Hroom Hlen Hpl Hop Hpay Hst Hcrc)
        as (m' & Hs & Hsent & Htk & Hdl & Hsz);
      [ unfold usart_clear_rx_buffer, RFID_USART; cbn -[Z.of_nat length memcpy];
        rewrite length_memcpy, Hmem; lia
      | unfold usart_clear_rx_buffer, RFID_USART; cbn -[Z.of_nat length memcpy];
        rewrite length_memcpy, Hmem; lia
      | rewrite Hs ]
  end.
  unfold usart_clear_rx_buffer, RFID_USART in Hsent, Hdl, Hsz.
  cbn -[Z.of_nat length memcpy frame_out take app] in Hsent, Hdl, Hsz.
  rewrite length_memcpy, Hmem in Hdl.
  cbv beta iota. cbn [rfid_opcode set_data set_opcode set_len].
  exists (set_rfid m' (set_data (rfid m') [])).
  split; [|split; [|reflexivity]].
  - destruct ((crc_in len op st payload =? crc) && (op =? 40) && (st =? 0));
      cbn [TRUE FALSE Z.eqb negb]; [|reflexivity].
    rewrite Hsz, memcpy_spec by (rewrite ?length_drop; lia).
    rewrite <- Htk. f_equal.
    rewrite !take_drop_commute, take_take, Nat.min_l by lia. reflexivity.
  - cbn [UDR1_tx set_rfid]. rewrite Hsent. f_equal. f_equal.
    destruct password as [|p1 [|p2 [|p3 [|p4 [|p5 password]]]]]; try discriminate Hpw.
    rewrite memcpy_spec by (rewrite ?Hmem; cbn; lia).
    reflexivity.
Qed.

Lemma rfid_read_with_password_witness :
  let m := mcu_listening 3 [frame_in 4 0x28 0 [0x00; 0x22; 0x33; 0x44] 2658] in
  exists m',
    rfid_read None None (Some [1; 2; 3; 4]) m (replicate 255 0) [9; 9; 9; 9; 9; 9]
      = (m',
         if (crc_in 4 0x28 0 [0x00; 0x22; 0x33; 0x44] =? 2658) && (0x28 =? 0x28) && (0 =? 0)
         then take (Z.to_nat (rfid_size (rfid m))) (drop 1 [0x00; 0x22; 0x33; 0x44])
              ++ drop (Z.to_nat (rfid_size (rfid m))) [9; 9; 9; 9; 9; 9]
         else [9; 9; 9; 9; 9; 9],
         if (crc_in 4 0x28 0 [0x00; 0x22; 0x33; 0x44] =? 2658) && (0x28 =? 0x28) && (0 =? 0)
         then TRUE else FALSE) /\
    UDR1_tx m'
      = UDR1_tx m
        ++ frame_out 0x1e 0x28
             ([0x03; 0xe8; 0x02; 0x01; 0x00; 0x00; 0x00; 0x02; 0x08]
              ++ [1; 2; 3; 4] ++ [0x00; 0x00; 0x00; 0x00] ++ RFID_M5_SINGULATION) /\
    rfid_data (rfid m') = [].
Proof.
  intros m.
  refine (rfid_read_with_password None None [1; 2; 3; 4] m (replicate 255 0)
            [9; 9; 9; 9; 9; 9] 4 0x28 0 [0x00; 0x22; 0x33; 0x44] 2658 []
            _ _ _ _ _ _ _ _ _ _ _ _ _ _ _ _).
  - reflexivity.
  - vm_compute. split; discriminate.
  - reflexivity.
  - reflexivity.
  - reflexivity.
  - vm_compute. discriminate.
  - reflexivity.
  - lia.
  - reflexivity.
  - lia.
  - repeat constructor; lia.
  - lia.
  - lia.
  - vm_compute. discriminate.
  - vm_compute. discriminate.
  - vm_compute. discriminate.
Defined.

(** X22. [rfid_read] without an answer.  With or without a password in
    the build, when the receive interrupt is off or nothing arrives for
    500 waits, [rfid_read] returns FALSE, leaves the caller's area as it
    was, leaves [rfid->error] at SOH (1) and the buffer empty, and frees
    [rfid->data]. *)
Theorem rfid_read_no_answer OVR EOL PASSWORD m mem data :
  deaf_or_quiet 500 m -> length mem = 255%nat ->
  exists m',
    rfid_read OVR EOL PASSWORD m mem data = (m', data, FALSE) /\
    rfid_error (rfid m') = SOH /\ rfid_data (rfid m') = [] /\ rx_len m' = 0.
Proof.
  intros Hq Hmem. unfold rfid_read. cbv zeta.
  destruct PASSWORD as [password|];
    match goal with
    | |- context [send_cmd OVR EOL ?mx] =>
        destruct (send_cmd_silent OVR EOL mx Hq eq_refl)
          as (m' & Hs & _ & Hr & Hu & _);
        [ unfold usart_clear_rx_buffer, RFID_USART; cbn -[Z.of_nat length memcpy poke];
          rewrite ?length_memcpy, ?length_poke, Hmem; lia
        | rewrite Hs ]
    end;
    (exists (set_rfid m' (set_data (rfid m') [])));
    (split; [reflexivity|]); cbn [rfid set_rfid set_data rfid_error rfid_data];
    (split; [rewrite Hr; reflexivity|]); (split; [reflexivity|]);
    unfold rx_len; cbn [usart1 set_rfid]; rewrite Hu; reflexivity.
Qed.

Lemma rfid_read_no_answer_witness :
  let m := mcu_listening 4 [] in
  exists m',
    rfid_read None None None m (replicate 255 0) [9; 9; 9; 9] = (m', [9; 9; 9; 9], FALSE) /\
    rfid_error (rfid m') = SOH /\ rfid_data (rfid m') = [] /\ rx_len m' = 0.
Proof.
  intros m.
  refine (rfid_read_no_answer None None None m (replicate 255 0) [9; 9; 9; 9] _ _).
  - right. constructor.
  - reflexivity.
Defined.

Lemma command_silent OVR EOL m l op :
  deaf_or_quiet 500 m -> rx_len m = 0 ->
  l <= Z.of_nat (length (rfid_data (rfid m))) ->
  UDR1_tx (command OVR EOL m l op [])
    = UDR1_tx m ++ frame_out l op (take (Z.to_nat l) (rfid_data (rfid m))) /\
  rfid_error (rfid (command OVR EOL m l op [])) = SOH /\
  rfid_status (rfid (command OVR EOL m l op [])) = rfid_status (rfid m).
Proof.
  intros Hq H0 Hl. unfold command. cbv zeta. cbn [length seq zip fold_left].
  match goal with
  | |- context [send_cmd OVR EOL ?mx] =>
      destruct (send_cmd_silent OVR EOL mx Hq H0 Hl) as (m' & Hs & Hsent & Hr & _);
      rewrite Hs
  end.
  cbn [fst]. rewrite Hr. split; [exact Hsent|]. split; reflexivity.
Qed.

Lemma skip_command OVR EOL m l op bytes :
  rfid_error (rfid m) = SOH ->
  (if rfid_error (rfid m) =? 0 then command OVR EOL m l op bytes else m) = m.
Proof. intros ->. reflexivity. Qed.

Lemma keep_error m :
  rfid_error (rfid m) = SOH -> rfid_status (rfid m) <> 0x0101 ->
  (if negb (rfid_error (rfid m) =? 0) && (rfid_status (rfid m) =? 0x0101)
   then set_rfid m (set_error (rfid m) FALSE) else m) = m.
Proof.
  intros He Hst.
  replace (rfid_status (rfid m) =? 257) with false
    by (symmetry; apply Z.eqb_neq; exact Hst).
  rewrite Bool.andb_false_r. reflexivity.
Qed.

(** X23. [rfid_resume] on a reader that does not answer.  When nothing
    arrives for the 501 waits of the bring-up, and the status word left in
    [rfid] by an earlier exchange is not 0x0101, [rfid_resume] sends the
    boot command FF 00 04 1D 0B and nothing after it, returns SOH (1), and
    frees [rfid->data]. *)
Theorem rfid_resume_no_answer OVR EOL LOWTXPWR m mem :
  quiet 501 m -> rfid_status (rfid m) <> 0x0101 ->
  snd (rfid_resume OVR EOL LOWTXPWR m mem) = SOH /\
  UDR1_tx (fst (rfid_resume OVR EOL LOWTXPWR m mem))
    = UDR1_tx m ++ [0xff; 0x00; 0x04; 0x1d; 0x0b] /\
  rfid_data (rfid (fst (rfid_resume OVR EOL LOWTXPWR m mem))) = [].
Proof.
  intros Hq Hst.
  assert (Hq2 : deaf_or_quiet 501
                  (usart_resume RFID_USART_PORT (set_rfid m (set_data (rfid m) mem))))
    by (right; exact Hq).
  pose proof (delay_nothing EOL 500 _ Hq2) as Hd.
  pose proof (deaf_or_quiet_S 500 _ Hq2) as Hq3.
  destruct (command_silent OVR EOL _ 0 0x04 Hq3 eq_refl ltac:(lia)) as (Hs & He & Hs').
  match type of He with
  | rfid_error (rfid ?c) = _ =>
      assert (Hs1 : UDR1_tx c = UDR1_tx m ++ [0xff; 0x00; 0x04; 0x1d; 0x0b]) by exact Hs;
      assert (Hs2 : rfid_status (rfid c) <> 0x0101) by (rewrite Hs'; exact Hst)
  end.
  clear Hs Hs'.
  unfold rfid_resume. cbv zeta. rewrite Hd.
  revert He Hs1 Hs2.
  match goal with
  | |- rfid_error (rfid ?c) = _ -> _ => generalize c
  end.
  intros mc He Hs1 Hs2.
  rewrite (keep_error mc He Hs2).
  rewrite !(skip_command OVR EOL mc) by exact He.
  destruct LOWTXPWR; rewrite ?(skip_command OVR EOL mc) by exact He;
    cbn [fst snd rfid set_rfid set_data rfid_error rfid_data UDR1_tx];
    (split; [exact He|]); (split; [exact Hs1 | reflexivity]).
Qed.

Lemma rfid_resume_no_answer_witness :
  let m := mcu_init [] in
  snd (rfid_resume None None false m (replicate 255 0)) = SOH /\
  UDR1_tx (fst (rfid_resume None None false m (replicate 255 0)))
    = UDR1_tx m ++ [0xff; 0x00; 0x04; 0x1d; 0x0b] /\
  rfid_data (rfid (fst (rfid_resume None None false m (replicate 255 0)))) = [].
Proof.
  intros m. refine (rfid_resume_no_answer None None false m (replicate 255 0) _ _).
  - constructor.
  - vm_compute. discriminate.
Defined.

(** ** The bring-up, command by command *)

Lemma poke_run (bytes : list Z) : forall d,
  (length bytes <= length d)%nat ->
  fold_left (fun d kb => poke d (Z.of_nat (fst kb)) (snd kb))
            (zip (seq 0 (length bytes)) bytes) d
    = bytes ++ drop (length bytes) d.
Proof.
  induction bytes as [|b bytes IH] using rev_ind; intros d Hd; [reflexivity|].
  rewrite length_app in *. cbn [length] in *.
  rewrite Nat.add_1_r, seq_S, zip_with_app by (rewrite length_seq; reflexivity).
  rewrite fold_left_app, IH by lia. cbn [zip_with fold_left fst snd Nat.add].
  destruct (lookup_lt_is_Some_2 d (length bytes) ltac:(lia)) as [y Hy].
  unfold poke. rewrite Nat2Z.id, (drop_S _ _ _ Hy).
  rewrite insert_app_r_alt by lia. rewrite Nat.sub_diag. cbn [insert].
  rewrite <- app_assoc. reflexivity.
Qed.

Lemma reply_frame op st : reply op st = frame_in 0 op st [] (crc_in 0 op st []).
Proof. unfold reply, frame_in, crc_in, word_bytes. cbv zeta. cbn [app]. reflexivity. Qed.

(** One command of the bring-up, answered during the first wait by a frame
    without payload whose checksum is right; eight quiet waits follow while
    the frame is read. *)
Lemma command_exchange OVR EOL m l op bytes rop st lines :
  idle m (exchange rop st ++ lines) ->
  0 <= rop <= 255 -> 0 <= st < 65536 ->
  l = Z.of_nat (length bytes) -> l <= Z.of_nat (length (rfid_data (rfid m))) ->
  let m' := command OVR EOL m l op bytes in
  idle m' lines /\
  UDR1_tx m' = UDR1_tx m ++ frame_out l op bytes /\
  rfid_error (rfid m') = END /\ rfid_status (rfid m') = st /\
  rfid_opcode (rfid m') = rop /\
  length (rfid_data (rfid m')) = length (rfid_data (rfid m)).
Proof.
  intros (Hinv & H0 & Hie & Hcap & Hline) Hrop Hst Hl Hd m'. subst m' l.
  unfold command. cbv zeta.
  cbn [rfid_data set_opcode set_len].
  rewrite poke_run by lia.
  assert (Hcrc : 0 <= crc_in 0 rop st [] < 65536) by (unfold crc_in; apply crc16_range).
  unfold exchange in Hline. rewrite reply_frame in Hline.
  change ((frame_in 0 rop st [] (crc_in 0 rop st []) :: replicate 8 []) ++ lines)
    with (frame_in 0 rop st [] (crc_in 0 rop st []) :: (replicate 8 [] ++ lines)) in Hline.
  match goal with
  | |- context [send_cmd OVR EOL ?mx] =>
      destruct (send_cmd_exchange OVR EOL mx 0 rop st [] (crc_in 0 rop st [])
                  (replicate 8 [] ++ lines) Hinv H0 Hie Hline)
        as (mr & Hs & Hsent & (He & _ & Hop & Hst' & _ & _ & Hdl & _)
               & Hinv' & Hcap' & Hie' & Hline' & Hq);
      [ cbn [length usart1 set_rfid Z.of_nat]; lia | lia | reflexivity | exact Hrop
      | constructor
      | exact Hst | exact Hcrc
      | cbn [rfid set_rfid rfid_len rfid_data set_data set_opcode set_len];
        rewrite length_app, length_drop; lia
      | cbn [rfid set_rfid rfid_len rfid_data set_data set_opcode set_len];
        rewrite length_app, length_drop; lia
      | rewrite Hs ]
  end.
  cbn [fst].
  cbn [rfid set_rfid rfid_len rfid_data rfid_opcode set_data set_opcode set_len
       UDR1_tx usart1 UCSR1B] in Hsent, Hdl, Hcap', Hie'.
  rewrite Z.eqb_refl in He.
  split.
  { split; [exact Hinv'|]. split; [apply Hq; repeat constructor|].
    split; [congruence|]. split; [lia | exact Hline']. }
  split.
  { rewrite Hsent. f_equal. f_equal.
    rewrite Nat2Z.id, take_app_length. reflexivity. }
  split; [exact He|]. split; [exact Hst'|]. split; [exact Hop|].
  rewrite Hdl, length_app, length_drop. lia.
Qed.

Lemma run_command OVR EOL m l op bytes :
  rfid_error (rfid m) = END ->
  (if rfid_error (rfid m) =? 0 then command OVR EOL m l op bytes else m)
    = command OVR EOL m l op bytes.
Proof. intros ->. reflexivity. Qed.

Lemma keep_END m :
  rfid_error (rfid m) = END ->
  (if negb (rfid_error (rfid m) =? 0) && (rfid_status (rfid m) =? 0x0101)
   then set_rfid m (set_error (rfid m) FALSE) else m) = m.
Proof. intros ->. reflexivity. Qed.

(** One more command of [rfid_resume]: its facts, and the machine it leaves
    as a variable. *)
Ltac next_command OVR EOL mc Hi Hd Hs l op bytes rop st mc' Hi' Hd' Hs' He' Hst' :=
  let C := fresh "C" in
  pose proof (command_exchange OVR EOL mc l op bytes rop st _ Hi
                ltac:(lia) ltac:(assumption) eq_refl ltac:(rewrite Hd; simpl; lia)) as C;
  cbv zeta in C;
  rewrite !(run_command OVR EOL mc) by assumption;
  revert C;
  generalize (command OVR EOL mc l op bytes);
  clear Hi;
  intros mc' (Hi' & Hs' & He' & Hst' & _ & Hd');
  rewrite Hs in Hs'; rewrite Hd in Hd'; clear Hs Hd.

(** X24. [rfid_resume] brings the reader up.  On a line with a buffer of
    at least 7 bytes, when nothing arrives during the first wait and the
    reader answers every command during the first wait after it with a
    frame without payload that echoes the opcode and has the right
    checksum, [rfid_resume] sends, in this order, the boot command, the
    region, the tag protocol, the power mode, the read power when the
    build defines [RFID_M5_LOWTXPWR], and the reader configuration; it
    returns 0 whatever status words the replies carry, leaves the status
    word of the last reply in [rfid], frees [rfid->data], and has consumed
    the line up to the end of the last exchange. *)
Theorem rfid_resume_brings_up OVR EOL (LOWTXPWR : bool) m mem s1 s2 s3 s4 s5 s6 rest :
  7 <= capacity (us_rx (usart1 m)) <= 255 ->
  Z.of_nat (length (cb_buffer (us_rx (usart1 m)))) = capacity (us_rx (usart1 m)) ->
  length mem = 255%nat ->
  0 <= s1 < 65536 -> 0 <= s2 < 65536 -> 0 <= s3 < 65536 ->
  0 <= s4 < 65536 -> 0 <= s5 < 65536 -> 0 <= s6 < 65536 ->
  line1 m = [] :: exchange 0x04 s1 ++ exchange 0x97 s2 ++ exchange 0x93 s3
               ++ exchange 0x98 s4
               ++ (if LOWTXPWR then exchange 0x92 s5 else [])
               ++ exchange 0x9a s6 ++ rest ->
  snd (rfid_resume OVR EOL LOWTXPWR m mem) = 0 /\
  UDR1_tx (fst (rfid_resume OVR EOL LOWTXPWR m mem))
    = UDR1_tx m ++ frame_out 0 0x04 [] ++ frame_out 1 0x97 [0x02]
      ++ frame_out 2 0x93 [0; 0x05] ++ frame_out 1 0x98 [0x03]
      ++ (if LOWTXPWR then frame_out 2 0x92 [RFID_M5_TX_RDBM_H; RFID_M5_TX_RDBM_L] else [])
      ++ frame_out 3 0x9a [0x01; 0x02; 0x01] /\
  rfid_status (rfid (fst (rfid_resume OVR EOL LOWTXPWR m mem))) = s6 /\
  rfid_data (rfid (fst (rfid_resume OVR EOL LOWTXPWR m mem))) = [] /\
  line1 (fst (rfid_resume OVR EOL LOWTXPWR m mem)) = rest.
Proof.
  intros HC Hb Hmem H1 H2 H3 H4 H5 H6 Hline.
  assert (Hq : deaf_or_quiet 1
                 (usart_resume RFID_USART_PORT (set_rfid m (set_data (rfid m) mem)))).
  { right. unfold quiet.
    change (line1 (usart_resume RFID_USART_PORT (set_rfid m (set_data (rfid m) mem))))
      with (line1 m).
    rewrite Hline. repeat constructor. }
  pose proof (delay_nothing EOL 0 _ Hq) as Hd.
  assert (Hidle : idle (set_line1 (usart_resume RFID_USART_PORT
                                     (set_rfid m (set_data (rfid m) mem)))
                          (tail (line1 (usart_resume RFID_USART_PORT
                                         (set_rfid m (set_data (rfid m) mem))))))
                    (exchange 0x04 s1 ++ exchange 0x97 s2 ++ exchange 0x93 s3
                     ++ exchange 0x98 s4
                     ++ (if LOWTXPWR then exchange 0x92 s5 else [])
                     ++ exchange 0x9a s6 ++ rest)).
  { assert (HC1 : 1 <= capacity (us_rx (usart1 m)) <= 255) by lia.
    split; [exact (clear_inv (us_rx (usart1 m)) HC1 Hb)|]. split; [reflexivity|].
    split; [reflexivity|]. split; [exact (proj1 HC)|].
    change (tail (line1 m) = exchange 0x04 s1 ++ exchange 0x97 s2 ++ exchange 0x93 s3
               ++ exchange 0x98 s4
               ++ (if LOWTXPWR then exchange 0x92 s5 else [])
               ++ exchange 0x9a s6 ++ rest).
    rewrite Hline. reflexivity. }
  assert (Hdata : length (rfid_data (rfid (set_line1 (usart_resume RFID_USART_PORT
                                     (set_rfid m (set_data (rfid m) mem)))
                          (tail (line1 (usart_resume RFID_USART_PORT
                                         (set_rfid m (set_data (rfid m) mem)))))))) = 255%nat)
    by exact Hmem.
  assert (Hsent : UDR1_tx (set_line1 (usart_resume RFID_USART_PORT
                                     (set_rfid m (set_data (rfid m) mem)))
                          (tail (line1 (usart_resume RFID_USART_PORT
                                         (set_rfid m (set_data (rfid m) mem))))))
                  = UDR1_tx m) by reflexivity.
  unfold rfid_resume. cbv zeta. rewrite Hd. clear Hd Hq.
  revert Hidle Hdata Hsent.
  generalize (set_line1 (usart_resume RFID_USART_PORT
                                     (set_rfid m (set_data (rfid m) mem)))
                          (tail (line1 (usart_resume RFID_USART_PORT
                                         (set_rfid m (set_data (rfid m) mem)))))).
  intros mc Hidle Hdata Hsent.
  pose proof (command_exchange OVR EOL mc 0 4 [] 4 s1 _ Hidle
                ltac:(lia) ltac:(assumption) eq_refl ltac:(rewrite Hdata; simpl; lia)) as C.
  cbv zeta in C. revert C. generalize (command OVR EOL mc 0 4 []).
  clear Hidle. intros mc1 (Hidle1 & Hsent1 & He1 & Hst1 & _ & Hdata1).
  rewrite Hsent in Hsent1. rewrite Hdata in Hdata1. clear Hsent Hdata.
  rewrite (keep_END mc1 He1).
  next_command OVR EOL mc1 Hidle1 Hdata1 Hsent1 1 0x97 [0x02] 0x97 s2
               mc2 Hidle2 Hdata2 Hsent2 He2 Hst2.
  next_command OVR EOL mc2 Hidle2 Hdata2 Hsent2 2 0x93 [0; 0x05] 0x93 s3
               mc3 Hidle3 Hdata3 Hsent3 He3 Hst3.
  next_command OVR EOL mc3 Hidle3 Hdata3 Hsent3 1 0x98 [0x03] 0x98 s4
               mc4 Hidle4 Hdata4 Hsent4 He4 Hst4.
  destruct LOWTXPWR.
  - next_command OVR EOL mc4 Hidle4 Hdata4 Hsent4
                 2 0x92 [RFID_M5_TX_RDBM_H; RFID_M5_TX_RDBM_L] 0x92 s5
                 mc5 Hidle5 Hdata5 Hsent5 He5 Hst5.
    next_command OVR EOL mc5 Hidle5 Hdata5 Hsent5 3 0x9a [0x01; 0x02; 0x01] 0x9a s6
                 mc6 Hidle6 Hdata6 Hsent6 He6 Hst6.
    cbn [fst snd rfid set_rfid set_data rfid_error rfid_data rfid_status UDR1_tx line1].
    destruct Hidle6 as (_ & _ & _ & _ & Hl).
    rewrite <- !app_assoc in Hsent6.
    split; [exact He6|]. split; [exact Hsent6|]. split; [exact Hst6|].
    split; [reflexivity | exact Hl].
  - cbn [app] in Hidle4.
    next_command OVR EOL mc4 Hidle4 Hdata4 Hsent4 3 0x9a [0x01; 0x02; 0x01] 0x9a s6
                 mc6 Hidle6 Hdata6 Hsent6 He6 Hst6.
    cbn [fst snd rfid set_rfid set_data rfid_error rfid_data rfid_status UDR1_tx line1].
    destruct Hidle6 as (_ & _ & _ & _ & Hl).
    rewrite <- !app_assoc in Hsent6.
    split; [exact He6|]. split; [exact Hsent6|]. split; [exact Hst6|].
    split; [reflexivity | exact Hl].
Qed.

Lemma rfid_resume_brings_up_witness :
  let m := mcu_init (bring_up_lines 0x0400 ++ [[0x55]]) in
  snd (rfid_resume None None false m (replicate 255 0)) = 0 /\
  UDR1_tx (fst (rfid_resume None None false m (replicate 255 0)))
    = UDR1_tx m ++ frame_out 0 0x04 [] ++ frame_out 1 0x97 [0x02]
      ++ frame_out 2 0x93 [0; 0x05] ++ frame_out 1 0x98 [0x03]
      ++ (if false then frame_out 2 0x92 [RFID_M5_TX_RDBM_H; RFID_M5_TX_RDBM_L] else [])
      ++ frame_out 3 0x9a [0x01; 0x02; 0x01] /\
  rfid_status (rfid (fst (rfid_resume None None false m (replicate 255 0)))) = 0 /\
  rfid_data (rfid (fst (rfid_resume None None false m (replicate 255 0)))) = [] /\
  line1 (fst (rfid_resume None None false m (replicate 255 0))) = [[0x55]].
Proof.
  intros m.
  refine (rfid_resume_brings_up None None false m (replicate 255 0)
            0x0400 0 0 0 0 0 [[0x55]] _ _ _ _ _ _ _ _ _ _).
  - vm_compute. split; discriminate.
  - reflexivity.
  - reflexivity.
  - lia.
  - lia.
  - lia.
  - lia.
  - lia.
  - lia.
  - reflexivity.
Defined.

(** * [send_cmd]: what success takes *)

Lemma rx_len_backlog m :
  inv (us_rx (usart1 m)) ->
  rx_len m = Z.of_nat (length (backlog (us_rx (usart1 m)))).
Proof.
  intros [(_ & _ & _ & Hl & _) _]. rewrite length_backlog. unfold rx_len. lia.
Qed.

Lemma poll_spec OVR m old :
  inv (us_rx (usart1 m)) ->
  exists m' b,
    get_byte OVR m old = (m', b, Z.min (rx_len m) 1) /\
    rfid m' = rfid m /\ inv (us_rx (usart1 m')) /\
    rx_len m' = rx_len m - Z.min (rx_len m) 1 /\
    line1 m' = line1 m /\ 0 <= rx_len m.
Proof.
  intros Hinv.
  destruct (get_byte_spec OVR m old Hinv) as (m' & b & Hg & Hr & Hinv' & Hl).
  exists m', b. split; [exact Hg|]. split; [exact Hr|]. split; [exact Hinv'|].
  split; [exact Hl|].
  split; [|rewrite (rx_len_backlog m Hinv); lia].
  apply (f_equal (fun p => line1 (fst (fst p)))) in Hg. cbn [fst] in Hg. rewrite <- Hg.
  unfold get_byte, usart_get. simpl negb. cbv iota.
  destruct (cbuffer_pop OVR (us_rx (usart1 m)) [old] 1) as [[c s'] ok]. reflexivity.
Qed.

Lemma rx_case_STATUS_need OVR m i :
  inv (us_rx (usart1 m)) -> 0 <= i ->
  exists m' i',
    rx_case_STATUS OVR m i = (m', i', false) /\
    inv (us_rx (usart1 m')) /\ 0 <= i' /\ line1 m' = line1 m /\
    rfid_len (rfid m') = rfid_len (rfid m) /\
    ((i < 2 /\ rfid_error (rfid m') = rfid_error (rfid m) /\
      i' = i + Z.min (rx_len m) 1 /\ rx_len m' = rx_len m - Z.min (rx_len m) 1 /\
      0 <= rx_len m) \/
     (2 <= i /\ rfid_error (rfid m') = DATA /\ i' = 0 /\ rx_len m' = rx_len m)).
Proof.
  intros Hinv Hi. unfold rx_case_STATUS.
  destruct (Z.ltb_spec i 2) as [Hlt|Hge].
  - destruct (poll_spec OVR m (byte_at (rfid_status (rfid m)) (1 - i)) Hinv)
      as (m1 & b & Hg & Hr & Hinv1 & Hl1 & Hline & H0).
    rewrite Hg. eexists _, _. split; [reflexivity|].
    cbn [usart1 set_rfid line1 rfid rfid_len rfid_error set_status].
    rewrite Hr. split; [exact Hinv1|].
    assert (Hok : Z.min (rx_len m) 1 = 0 \/ Z.min (rx_len m) 1 = 1) by lia.
    destruct Hok as [E|E]; rewrite E in *; cbn [Z.eqb negb];
      rewrite ?(u8_small (i + 1)) by lia;
      (split; [lia|]); (split; [exact Hline|]); (split; [reflexivity|]);
      left; unfold rx_len in *; cbn [usart1 set_rfid]; repeat split; lia.
  - eexists _, _. split; [reflexivity|].
    cbn [usart1 set_rfid line1 rfid rfid_len rfid_error set_error].
    split; [exact Hinv|]. split; [lia|]. split; [reflexivity|]. split; [reflexivity|].
    right. repeat split; lia.
Qed.

Ltac need_of E :=
  unfold bytes_needed; cbn [rfid set_rfid rfid_error rfid_len set_soh set_len
    set_opcode set_status set_data set_crc set_error];
  rewrite ?E;
  cbn [Z.eqb Pos.eqb SOH LEN CMD STATUS DATA CRC END].

Lemma rx_switch_need OVR m i :
  inv (us_rx (usart1 m)) -> 0 <= i -> rfid_error (rfid m) <> END ->
  exists m' i' last,
    rx_switch OVR m i = (m', i', last) /\
    inv (us_rx (usart1 m')) /\ 0 <= i' /\ line1 m' = line1 m /\
    (if last
     then rfid_error (rfid m') = END ->
          bytes_needed (rfid m) i = 0 /\ m5_crc (rfid m') TRUE = rfid_crc (rfid m')
     else rfid_error (rfid m') <> END /\
          bytes_needed (rfid m) i <= bytes_needed (rfid m') i' + (rx_len m - rx_len m')).
Proof.
  intros Hinv Hi He. unfold rx_switch. cbv zeta.
  destruct (Z.eqb_spec (rfid_error (rfid m)) SOH) as [E1|E1].
  { destruct (poll_spec OVR m (rfid_soh (rfid m)) Hinv)
      as (m1 & b & Hg & Hr & Hinv1 & Hl1 & Hline & H0).
    rewrite Hg. cbn [rfid set_rfid rfid_soh set_soh].
    assert (Hb : bytes_needed (rfid m) i = if i <? 2 then 7 else 4)
      by (unfold bytes_needed; rewrite E1; reflexivity).
    rewrite Hb.
    assert (Hok : Z.min (rx_len m) 1 = 0 \/ Z.min (rx_len m) 1 = 1) by lia.
    destruct Hok as [E|E]; rewrite E in *; cbn [Z.eqb negb andb];
      [|destruct (b =? 255)];
      eexists _, _, _; (split; [reflexivity|]);
      cbn [usart1 set_rfid line1 rfid];
      (split; [exact Hinv1|]); (split; [exact Hi|]); (split; [exact Hline|]);
      unfold bytes_needed, rx_len in *;
      cbn [rfid_error rfid_len set_soh set_error usart1 set_rfid];
      rewrite ?Hr, ?E1; cbn [Z.eqb Pos.eqb SOH LEN END];
      (split; [discriminate|]); destruct (i <? 2); lia. }
  destruct (Z.eqb_spec (rfid_error (rfid m)) LEN) as [E2|E2].
  { destruct (poll_spec OVR m (rfid_len (rfid m)) Hinv)
      as (m1 & b & Hg & Hr & Hinv1 & Hl1 & Hline & H0).
    rewrite Hg. cbn [rfid set_rfid rfid_len set_len].
    assert (Hb : bytes_needed (rfid m) i = if i <? 2 then 6 else 3)
      by (unfold bytes_needed; rewrite E2; reflexivity).
    rewrite Hb.
    assert (Hok : Z.min (rx_len m) 1 = 0 \/ Z.min (rx_len m) 1 = 1) by lia.
    destruct Hok as [E|E]; rewrite E in *; cbn [Z.eqb negb];
      eexists _, _, _; (split; [reflexivity|]);
      cbn [usart1 set_rfid line1 rfid];
      (split; [exact Hinv1|]); (split; [exact Hi|]); (split; [exact Hline|]);
      unfold bytes_needed, rx_len in *;
      cbn [rfid_error rfid_len set_len set_error usart1 set_rfid];
      rewrite ?Hr, ?E2; cbn [Z.eqb Pos.eqb SOH LEN CMD END];
      (split; [discriminate|]); destruct (i <? 2); lia. }
  destruct (Z.eqb_spec (rfid_error (rfid m)) CMD) as [E3|E3].
  { destruct (poll_spec OVR m (rfid_opcode (rfid m)) Hinv)
      as (m1 & b & Hg & Hr & Hinv1 & Hl1 & Hline & H0).
    rewrite Hg. cbn [rfid set_rfid rfid_opcode set_opcode].
    assert (Hb : bytes_needed (rfid m) i
                 = if i <? 2 then 5 + Z.max 0 (rfid_len (rfid m))
                   else 2 + Z.max 0 (rfid_len (rfid m)))
      by (unfold bytes_needed; rewrite E3; reflexivity).
    rewrite Hb.
    assert (Hok : Z.min (rx_len m) 1 = 0 \/ Z.min (rx_len m) 1 = 1) by lia.
    destruct Hok as [E|E]; rewrite E in *; cbn [Z.eqb negb].
    - destruct (rx_case_STATUS_need OVR (set_rfid m1 (set_opcode (rfid m1) b)) i
                  Hinv1 Hi)
        as (m3 & i3 & Hs & Hinv3 & Hi3 & Hline3 & Hlen3 & Hcase).
      rewrite Hs. exists m3, i3, false. split; [reflexivity|].
      split; [exact Hinv3|]. split; [exact Hi3|].
      split; [cbn [line1 set_rfid] in Hline3; congruence|].
      cbn [rfid set_rfid rfid_len rfid_error set_opcode] in Hlen3, Hcase.
      unfold rx_len in *. cbn [usart1 set_rfid] in Hcase.
      rewrite Hr in *.
      destruct Hcase as [(Hlt & He3 & Hi3' & Hl3 & _)|(Hge & He3 & Hi3' & Hl3)];
        unfold bytes_needed; rewrite He3, Hlen3, ?E3;
        cbn [Z.eqb Pos.eqb SOH LEN CMD STATUS DATA END];
        (split; [discriminate|]);
        destruct (Z.ltb_spec i 2); destruct (Z.ltb_spec i3 2); lia.
    - destruct (rx_case_STATUS_need OVR
                  (set_rfid (set_rfid m1 (set_opcode (rfid m1) b))
                            (set_error (set_opcode (rfid m1) b) STATUS)) 0
                  Hinv1 ltac:(lia))
        as (m3 & i3 & Hs & Hinv3 & Hi3 & Hline3 & Hlen3 & Hcase).
      rewrite Hs. exists m3, i3, false. split; [reflexivity|].
      split; [exact Hinv3|]. split; [exact Hi3|].
      split; [cbn [line1 set_rfid] in Hline3; congruence|].
      cbn [rfid set_rfid rfid_len rfid_error set_opcode set_error] in Hlen3, Hcase.
      unfold rx_len in *. cbn [usart1 set_rfid] in Hcase.
      rewrite Hr in *.
      destruct Hcase as [(Hlt & He3 & Hi3' & Hl3 & _)|(Hge & He3 & Hi3' & Hl3)];
        [|lia].
      unfold bytes_needed; rewrite He3, Hlen3;
        cbn [Z.eqb Pos.eqb SOH LEN CMD STATUS DATA END];
        (split; [discriminate|]);
        destruct (Z.ltb_spec i 2); destruct (Z.ltb_spec i3 2); lia. }
  destruct (Z.eqb_spec (rfid_error (rfid m)) STATUS) as [E4|E4].
  { destruct (rx_case_STATUS_need OVR m i Hinv Hi)
      as (m3 & i3 & Hs & Hinv3 & Hi3 & Hline3 & Hlen3 & Hcase).
    rewrite Hs. exists m3, i3, false. split; [reflexivity|].
    split; [exact Hinv3|]. split; [exact Hi3|]. split; [exact Hline3|].
    destruct Hcase as [(Hlt & He3 & Hi3' & Hl3 & H0)|(Hge & He3 & Hi3' & Hl3)];
      unfold bytes_needed; rewrite He3, Hlen3, ?E4;
      cbn [Z.eqb Pos.eqb SOH LEN CMD STATUS DATA END];
      (split; [discriminate|]);
      destruct (Z.ltb_spec i 2); destruct (Z.ltb_spec i3 2); lia. }
  destruct (Z.eqb_spec (rfid_error (rfid m)) DATA) as [E5|E5].
  { assert (Hb : bytes_needed (rfid m) i = Z.max 0 (rfid_len (rfid m) - i) + 2)
      by (unfold bytes_needed; rewrite E5; reflexivity).
    rewrite Hb.
    destruct (Z.ltb_spec i (rfid_len (rfid m))) as [Hlt|Hge].
    - destruct (poll_spec OVR m (peek (rfid_data (rfid m)) i) Hinv)
        as (m1 & b & Hg & Hr & Hinv1 & Hl1 & Hline & H0).
      rewrite Hg. eexists _, _, _. split; [reflexivity|].
      cbn [usart1 set_rfid line1 rfid].
      split; [exact Hinv1|].
      assert (Hu : 0 <= u8 (i + 1) <= i + 1).
      { unfold u8. split; [apply Z.mod_pos_bound; lia | apply Z.mod_le; lia]. }
      assert (Hok : Z.min (rx_len m) 1 = 0 \/ Z.min (rx_len m) 1 = 1) by lia.
      destruct Hok as [E|E]; rewrite E in *; cbn [Z.eqb negb];
        (split; [lia|]); (split; [exact Hline|]);
        unfold bytes_needed, rx_len in *;
        cbn [rfid_error rfid_len set_data usart1 set_rfid];
        rewrite ?Hr, ?E5; cbn [Z.eqb Pos.eqb SOH LEN CMD STATUS DATA END];
        (split; [discriminate|]); lia.
    - eexists _, _, _. split; [reflexivity|].
      cbn [usart1 set_rfid line1 rfid].
      split; [exact Hinv|]. split; [lia|]. split; [reflexivity|].
      unfold bytes_needed, rx_len.
      cbn [rfid_error rfid_len set_error usart1 set_rfid Z.eqb Pos.eqb
           SOH LEN CMD STATUS DATA CRC END Z.ltb Z.compare].
      split; [discriminate|]. lia. }
  destruct (Z.eqb_spec (rfid_error (rfid m)) CRC) as [E6|E6].
  { assert (Hb : bytes_needed (rfid m) i = if i <? 2 then 2 - i else 0)
      by (unfold bytes_needed; rewrite E6; reflexivity).
    rewrite Hb.
    destruct (Z.ltb_spec i 2) as [Hlt|Hge].
    - destruct (poll_spec OVR m (byte_at (rfid_crc (rfid m)) (1 - i)) Hinv)
        as (m1 & b & Hg & Hr & Hinv1 & Hl1 & Hline & H0).
      rewrite Hg. eexists _, _, _. split; [reflexivity|].
      cbn [usart1 set_rfid line1 rfid].
      split; [exact Hinv1|].
      assert (Hok : Z.min (rx_len m) 1 = 0 \/ Z.min (rx_len m) 1 = 1) by lia.
      destruct Hok as [E|E]; rewrite E in *; cbn [Z.eqb negb];
        rewrite ?(u8_small (i + 1)) by lia;
        (split; [lia|]); (split; [exact Hline|]);
        unfold bytes_needed, rx_len in *;
        cbn [rfid_error rfid_len set_crc usart1 set_rfid];
        rewrite ?Hr, ?E6; cbn [Z.eqb Pos.eqb SOH LEN CMD STATUS DATA CRC END];
        (split; [discriminate|]);
        destruct (Z.ltb_spec i 2); destruct (Z.ltb_spec (i + 1) 2); lia.
    - destruct (Z.eqb_spec (m5_crc (rfid m) TRUE) (rfid_crc (rfid m))) as [Ec|Ec];
        eexists _, _, _; (split; [reflexivity|]);
        cbn [usart1 set_rfid line1 rfid];
        (split; [exact Hinv|]); (split; [exact Hi|]); (split; [reflexivity|]).
      + intros _. split; [reflexivity|]. exact Ec.
      + intros Hend. congruence. }
  exists m, i, true. split; [reflexivity|]. split; [exact Hinv|].
  split; [exact Hi|]. split; [reflexivity|]. intros Hend. congruence.
Qed.

Lemma arrivals_nonneg n m : 0 <= arrivals n m.
Proof. unfold arrivals. lia. Qed.

(** One wait brings at most the bytes that arrive during it. *)
Lemma delay_count EOL n m :
  inv (us_rx (usart1 m)) ->
  inv (us_rx (usart1 (delay_ms EOL m))) /\
  rfid (delay_ms EOL m) = rfid m /\
  rx_len (delay_ms EOL m) + arrivals n (delay_ms EOL m)
    <= rx_len m + arrivals (S n) m.
Proof.
  intros Hinv.
  destruct (delay_spec EOL m) as (Hr & _ & Hrx).
  destruct (Hrx Hinv) as (Hinv' & _).
  split; [exact Hinv'|]. split; [exact Hr|].
  unfold arrivals. rewrite delay_line1.
  rewrite (rx_len_backlog _ Hinv'), (rx_len_backlog _ Hinv).
  unfold delay_ms. destruct (line1 m) as [|bytes rest] eqn:Hline.
  { cbn [tail take]. rewrite take_nil. lia. }
  cbn [tail take concat UCSR1B set_line1]. rewrite length_app.
  destruct (Z.testbit (UCSR1B m) 7).
  - destruct (isr1_run EOL bytes (set_line1 m rest)) as (H1 & _).
    rewrite H1, rx_isr_run_rx. cbn [usart1 set_line1].
    destruct (push_all_room (us_rx (usart1 m)) bytes Hinv) as (cb' & Hp & Hb & _).
    rewrite Hp. cbn [fst]. rewrite Hb, length_app, length_take, length_fmap. lia.
  - cbn [usart1 set_line1]. lia.
Qed.

(** The stage END is reached only by the checksum test, after the bytes
    that the stages still ahead need have come in. *)
Lemma rx_loop_need OVR EOL : forall n m i,
  inv (us_rx (usart1 m)) -> 0 <= i -> rfid_error (rfid m) <> END ->
  rfid_error (rfid (rx_loop OVR EOL n m i)) = END ->
  bytes_needed (rfid m) i <= rx_len m + arrivals n m /\
  m5_crc (rfid (rx_loop OVR EOL n m i)) TRUE = rfid_crc (rfid (rx_loop OVR EOL n m i)).
Proof.
  induction n as [|n IH]; intros m i Hinv Hi He Hend; [cbn in Hend; congruence|].
  destruct (delay_count EOL n m Hinv) as (Hinv1 & Hr1 & Hcount).
  destruct (rx_switch_need OVR (delay_ms EOL m) i Hinv1 Hi ltac:(congruence))
    as (m2 & i2 & last & Hs & Hinv2 & Hi2 & Hline2 & Hcase).
  cbn [rx_loop] in *. rewrite Hs in *. rewrite Hr1 in Hcase.
  assert (Ha : arrivals n m2 = arrivals n (delay_ms EOL m))
    by (unfold arrivals; rewrite Hline2; reflexivity).
  pose proof (arrivals_nonneg n (delay_ms EOL m)) as Hnn.
  assert (H0 : 0 <= rx_len (delay_ms EOL m))
    by (rewrite (rx_len_backlog _ Hinv1); lia).
  destruct last.
  - destruct (Hcase Hend) as [Hz Hc]. split; [lia | exact Hc].
  - destruct Hcase as [He2 Hle].
    destruct (IH m2 i2 Hinv2 Hi2 He2 Hend) as [Hn Hc].
    split; [lia | exact Hc].
Qed.

Lemma putchar_fold_sent (f : nat -> Z) (l : list nat) : forall m,
  only_sent m (fold_left (fun m i => usart_putchar RFID_USART m (f i)) l m) (map f l).
Proof.
  induction l as [|k l IH]; intros m; [apply only_sent_refl|].
  cbn [fold_left map].
  exact (only_sent_trans _ _ _ [f k] (map f l) (putchar_only_sent m (f k)) (IH _)).
Qed.

(** Sending touches the transmit side only, whatever [rfid] holds. *)
Lemma tx_pkt_keeps m :
  usart1 (tx_pkt m) = usart1 m /\ line1 (tx_pkt m) = line1 m /\
  rfid (tx_pkt m) = rfid m /\ UCSR1B (tx_pkt m) = UCSR1B m.
Proof.
  assert (H : exists bytes, only_sent m (tx_pkt m) bytes).
  { unfold tx_pkt. cbv zeta. eexists.
    eapply only_sent_trans; [apply putchar_only_sent|].
    eapply only_sent_trans; [apply putchar_only_sent|].
    eapply only_sent_trans; [apply putchar_only_sent|].
    eapply only_sent_trans;
      [apply (putchar_fold_sent (fun i => peek (rfid_data (rfid m)) (Z.of_nat i)))|].
    eapply only_sent_trans; [apply putchar_only_sent|].
    apply putchar_only_sent. }
  destruct H as (bytes & _ & _ & _ & H1 & H2 & _ & H3 & H4). auto.
Qed.

Lemma rx_pkt_END OVR EOL m timeout :
  inv (us_rx (usart1 m)) ->
  rfid_error (rfid (fst (rx_pkt OVR EOL m timeout))) = END ->
  7 <= rx_len m + arrivals (Z.to_nat (u16 timeout)) m /\
  m5_crc (rfid (fst (rx_pkt OVR EOL m timeout))) TRUE
    = rfid_crc (rfid (fst (rx_pkt OVR EOL m timeout))).
Proof.
  intros Hinv. unfold rx_pkt. cbv zeta. cbn [fst]. intros Hend.
  exact (rx_loop_need OVR EOL (Z.to_nat (u16 timeout))
           (set_rfid m (set_error (rfid m) SOH)) 0 Hinv ltac:(lia)
           ltac:(discriminate) Hend).
Qed.

Lemma send_cmd_verdict OVR EOL m :
  (snd (send_cmd OVR EOL m) = TRUE <->
     rfid_error (rfid (fst (send_cmd OVR EOL m))) = END /\
     rfid_opcode (rfid (fst (send_cmd OVR EOL m))) = rfid_opcode (rfid m) /\
     rfid_status (rfid (fst (send_cmd OVR EOL m))) = 0) /\
  (snd (send_cmd OVR EOL m) <> TRUE -> snd (send_cmd OVR EOL m) = FALSE).
Proof.
  unfold send_cmd. cbv zeta.
  match goal with
  | |- context [rx_pkt OVR EOL ?m0 500] =>
      generalize (fst (rx_pkt OVR EOL m0 500)); intros mr
  end.
  destruct (Z.eqb_spec (rfid_error (rfid mr)) 0) as [He|He];
    destruct (Z.eqb_spec (rfid_opcode (rfid mr)) (rfid_opcode (rfid m))) as [Ho|Ho];
    destruct (Z.eqb_spec (rfid_status (rfid mr)) 0) as [Hs|Hs];
    cbn [fst snd andb]; unfold TRUE, FALSE, END;
    (split; [split; [intros; try discriminate; auto | intros (? & ? & ?); congruence]
            | intros; congruence]).
Qed.

Lemma send_cmd_END OVR EOL m :
  inv (us_rx (usart1 m)) ->
  rfid_error (rfid (fst (send_cmd OVR EOL m))) = END ->
  7 <= rx_len m + arrivals 500 m /\
  m5_crc (rfid (fst (send_cmd OVR EOL m))) TRUE
    = rfid_crc (rfid (fst (send_cmd OVR EOL m))).
Proof.
  intros Hinv.
  pose proof (send_cmd_unfold OVR EOL m) as U. cbv zeta in U.
  remember (set_rfid m (set_crc (set_soh (rfid m) 255)
                                (m5_crc (set_soh (rfid m) 255) FALSE))) as m2 eqn:Em2.
  assert (A : usart1 m2 = usart1 m /\ line1 m2 = line1 m)
    by (rewrite Em2; split; reflexivity).
  clear Em2. destruct A as (A1 & A2).
  destruct (tx_pkt_keeps m2) as (S1 & S2 & _).
  remember (tx_pkt m2) as mt eqn:Emt. clear Emt.
  assert (Hinvt : inv (us_rx (usart1 mt))) by (rewrite S1, A1; exact Hinv).
  pose proof (rx_pkt_END OVR EOL mt 500 Hinvt) as R.
  change (Z.to_nat (u16 500)) with 500%nat in R.
  assert (Hl : rx_len mt = rx_len m) by (unfold rx_len; rewrite S1, A1; reflexivity).
  assert (Ha : arrivals 500 mt = arrivals 500 m)
    by (unfold arrivals; rewrite S2, A2; reflexivity).
  rewrite Hl, Ha in R.
  remember (rx_pkt OVR EOL mt 500) as p eqn:Ep. clear Ep.
  rewrite U. cbn [fst]. exact R.
Qed.

Lemma send_cmd_quiet OVR EOL m :
  rx_len m = 0 -> deaf_or_quiet 500 m ->
  snd (send_cmd OVR EOL m) = FALSE /\
  rfid_error (rfid (fst (send_cmd OVR EOL m))) = SOH.
Proof.
  intros H0 Hq.
  pose proof (send_cmd_unfold OVR EOL m) as U. cbv zeta in U.
  remember (set_rfid m (set_crc (set_soh (rfid m) 255)
                                (m5_crc (set_soh (rfid m) 255) FALSE))) as m2 eqn:Em2.
  assert (A : usart1 m2 = usart1 m /\ line1 m2 = line1 m /\ UCSR1B m2 = UCSR1B m)
    by (rewrite Em2; repeat split; reflexivity).
  clear Em2. destruct A as (A1 & A2 & A3).
  destruct (tx_pkt_keeps m2) as (S1 & S2 & _ & S4).
  remember (tx_pkt m2) as mt eqn:Emt. clear Emt.
  assert (Hrx := rx_pkt_silent OVR EOL mt 500).
  change (Z.to_nat (u16 500)) with 500%nat in Hrx.
  rewrite Hrx in U;
    [| destruct Hq as [Hq|Hq];
       [left; rewrite S4, A3; exact Hq | right; unfold quiet; rewrite S2, A2; exact Hq]
     | unfold rx_len; rewrite S1, A1; exact H0].
  rewrite U. cbn [fst snd rfid set_line1 set_rfid rfid_error set_error].
  split; reflexivity.
Qed.

(** C3. [send_cmd] returns TRUE exactly when, after the exchange, the
    receive state machine stands at [END], the opcode in [rfid] is the one
    that was sent and the status word is zero; in every other case it
    returns FALSE.  The exchange is the one [send_cmd] has just made:
    [rx_pkt] starts again from [SOH], and on a line whose buffer is
    consistent it reaches [END] only through its checksum test, which the
    frame it stored passes, and only when the seven bytes a frame has at
    least were in the buffer or arrived within the 500 waits.  So a
    reader that stays silent, with nothing buffered, gives FALSE with
    [rfid->error] at [SOH]; and a reply frame that arrives whole during
    the first wait gives TRUE exactly when its checksum is right, its
    opcode is the one sent and its status word is zero: a wrong checksum
    leaves [rfid->error] at [CRC], a differing opcode or a status word
    other than zero gives FALSE although [END] was reached. *)
Theorem send_cmd_success OVR EOL m :
  let cmd := rfid_opcode (rfid m) in
  let m' := fst (send_cmd OVR EOL m) in
  let ok := snd (send_cmd OVR EOL m) in
  (ok = TRUE <->
     rfid_error (rfid m') = END /\
     rfid_opcode (rfid m') = cmd /\
     rfid_status (rfid m') = 0) /\
  (ok <> TRUE -> ok = FALSE) /\
  (inv (us_rx (usart1 m)) -> rfid_error (rfid m') = END ->
     7 <= rx_len m + arrivals 500 m /\
     m5_crc (rfid m') TRUE = rfid_crc (rfid m')) /\
  (rx_len m = 0 -> deaf_or_quiet 500 m ->
     ok = FALSE /\ rfid_error (rfid m') = SOH) /\
  (forall len op st payload crc later,
     inv (us_rx (usart1 m)) -> rx_len m = 0 -> Z.testbit (UCSR1B m) 7 = true ->
     line1 m = frame_in len op st payload crc :: later ->
     Z.of_nat (length payload) + 7 <= capacity (us_rx (usart1 m)) ->
     0 <= len <= 255 -> Z.of_nat (length payload) = len ->
     0 <= op <= 255 -> Forall (fun b => 0 <= b <= 255) payload ->
     0 <= st < 65536 -> 0 <= crc < 65536 ->
     rfid_len (rfid m) <= Z.of_nat (length (rfid_data (rfid m))) ->
     len <= Z.of_nat (length (rfid_data (rfid m))) ->
     ok = (if (crc_in len op st payload =? crc) && (op =? cmd) && (st =? 0)
           then TRUE else FALSE) /\
     rfid_error (rfid m') = (if crc_in len op st payload =? crc then END else CRC) /\
     rfid_opcode (rfid m') = op /\ rfid_status (rfid m') = st).
Proof.
  intros cmd m' ok. subst cmd m' ok.
  destruct (send_cmd_verdict OVR EOL m) as [V1 V2].
  split; [exact V1|]. split; [exact V2|].
  split; [exact (send_cmd_END OVR EOL m)|].
  split; [exact (send_cmd_quiet OVR EOL m)|].
  intros len op st payload crc later Hinv H0 Hie Hline Hroom Hlen Hpl Hop Hpay Hst Hcrc
         Hout Hin.
  destruct (send_cmd_exchange OVR EOL m len op st payload crc later
              Hinv H0 Hie Hline Hroom Hlen Hpl Hop Hpay Hst Hcrc Hout Hin)
    as (mx & Hs & _ & (He & _ & Ho & Hst' & _) & _).
  rewrite Hs. cbn [fst snd]. auto.
Qed.

Lemma send_cmd_success_witness :
  let quiet_m := set_rfid (mcu_listening 16 [])
                   (Rfid 16 1 (replicate 255 0) 0 0 0x21 0 0 0) in
  let m := set_rfid (mcu_listening 16 [frame_in 2 0x21 0x0400 [0xab; 0xcd] 13703])
             (Rfid 16 1 (replicate 255 0) 0 0 0x21 0 0 0) in
  (snd (send_cmd None None quiet_m) = FALSE /\
   rfid_error (rfid (fst (send_cmd None None quiet_m))) = SOH) /\
  (snd (send_cmd None None m)
     = (if (crc_in 2 0x21 0x0400 [0xab; 0xcd] =? 13703)
           && (0x21 =? rfid_opcode (rfid m)) && (0x0400 =? 0)
        then TRUE else FALSE) /\
   rfid_error (rfid (fst (send_cmd None None m)))
     = (if crc_in 2 0x21 0x0400 [0xab; 0xcd] =? 13703 then END else CRC) /\
   rfid_opcode (rfid (fst (send_cmd None None m))) = 0x21 /\
   rfid_status (rfid (fst (send_cmd None None m))) = 0x0400).
Proof.
  intros quiet_m m. split.
  - destruct (send_cmd_success None None quiet_m) as (_ & _ & _ & Hq & _).
    apply Hq; [reflexivity | right; constructor].
  - destruct (send_cmd_success None None m) as (_ & _ & _ & _ & Hr).
    apply (Hr 2 0x21 0x0400 [0xab; 0xcd] 13703 []).
    + inv_by_computation.
    + reflexivity.
    + reflexivity.
    + reflexivity.
    + vm_compute. discriminate.
    + lia.
    + reflexivity.
    + lia.
    + repeat constructor; lia.
    + lia.
    + lia.
    + vm_compute. discriminate.
    + vm_compute. discriminate.
Defined.
